(** * MinecraftServerBot: authorization, backup pipeline, retention, scheduler

    A shallow embedding of [main.py].  The bot object and the part of the
    host it touches (backup directory, settings file, allow-list file,
    command file) form one explicit state record; every handler is a
    function on that state, and everything it does to the outside world
    (replies, server commands, service control, uploads, cron jobs, log
    lines) is appended to a trace of events, in program order.  What the
    operating system or a library answers (does the world directory exist,
    does the archive write succeed, does cron accept a specification) is
    read from a [host] record of oracles.

    Python integers are unbounded, hence [Z].  A Python [str] is held as
    its UTF-8 encoding, a string of bytes; [str.strip] and [int] decode the
    characters they classify, with the white space and decimal digits of
    Unicode 14.0 (CPython 3.11).  Modification times are ordered numbers,
    here [Z]. *)

From stdpp Require Import gmap strings list fin_maps pretty sorting.
From Stdlib Require Import ZArith Ascii Lia.

Local Open Scope Z_scope.

(** ** Values read from JSON and from the environment *)

Inductive jvalue :=
| JNull
| JBool (b : bool)
| JInt (n : Z)
| JStr (s : string).

#[global] Instance jvalue_eq_dec : EqDecision jvalue.
Proof. solve_decision. Defined.

(** Python truthiness, as used by [if not settings.get("enabled", False)]. *)
Definition truthy (v : jvalue) : bool :=
  match v with
  | JNull => false
  | JBool b => b
  | JInt n => negb (n =? 0)
  | JStr s => negb (String.eqb s "")
  end.

(** A value usable where Python wants an integer ([bool] is an [int]);
    [None] stands for the [TypeError] a string or [None] raises. *)
Definition as_int (v : jvalue) : option Z :=
  match v with
  | JInt n => Some n
  | JBool b => Some (if b then 1 else 0)
  | _ => None
  end.

(** [d.get(k, default)] *)
Definition dict_get (d : gmap string jvalue) (k : string) (default : jvalue) : jvalue :=
  match d !! k with
  | Some v => v
  | None => default
  end.

(** ** String helpers: the Python built-ins the handlers call *)

Module Py.

(** [s.split(sep)] for a one-character separator. *)
Fixpoint split (sep : ascii) (s : string) : list string :=
  match s with
  | EmptyString => [EmptyString]
  | String c s' =>
      if Ascii.eqb c sep then EmptyString :: split sep s'
      else match split sep s' with
           | [] => [String c EmptyString]
           | w :: ws => String c w :: ws
           end
  end.

(** The value of a byte. *)
Definition code (c : ascii) : Z := Z.of_N (N_of_ascii c).

(** The six payload bits of a UTF-8 continuation byte. *)
Definition cont (c : ascii) : option Z :=
  let n := code c in
  if (128 <=? n) && (n <? 192) then Some (n - 128) else None.

(** The code point a two-, three- or four-byte UTF-8 sequence encodes. *)
Definition cp2 (a b : ascii) : option Z :=
  if (192 <=? code a) && (code a <? 224)
  then match cont b with
       | Some x => Some ((code a - 192) * 64 + x)
       | None => None
       end
  else None.

Definition cp3 (a b c : ascii) : option Z :=
  if (224 <=? code a) && (code a <? 240)
  then match cont b, cont c with
       | Some x, Some y => Some ((code a - 224) * 4096 + x * 64 + y)
       | _, _ => None
       end
  else None.

Definition cp4 (a b c d : ascii) : option Z :=
  if (240 <=? code a) && (code a <? 248)
  then match cont b, cont c, cont d with
       | Some x, Some y, Some z => Some ((code a - 240) * 262144 + x * 4096 + y * 64 + z)
       | _, _, _ => None
       end
  else None.

(** The code points of a string; [None] when the bytes are not UTF-8. *)
Fixpoint decode (s : string) : option (list Z) :=
  match s with
  | EmptyString => Some []
  | String a r1 =>
      if code a <? 128 then cons (code a) <$> decode r1
      else
        match r1 with
        | EmptyString => None
        | String b r2 =>
            match cp2 a b with
            | Some cp => cons cp <$> decode r2
            | None =>
                match r2 with
                | EmptyString => None
                | String c r3 =>
                    match cp3 a b c with
                    | Some cp => cons cp <$> decode r3
                    | None =>
                        match r3 with
                        | EmptyString => None
                        | String d r4 =>
                            match cp4 a b c d with
                            | Some cp => cons cp <$> decode r4
                            | None => None
                            end
                        end
                    end
                end
            end
        end
  end.

(** [ch.isspace()]: the characters [str.strip] removes. *)
Definition isspace (cp : Z) : bool :=
  ((9 <=? cp) && (cp <=? 13)) || ((28 <=? cp) && (cp <=? 32))
  || (cp =? 133) || (cp =? 160) || (cp =? 5760)
  || ((8192 <=? cp) && (cp <=? 8202))
  || (cp =? 8232) || (cp =? 8233) || (cp =? 8239) || (cp =? 8287) || (cp =? 12288).

(** A white-space character at the head of a string, by the length of its
    encoding; none takes four bytes. *)
Definition space1 (a : ascii) : bool := (code a <? 128) && isspace (code a).

Definition space2 (a b : ascii) : bool :=
  match cp2 a b with
  | Some cp => isspace cp
  | None => false
  end.

Definition space3 (a b c : ascii) : bool :=
  match cp3 a b c with
  | Some cp => isspace cp
  | None => false
  end.

(** Dropping the leading characters that [sp1], [sp2] or [sp3] accept. *)
Fixpoint lstrip_by (sp1 : ascii -> bool) (sp2 : ascii -> ascii -> bool)
    (sp3 : ascii -> ascii -> ascii -> bool) (s : string) : string :=
  match s with
  | EmptyString => EmptyString
  | String a r1 =>
      if sp1 a then lstrip_by sp1 sp2 sp3 r1
      else
        match r1 with
        | EmptyString => s
        | String b r2 =>
            if sp2 a b then lstrip_by sp1 sp2 sp3 r2
            else
              match r2 with
              | EmptyString => s
              | String c r3 =>
                  if sp3 a b c then lstrip_by sp1 sp2 sp3 r3 else s
              end
        end
  end.

(** [s.lstrip()] *)
Definition lstrip (s : string) : string := lstrip_by space1 space2 space3 s.

(** [s.rstrip()]: the same on the reversed bytes, where each character
    shows its last byte first. *)
Definition rstrip (s : string) : string :=
  String.rev
    (lstrip_by space1 (λ b a, space2 a b) (λ c b a, space3 a b c) (String.rev s)).

(** [s.strip()] *)
Definition strip (s : string) : string := rstrip (lstrip s).

(** [pat in s] *)
Fixpoint contains (pat s : string) : bool :=
  String.prefix pat s ||
  match s with
  | EmptyString => false
  | String _ s' => contains pat s'
  end.

(** [s.startswith(pat)] *)
Definition startswith (pat s : string) : bool := String.prefix pat s.

(** [s.endswith(pat)] *)
Definition endswith (pat s : string) : bool :=
  String.prefix (String.rev pat) (String.rev s).

(** [s.replace(pat, "")] for a non-empty [pat]: every occurrence, scanning
    left to right; [skip] counts the characters of a match still to drop. *)
Fixpoint remove_go (pat s : string) (skip : nat) : string :=
  match s with
  | EmptyString => EmptyString
  | String c s' =>
      match skip with
      | S k => remove_go pat s' k
      | O => if String.prefix pat s
             then remove_go pat s' (String.length pat - 1)%nat
             else String c (remove_go pat s' O)
      end
  end.

Definition remove_all (pat s : string) : string := remove_go pat s O.

Definition digit_of (c : ascii) : option Z :=
  let n := nat_of_ascii c in
  if ((48 <=? n)%nat && (n <=? 57)%nat) then Some (Z.of_nat (n - 48)) else None.

(** Decimal digits, single underscores allowed between two digits. *)
Fixpoint parse_digits (s : string) (acc : Z) (after_digit : bool) : option Z :=
  match s with
  | EmptyString => if after_digit then Some acc else None
  | String c s' =>
      match digit_of c with
      | Some d => parse_digits s' (10 * acc + d) true
      | None =>
          if Ascii.eqb c "_"%char && after_digit
          then parse_digits s' acc false
          else None
      end
  end.

(** The code points of the digit zero of every decimal number system;
    the nine after each are its digits one to nine. *)
Definition decimal_zeros : list Z :=
  [ 48; 1632; 1776; 1984; 2406; 2534; 2662; 2790; 2918; 3046; 3174; 3302;
    3430; 3558; 3664; 3792; 3872; 4160; 4240; 6112; 6160; 6470; 6608; 6784;
    6800; 6992; 7088; 7232; 7248; 42528; 43216; 43264; 43472; 43504; 43600;
    44016; 65296; 66720; 68912; 69734; 69872; 69942; 70096; 70384; 70736;
    70864; 71248; 71360; 71472; 71904; 72016; 72784; 73040; 73120; 92768;
    92864; 93008; 120782; 120792; 120802; 120812; 120822; 123200; 123632;
    125264; 130032 ].

(** [unicodedata.decimal(ch)] *)
Definition decimal (cp : Z) : option Z :=
  (λ zero, cp - zero) <$> List.find (λ zero, (zero <=? cp) && (cp <? zero + 10)) decimal_zeros.

(** What [int] makes of one character before it parses: ASCII as it is,
    other white space a blank, other decimal digits their ASCII digit;
    anything else cannot be part of a number. *)
Definition to_ascii (cp : Z) : option ascii :=
  if cp <? 127 then Some (ascii_of_N (Z.to_N cp))
  else if isspace cp then Some " "%char
  else (λ d, ascii_of_N (Z.to_N (48 + d))) <$> decimal cp.

Fixpoint to_ascii_all (cps : list Z) : option string :=
  match cps with
  | [] => Some EmptyString
  | cp :: rest =>
      match to_ascii cp, to_ascii_all rest with
      | Some c, Some r => Some (String c r)
      | _, _ => None
      end
  end.

(** The white space the number parser skips at both ends: blank, tab, line
    feed, vertical tab, form feed, carriage return. *)
Definition c_isspace (c : ascii) : bool :=
  ((9 <=? code c) && (code c <=? 13)) || (code c =? 32).

Fixpoint c_lstrip (s : string) : string :=
  match s with
  | EmptyString => EmptyString
  | String c s' => if c_isspace c then c_lstrip s' else s
  end.

Definition c_strip (s : string) : string :=
  String.rev (c_lstrip (String.rev (c_lstrip s))).

(** How many decimal digits a literal has. *)
Fixpoint count_digits (s : string) : nat :=
  match s with
  | EmptyString => O
  | String c s' =>
      match digit_of c with
      | Some _ => S (count_digits s')
      | None => count_digits s'
      end
  end.

(** A literal of more than 4300 digits is refused. *)
Definition parse_number (s : string) : option Z :=
  if (4300 <? count_digits s)%nat then None else parse_digits s 0 false.

(** [int(s)]; [None] is [ValueError]. *)
Definition int (s : string) : option Z :=
  match decode s with
  | None => None
  | Some cps =>
      match to_ascii_all cps with
      | None => None
      | Some t =>
          match c_strip t with
          | String "+"%char r => parse_number r
          | String "-"%char r => Z.opp <$> parse_number r
          | r => parse_number r
          end
      end
  end.

(** [f"{n:02d}"] *)
Definition fmt02d (n : Z) : string :=
  if n <? 0 then pretty n
  else if n <? 10 then "0" +:+ pretty n
  else pretty n.

(** [l[k:]], negative [k] counting from the end. *)
Definition slice_from {A} (k : Z) (l : list A) : list A :=
  if k <? 0 then drop (length l - Z.to_nat (- k)) l
  else drop (Z.to_nat k) l.

End Py.

(** ** Configuration, files, events *)

Record Config := {
  ADMIN_ID : Z;
  BACKUP_CHAT_ID : Z;
  AUTO_BACKUP_ENABLED : bool;
  AUTO_BACKUP_INTERVAL : string;
  AUTO_BACKUP_TIME : string;
  AUTO_BACKUP_KEEP_COUNT : Z
}.

(** The class defaults of [Config]; the two identities have none. *)
Definition default_config (admin chat : Z) : Config :=
  {| ADMIN_ID := admin; BACKUP_CHAT_ID := chat;
     AUTO_BACKUP_ENABLED := false; AUTO_BACKUP_INTERVAL := "daily";
     AUTO_BACKUP_TIME := "03:00"; AUTO_BACKUP_KEEP_COUNT := 7 |}.

(** One entry of the backup directory.  [stat_raises]: [stat] on it raises
    [OSError] (a dangling link, a directory that cannot be searched), and
    there is no modification time to read.  [locked]: [unlink] on it raises
    [OSError].  [intact]: the archive was written to the end. *)
Record fstat := { st_mtime : Z; stat_raises : bool; locked : bool; intact : bool }.

(** A JSON file on disk: missing, present but no JSON text (reading it
    raises), or its content. *)
Inductive file_state (A : Type) :=
| Absent
| Corrupt
| Content (a : A).
Arguments Absent {A}.
Arguments Corrupt {A}.
Arguments Content {A} a.

(** An allow-list entry; [p.get("name")] is [None] when the key is missing. *)
Record player := { uuid : string; pname : option string }.

Inductive tar_result := TarOk | TarOpenFails | TarAddFails.

(** How [with open(path, mode) as f: ...] ends: the block ran to the end,
    [open] raised, or the block raised once the file was open. *)
Inductive write_result := Written | OpenFails | WriteFails.

(** What the host answers during one handler run. *)
Record host := {
  now_stamp : string;                 (* strftime("%Y%m%d_%H%M%S") *)
  now_mtime : Z;
  world_exists : bool;                (* /server/world exists *)
  tar_outcome : tar_result;           (* tarfile.open / tar.add *)
  upload_ok : bool;                   (* bot.send_document *)
  crontab_accepts : string -> bool;   (* aiocron.crontab(spec) does not raise *)
  settings_write : write_result;      (* open(settings_file, "w"), json.dump *)
  whitelist_write : write_result;     (* open(whitelist_file, "w"), json.dump *)
  command_write : write_result;       (* open(command_file, "a"), f.write *)
  command_partial : nat;              (* bytes of the line out before f.write raised *)
  rcon : string -> option string;     (* _try_rcon_command: the response *)
  systemctl_ok : string -> bool;      (* subprocess.run(..., check=True) *)
  service_state : option string;      (* systemctl is-active, stripped *)
  service_report : string;            (* systemctl status *)
  host_report : string;               (* uname, java, free, df lines *)
  logs_tail : Z -> string             (* journal or log files *)
}.

(** The file can be written: neither [open] nor the block under it raises. *)
Definition writable (r : write_result) : bool :=
  match r with
  | Written => true
  | _ => false
  end.

Definition settings_writable (h : host) : bool := writable (settings_write h).

Definition whitelist_writable (h : host) : bool := writable (whitelist_write h).

Definition command_file_writable (h : host) : bool := writable (command_write h).

Inductive backup_msg :=
| WorldDirMissing
| BackupCreated (name : string)
| BackupError.

Inductive level := INFO | ERROR.

Inductive log_msg :=
| AutoBackupStarted
| OldBackupDeleted (name : string)
| CleanupFailed
| AutoBackupSent (name : string)
| AutoBackupNotSent
| AutoBackupFailed (m : backup_msg)
| BackupsDisabled
| BackupsScheduled (interval : jvalue)
| ScheduleFailed
| SettingsSaveFailed
| SettingsLoadFailed
| WhitelistLoadFailed
| WhitelistSaveFailed
| CommandViaRcon (cmd response : string)
| CommandRecorded (cmd : string)
| CommandForServer (cmd : string)
| CommandFileFailed
| BotStarting.

Inductive notice := NoAccessBot | NoAccessCommand | NoAccessAlert.

Inductive server_status := Running | Stopped | OtherState (raw : string) | StatusUnavailable.

Inductive menu := MainMenu | ControlMenu | WhitelistMenu | BackupMenu | IntervalMenu | BackTo (data : string).

Inductive reply :=
| Rejected (n : notice)
| Welcome
| Help
| Status (s : server_status)
| ServerInfo (s : server_status) (report : string) (players : nat)
| Logs (text : string)
| ServiceStatus (text : string)
| Menu (m : menu)
| CreatingBackup
| BackupResult (ok : bool) (m : backup_msg)
| BackupNotUploaded
| Usage
| CommandSent (args : string)
| CommandFailed
| MessageSent (text : string)
| Whitelist (names : list (option string))
| WhitelistEmpty
| PickPlayer (names : list (option string))
| PlayerMissing (name : string)
| PlayerRemoved (name : string)
| PlayerRemoveFailed (name : string)
| PlayerExists (name : string)
| PlayerAdded (name : string)
| PlayerAddedFileOnly
| PlayerAddFailed (name : string)
| Prompt (text : string)
| SettingsView (settings : gmap string jvalue) (armed : bool)
| Toggled (enabled : bool)
| IntervalSet (interval : string)
| TimeSet (time : string)
| TimeInvalid
| CountSet (count : Z)
| CountInvalid
| Notify (text : string)
| ControlError.

(** A reply names what is shown and carries the data shown; markup,
    keyboards and the truncation of long texts are not modelled. *)

Inductive caption := ManualCaption | AutoCaption.

Inductive event :=
| Log (l : level) (m : log_msg)
| Answer (r : reply)                        (* message.answer *)
| EditText (r : reply)                      (* callback.message.edit_text *)
| CallbackAnswer (r : option reply) (show_alert : bool)   (* callback.answer *)
| ServerCommand (cmd : string)              (* delivered to the server over RCON *)
| Systemctl (verb : string) (ok : bool)
| Upload (chat : Z) (filename : string) (c : caption) (ok : bool)
| CronArm (spec : string)
| CronStop (spec : string)
| Sleep (seconds : Z).

(** ** The bot and the files it owns *)

Record bot := mkBot {
  config : Config;
  backup_settings : gmap string jvalue;
  backup_job : option string;               (* the armed cron job, by its spec *)
  whitelist_cache : list player;
  backup_dir : gmap string fstat;           (* /app/backups *)
  settings_file : file_state (gmap string jvalue);   (* backup_settings.json *)
  whitelist_file : file_state (list player);         (* whitelist.json *)
  command_file : string;                    (* /app/server_commands.txt, its content *)
  trace : list event
}.

Definition with_settings (d : gmap string jvalue) (b : bot) : bot :=
  mkBot (config b) d (backup_job b) (whitelist_cache b) (backup_dir b)
        (settings_file b) (whitelist_file b) (command_file b) (trace b).

Definition with_job (j : option string) (b : bot) : bot :=
  mkBot (config b) (backup_settings b) j (whitelist_cache b) (backup_dir b)
        (settings_file b) (whitelist_file b) (command_file b) (trace b).

Definition with_cache (w : list player) (b : bot) : bot :=
  mkBot (config b) (backup_settings b) (backup_job b) w (backup_dir b)
        (settings_file b) (whitelist_file b) (command_file b) (trace b).

Definition with_dir (d : gmap string fstat) (b : bot) : bot :=
  mkBot (config b) (backup_settings b) (backup_job b) (whitelist_cache b) d
        (settings_file b) (whitelist_file b) (command_file b) (trace b).

Definition with_settings_file (f : file_state (gmap string jvalue)) (b : bot) : bot :=
  mkBot (config b) (backup_settings b) (backup_job b) (whitelist_cache b) (backup_dir b)
        f (whitelist_file b) (command_file b) (trace b).

Definition with_whitelist_file (f : file_state (list player)) (b : bot) : bot :=
  mkBot (config b) (backup_settings b) (backup_job b) (whitelist_cache b) (backup_dir b)
        (settings_file b) f (command_file b) (trace b).

Definition with_command_file (content : string) (b : bot) : bot :=
  mkBot (config b) (backup_settings b) (backup_job b) (whitelist_cache b) (backup_dir b)
        (settings_file b) (whitelist_file b) content (trace b).

Definition emit (e : event) (b : bot) : bot :=
  mkBot (config b) (backup_settings b) (backup_job b) (whitelist_cache b) (backup_dir b)
        (settings_file b) (whitelist_file b) (command_file b) (trace b ++ [e]).

Definition emits (es : list event) (b : bot) : bot :=
  mkBot (config b) (backup_settings b) (backup_job b) (whitelist_cache b) (backup_dir b)
        (settings_file b) (whitelist_file b) (command_file b) (trace b ++ es).

(** [MinecraftServerBot.__init__] on a host with the given files. *)
Definition init (c : Config) (dir : gmap string fstat)
    (sf : file_state (gmap string jvalue)) (wf : file_state (list player))
    (cf : string) : bot :=
  {| config := c;
     backup_settings :=
       <["enabled" := JBool (AUTO_BACKUP_ENABLED c)]>
       (<["interval" := JStr (AUTO_BACKUP_INTERVAL c)]>
       (<["time" := JStr (AUTO_BACKUP_TIME c)]>
       (<["keep_count" := JInt (AUTO_BACKUP_KEEP_COUNT c)]> ∅)));
     backup_job := None;
     whitelist_cache := [];
     backup_dir := dir;
     settings_file := sf;
     whitelist_file := wf;
     command_file := cf;
     trace := [] |}.

(** ** Authorization *)

(** [is_admin] *)
Definition is_admin (b : bot) (user_id : Z) : bool :=
  user_id =? ADMIN_ID (config b).

(** ** Settings store *)

(** [save_backup_settings]: the result is [False] when the write raises.
    [open(settings_file, "w")] empties the file before [json.dump] runs, so
    an error after it leaves an empty file or the beginning of the text,
    which no [json.load] accepts. *)
Definition save_backup_settings (h : host) (b : bot) : bool * bot :=
  match settings_write h with
  | Written => (true, with_settings_file (Content (backup_settings b)) b)
  | OpenFails => (false, emit (Log ERROR SettingsSaveFailed) b)
  | WriteFails =>
      (false, emit (Log ERROR SettingsSaveFailed) (with_settings_file Corrupt b))
  end.

(** [load_backup_settings]: whatever object the file holds replaces the
    in-memory settings. *)
Definition load_backup_settings (b : bot) : bool * bot :=
  match settings_file b with
  | Content d => (true, with_settings d b)
  | Absent => (false, b)
  | Corrupt => (false, emit (Log ERROR SettingsLoadFailed) b)
  end.

(** ** Retention Manager *)

(** [fnmatch(name, "world_backup_*.tar.gz")] *)
Definition is_artifact_name (name : string) : bool :=
  Py.startswith "world_backup_" name && Py.endswith ".tar.gz" name
  && (20 <=? String.length name)%nat.

(** [list(self.backup_dir.glob("world_backup_*.tar.gz"))], in the order the
    directory yields its entries. *)
Definition glob_backups (dir : gmap string fstat) : list (string * fstat) :=
  filter (λ p, is_artifact_name p.1) (map_to_list dir).

Fixpoint insert_desc (x : string * fstat) (l : list (string * fstat))
    : list (string * fstat) :=
  match l with
  | [] => [x]
  | y :: l' =>
      if st_mtime x.2 <? st_mtime y.2 then y :: insert_desc x l' else x :: l
  end.

(** [backup_files.sort(key=lambda x: x.stat().st_mtime, reverse=True)]:
    newest first, equal keys in their original order (the sort is stable). *)
Definition sort_by_mtime_desc (l : list (string * fstat)) : list (string * fstat) :=
  foldr insert_desc [] l.

(** The [for old_backup in ...: old_backup.unlink()] loop; the flag is
    [true] when an [unlink] raised, which ends the loop. *)
Fixpoint unlink_each (files : list (string * fstat)) (b : bot) : bool * bot :=
  match files with
  | [] => (false, b)
  | (name, st) :: rest =>
      if locked st then (true, b)
      else unlink_each rest
             (emit (Log INFO (OldBackupDeleted name))
                (with_dir (delete name (backup_dir b)) b))
  end.

(** [backup_files[keep_count:]] when [len(backup_files) > keep_count].
    [None] is an exception before the loop: the [OSError] of an
    [x.stat()] while the sort computes its keys, which it does for every
    file before it moves one, or the [TypeError] of a keep_count that is no
    number. *)
Definition excess (b : bot) : option (list (string * fstat)) :=
  let backup_files := glob_backups (backup_dir b) in
  if existsb (λ p, stat_raises p.2) backup_files then None
  else
    let backup_files := sort_by_mtime_desc backup_files in
    match as_int (dict_get (backup_settings b) "keep_count" (JInt 7)) with
    | None => None
    | Some keep_count =>
        if keep_count <? Z.of_nat (length backup_files)
        then Some (Py.slice_from keep_count backup_files)
        else Some []
    end.

(** [cleanup_old_backups]; it returns nothing. *)
Definition cleanup_old_backups (b : bot) : bot :=
  match excess b with
  | None => emit (Log ERROR CleanupFailed) b
  | Some old =>
      let '(raised, b') := unlink_each old b in
      if raised then emit (Log ERROR CleanupFailed) b' else b'
  end.

(** ** Archive Builder *)

Definition backup_name (h : host) : string :=
  "world_backup_" +:+ now_stamp h +:+ ".tar.gz".

(** [create_backup].  [tarfile.open(backup_path, "w:gz")] creates the file
    under its final name before [tar.add] runs. *)
Definition create_backup (h : host) (b : bot)
    : (bool * backup_msg * option string) * bot :=
  if negb (world_exists h) then ((false, WorldDirMissing, None), b)
  else
    let name := backup_name h in
    let written ok :=
      with_dir (<[name := {| st_mtime := now_mtime h; stat_raises := false;
                             locked := false; intact := ok |}]>
                  (backup_dir b)) b in
    match tar_outcome h with
    | TarOk => ((true, BackupCreated name, Some name), written true)
    | TarOpenFails => ((false, BackupError, None), b)
    | TarAddFails => ((false, BackupError, None), written false)
    end.

(** ** Backup pipeline *)

(** [open(backup_path, "rb")] then [bot.send_document]: [true] when neither
    raised. *)
Definition send_backup (h : host) (path : string) (c : caption) (b : bot) : bool * bot :=
  match backup_dir b !! path with
  | None => (false, b)
  | Some _ =>
      (upload_ok h, emit (Upload (BACKUP_CHAT_ID (config b)) path c (upload_ok h)) b)
  end.

(** [auto_backup_task] *)
Definition auto_backup_task (h : host) (b : bot) : bot :=
  let b := emit (Log INFO AutoBackupStarted) b in
  let '((success, result, backup_path), b) := create_backup h b in
  match success, backup_path with
  | true, Some path =>
      let b := cleanup_old_backups b in
      let '(sent, b) := send_backup h path AutoCaption b in
      if sent then emit (Log INFO (AutoBackupSent path)) b
      else emit (Log ERROR AutoBackupNotSent) b
  | _, _ => emit (Log ERROR (AutoBackupFailed result)) b
  end.

(** ** Backup scheduler *)

Inductive plan := NoBranch | Job (spec : string) | Raised.

(** [aiocron.crontab(spec, func=self.auto_backup_task)] *)
Definition crontab (h : host) (spec : string) : plan :=
  if crontab_accepts h spec then Job spec else Raised.

(** [hour, minute = backup_time.split(":")] *)
Definition split_time (backup_time : jvalue) : option (string * string) :=
  match backup_time with
  | JStr s =>
      match Py.split ":" s with
      | [hour; minute] => Some (hour, minute)
      | _ => None
      end
  | _ => None
  end.

(** The [if interval == ... elif ...] chain inside the [try]. *)
Definition plan_job (h : host) (interval backup_time : jvalue) : plan :=
  if decide (interval = JStr "15min") then crontab h "*/15 * * * *"
  else if decide (interval = JStr "30min") then crontab h "*/30 * * * *"
  else if decide (interval = JStr "hourly") then crontab h "0 * * * *"
  else if decide (interval = JStr "daily") then
    match split_time backup_time with
    | Some (hour, minute) => crontab h (minute +:+ " " +:+ hour +:+ " * * *")
    | None => Raised
    end
  else if decide (interval = JStr "weekly") then
    match split_time backup_time with
    | Some (hour, minute) => crontab h (minute +:+ " " +:+ hour +:+ " * * 0")
    | None => Raised
    end
  else NoBranch.

(** [if self.backup_job: self.backup_job.stop(); self.backup_job = None] *)
Definition stop_job (b : bot) : bot :=
  match backup_job b with
  | Some spec => with_job None (emit (CronStop spec) b)
  | None => b
  end.

(** [setup_auto_backup] *)
Definition setup_auto_backup (h : host) (b : bot) : bot :=
  let b := stop_job b in
  if negb (truthy (dict_get (backup_settings b) "enabled" (JBool false)))
  then emit (Log INFO BackupsDisabled) b
  else
    let interval := dict_get (backup_settings b) "interval" (JStr "daily") in
    let backup_time := dict_get (backup_settings b) "time" (JStr "03:00") in
    match plan_job h interval backup_time with
    | Job spec =>
        emit (Log INFO (BackupsScheduled interval))
          (with_job (Some spec) (emit (CronArm spec) b))
    | NoBranch => b
    | Raised => emit (Log ERROR ScheduleFailed) b
    end.

(** ** Pass-through collaborators *)

(** [get_server_status] *)
Definition get_server_status (h : host) : server_status :=
  match service_state h with
  | Some status =>
      if String.eqb status "active" then Running
      else if String.eqb status "inactive" then Stopped
      else OtherState status
  | None => StatusUnavailable
  end.

(** [load_whitelist]: the list returned is the cache itself. *)
Definition load_whitelist (b : bot) : list player * bot :=
  match whitelist_file b with
  | Content l => (l, with_cache l b)
  | Absent => ([], with_cache [] b)
  | Corrupt => ([], with_cache [] (emit (Log ERROR WhitelistLoadFailed) b))
  end.

(** [save_whitelist]; as for the settings, an error after
    [open(whitelist_file, "w")] leaves a file that does not parse. *)
Definition save_whitelist (h : host) (whitelist : list player) (b : bot) : bool * bot :=
  match whitelist_write h with
  | Written => (true, with_cache whitelist (with_whitelist_file (Content whitelist) b))
  | OpenFails => (false, emit (Log ERROR WhitelistSaveFailed) b)
  | WriteFails =>
      (false, emit (Log ERROR WhitelistSaveFailed) (with_whitelist_file Corrupt b))
  end.

(** The line feed character. *)
Definition line_feed : ascii := "010"%char.

(** [f"{command}\n"] *)
Definition command_line (command : string) : string :=
  command +:+ String line_feed EmptyString.

(** [execute_server_command]: RCON first, else the command and a line feed
    appended to the command file.  The file is opened for appending, so an
    error in [f.write] leaves what was there and as much of the new text
    as got out. *)
Definition execute_server_command (h : host) (command : string) (b : bot) : bool * bot :=
  match rcon h command with
  | Some response =>
      (true, emit (Log INFO (CommandViaRcon command response))
               (emit (ServerCommand command) b))
  | None =>
      match command_write h with
      | Written =>
          (true, emits [Log INFO (CommandRecorded command);
                        Log INFO (CommandForServer command)]
                   (with_command_file (command_file b +:+ command_line command) b))
      | OpenFails => (false, emit (Log ERROR CommandFileFailed) b)
      | WriteFails =>
          (false, emit (Log ERROR CommandFileFailed)
                    (with_command_file
                       (command_file b
                        +:+ String.substring 0 (command_partial h) (command_line command))
                       b))
      end
  end.

(** [get_server_info] reads the allow-list, which refreshes the cache. *)
Definition get_server_info (h : host) (b : bot) : reply * bot :=
  let '(whitelist, b) := load_whitelist b in
  (ServerInfo (get_server_status h) (host_report h) (length whitelist), b).

(** [get_logs] *)
Definition get_logs (h : host) (lines : Z) : string := logs_tail h lines.

(** ** Requests *)

Inductive command :=
| CmdStart | CmdStatus | CmdInfo | CmdLogs | CmdWhitelist | CmdBackup
| CmdCommand | CmdMessage | CmdHelp.

Inductive button :=
| BServerStatus | BServerInfo | BServerLogs | BServiceStatus | BServerControl
| BWhitelistMenu | BShowWhitelist | BBackToMain
| BStartServer | BStopServer | BRestartServer | BSaveWorld
| BWeatherClear | BWeatherRain | BWeatherThunder | BTimeDay | BTimeNight
| BListPlayers | BAddPlayer | BRemovePlayer | BRemovePlayerConfirm
| BRefreshWhitelist | BCreateBackup | BSendMessage
| BBackupSettings | BToggleAutoBackup | BSetBackupInterval | BSetInterval
| BSetBackupTime | BSetBackupCount.

(** A Telegram update as the dispatcher sees it.  A text that is no
    registered command reaches the free-text handler; [reply_to] is the
    text of the message it replies to, if any. *)
Inductive request :=
| SlashCommand (c : command) (args : option string)
| ButtonPress (data : string)
| TextMessage (text : string) (reply_to : option string).

Inductive data_filter := Exactly (s : string) | StartsWith (s : string).

Definition matches (f : data_filter) (data : string) : bool :=
  match f with
  | Exactly s => String.eqb data s
  | StartsWith s => Py.startswith s data
  end.

(** The [@self.router.callback_query(...)] decorators, in registration order. *)
Definition callback_routes : list (data_filter * button) :=
  [ (Exactly "server_status", BServerStatus);
    (Exactly "server_info", BServerInfo);
    (Exactly "server_logs", BServerLogs);
    (Exactly "service_status", BServiceStatus);
    (Exactly "server_control", BServerControl);
    (Exactly "whitelist_menu", BWhitelistMenu);
    (Exactly "show_whitelist", BShowWhitelist);
    (Exactly "back_to_main", BBackToMain);
    (Exactly "start_server", BStartServer);
    (Exactly "stop_server", BStopServer);
    (Exactly "restart_server", BRestartServer);
    (Exactly "save_world", BSaveWorld);
    (Exactly "weather_clear", BWeatherClear);
    (Exactly "weather_rain", BWeatherRain);
    (Exactly "weather_thunder", BWeatherThunder);
    (Exactly "time_day", BTimeDay);
    (Exactly "time_night", BTimeNight);
    (Exactly "list_players", BListPlayers);
    (Exactly "add_player", BAddPlayer);
    (Exactly "remove_player", BRemovePlayer);
    (StartsWith "remove_player_", BRemovePlayerConfirm);
    (Exactly "refresh_whitelist", BRefreshWhitelist);
    (Exactly "create_backup", BCreateBackup);
    (Exactly "send_message", BSendMessage);
    (Exactly "backup_settings", BBackupSettings);
    (Exactly "toggle_auto_backup", BToggleAutoBackup);
    (Exactly "set_backup_interval", BSetBackupInterval);
    (StartsWith "interval_", BSetInterval);
    (Exactly "set_backup_time", BSetBackupTime);
    (Exactly "set_backup_count", BSetBackupCount) ].

(** The first handler whose filter accepts the callback data. *)
Definition route_callback (data : string) : option button :=
  snd <$> List.find (λ r, matches r.1 data) callback_routes.

(** ** Command handlers *)

Definition deny_message (n : notice) (b : bot) : bot := emit (Answer (Rejected n)) b.

Definition deny_callback (b : bot) : bot :=
  emit (CallbackAnswer (Some (Rejected NoAccessAlert)) true) b.

Definition cmd_start (h : host) (uid : Z) (b : bot) : bot :=
  if negb (is_admin b uid) then deny_message NoAccessBot b
  else emit (Answer Welcome) b.

Definition cmd_status (h : host) (uid : Z) (b : bot) : bot :=
  if negb (is_admin b uid) then deny_message NoAccessCommand b
  else emit (Answer (Status (get_server_status h))) b.

Definition cmd_info (h : host) (uid : Z) (b : bot) : bot :=
  if negb (is_admin b uid) then deny_message NoAccessCommand b
  else
    let '(info, b) := get_server_info h b in
    emit (Answer info) b.

(** [lines] of [cmd_logs]: 50 unless the argument parses, then at most 200. *)
Definition logs_lines (args : option string) : Z :=
  match args with
  | Some a =>
      if String.eqb a "" then 50
      else match Py.int a with
           | Some n => Z.min n 200
           | None => 50
           end
  | None => 50
  end.

Definition cmd_logs (h : host) (uid : Z) (args : option string) (b : bot) : bot :=
  if negb (is_admin b uid) then deny_message NoAccessCommand b
  else emit (Answer (Logs (get_logs h (logs_lines args)))) b.

Definition cmd_whitelist (h : host) (uid : Z) (b : bot) : bot :=
  if negb (is_admin b uid) then deny_message NoAccessCommand b
  else emit (Answer (Menu WhitelistMenu)) b.

(** [cmd_backup]: the archive is built and uploaded; no retention pass. *)
Definition cmd_backup (h : host) (uid : Z) (b : bot) : bot :=
  if negb (is_admin b uid) then deny_message NoAccessCommand b
  else
    let b := emit (Answer CreatingBackup) b in
    let '((success, result, backup_path), b) := create_backup h b in
    match success, backup_path with
    | true, Some path =>
        let b := emit (Answer (BackupResult true result)) b in
        let '(sent, b) := send_backup h path ManualCaption b in
        if sent then b else emit (Answer BackupNotUploaded) b
    | _, _ => emit (Answer (BackupResult false result)) b
    end.

(** [if not command.args] *)
Definition no_args (args : option string) : bool :=
  match args with
  | Some a => String.eqb a ""
  | None => true
  end.

Definition cmd_command (h : host) (uid : Z) (args : option string) (b : bot) : bot :=
  if negb (is_admin b uid) then deny_message NoAccessCommand b
  else if no_args args then emit (Answer Usage) b
  else
    let a := default "" args in
    let '(success, b) := execute_server_command h a b in
    if success then emit (Answer (CommandSent a)) b
    else emit (Answer CommandFailed) b.

Definition cmd_message (h : host) (uid : Z) (args : option string) (b : bot) : bot :=
  if negb (is_admin b uid) then deny_message NoAccessCommand b
  else if no_args args then emit (Answer Usage) b
  else
    let a := default "" args in
    let '(success, b) := execute_server_command h ("say " +:+ a) b in
    if success then emit (Answer (MessageSent a)) b
    else emit (Answer CommandFailed) b.

Definition cmd_help (h : host) (uid : Z) (b : bot) : bot :=
  if negb (is_admin b uid) then deny_message NoAccessCommand b
  else emit (Answer Help) b.

(** ** Button handlers *)

(** [await callback.answer()] *)
Definition ack (b : bot) : bot := emit (CallbackAnswer None false) b.

Definition callback_server_status (h : host) (uid : Z) (b : bot) : bot :=
  if negb (is_admin b uid) then deny_callback b
  else ack (emit (EditText (Status (get_server_status h))) b).

Definition callback_server_info (h : host) (uid : Z) (b : bot) : bot :=
  if negb (is_admin b uid) then deny_callback b
  else
    let '(info, b) := get_server_info h b in
    ack (emit (EditText info) b).

Definition callback_server_logs (h : host) (uid : Z) (b : bot) : bot :=
  if negb (is_admin b uid) then deny_callback b
  else ack (emit (EditText (Logs (get_logs h 50))) b).

Definition callback_service_status (h : host) (uid : Z) (b : bot) : bot :=
  if negb (is_admin b uid) then deny_callback b
  else ack (emit (EditText (ServiceStatus (service_report h))) b).

Definition callback_menu (m : menu) (uid : Z) (b : bot) : bot :=
  if negb (is_admin b uid) then deny_callback b
  else ack (emit (EditText (Menu m)) b).

Definition callback_show_whitelist (h : host) (uid : Z) (b : bot) : bot :=
  if negb (is_admin b uid) then deny_callback b
  else
    let '(whitelist, b) := load_whitelist b in
    match whitelist with
    | [] => ack (emit (EditText WhitelistEmpty) b)
    | _ => ack (emit (EditText (Whitelist (pname <$> whitelist))) b)
    end.

(** [callback_start_server], [callback_stop_server], [callback_restart_server]:
    an optional warning to the players, then the service manager. *)
Definition service_control (h : host) (verb : string) (warning : option string)
    (done_text : string) (settle : Z) (b : bot) : bot :=
  let b :=
    match warning with
    | Some w => emit (Sleep 10) (execute_server_command h w b).2
    | None => b
    end in
  if systemctl_ok h verb
  then emits [Systemctl verb true; CallbackAnswer (Some (Notify done_text)) false;
              Sleep settle; EditText (Status (get_server_status h))] b
  else emits [Systemctl verb false; CallbackAnswer (Some ControlError) false] b.

Definition callback_start_server (h : host) (uid : Z) (b : bot) : bot :=
  if negb (is_admin b uid) then deny_callback b
  else service_control h "start" None "Сервер запускается..." 3 b.

Definition callback_stop_server (h : host) (uid : Z) (b : bot) : bot :=
  if negb (is_admin b uid) then deny_callback b
  else service_control h "stop"
         (Some "say ⚠️ Сервер останавливается через 10 секунд!")
         "Сервер остановлен" 3 b.

Definition callback_restart_server (h : host) (uid : Z) (b : bot) : bot :=
  if negb (is_admin b uid) then deny_callback b
  else service_control h "restart"
         (Some "say ⚠️ Сервер перезагружается через 10 секунд!")
         "Сервер перезагружается..." 5 b.

(** [callback_save_world], the weather and time buttons, [callback_list_players],
    [callback_refresh_whitelist]: one fixed server command, result ignored. *)
Definition callback_fixed_command (h : host) (uid : Z) (cmd note : string) (b : bot) : bot :=
  if negb (is_admin b uid) then deny_callback b
  else
    let '(_, b) := execute_server_command h cmd b in
    emit (CallbackAnswer (Some (Notify note)) false) b.

Definition add_player_prompt : string :=
  "Введите никнейм игрока для добавления в белый список:".

Definition send_message_prompt : string :=
  "Введите сообщение для отправки в чат сервера:".

Definition backup_time_prompt : string :=
  "Введите время для бэкапов в формате ЧЧ:ММ".

Definition backup_count_prompt : string :=
  "Введите количество бэкапов для хранения".

Definition callback_prompt (text : string) (uid : Z) (b : bot) : bot :=
  if negb (is_admin b uid) then deny_callback b
  else ack (emit (EditText (Prompt text)) b).

Definition callback_remove_player (h : host) (uid : Z) (b : bot) : bot :=
  if negb (is_admin b uid) then deny_callback b
  else
    let '(whitelist, b) := load_whitelist b in
    match whitelist with
    | [] => ack (emit (EditText WhitelistEmpty) b)
    | _ => ack (emit (EditText (PickPlayer (pname <$> whitelist))) b)
    end.

Definition callback_remove_player_confirm (h : host) (uid : Z) (data : string) (b : bot) : bot :=
  if negb (is_admin b uid) then deny_callback b
  else
    let player_name := Py.remove_all "remove_player_" data in
    let '(whitelist, b) := load_whitelist b in
    let new_whitelist := filter (λ p, pname p ≠ Some player_name) whitelist in
    if (length new_whitelist =? length whitelist)%nat
    then ack (emit (EditText (PlayerMissing player_name)) b)
    else
      let '(saved, b) := save_whitelist h new_whitelist b in
      if saved then
        let '(_, b) := execute_server_command h ("whitelist remove " +:+ player_name) b in
        let '(_, b) := execute_server_command h "whitelist reload" b in
        ack (emit (EditText (PlayerRemoved player_name)) b)
      else ack (emit (EditText (PlayerRemoveFailed player_name)) b).

(** [callback_create_backup]: as [cmd_backup], through the edited message. *)
Definition callback_create_backup (h : host) (uid : Z) (b : bot) : bot :=
  if negb (is_admin b uid) then deny_callback b
  else
    let b := emit (EditText CreatingBackup) b in
    let '((success, result, backup_path), b) := create_backup h b in
    match success, backup_path with
    | true, Some path =>
        let b := emit (EditText (BackupResult true result)) b in
        let '(sent, b) := send_backup h path ManualCaption b in
        ack (if sent then b else emit (EditText BackupNotUploaded) b)
    | _, _ => ack (emit (EditText (BackupResult false result)) b)
    end.

(** [_get_backup_settings_text] with [get_backup_settings_keyboard] *)
Definition settings_view (b : bot) : reply :=
  SettingsView (backup_settings b) (bool_decide (is_Some (backup_job b))).

Definition callback_backup_settings (h : host) (uid : Z) (b : bot) : bot :=
  if negb (is_admin b uid) then deny_callback b
  else ack (emit (EditText (settings_view b)) b).

Definition callback_toggle_auto_backup (h : host) (uid : Z) (b : bot) : bot :=
  if negb (is_admin b uid) then deny_callback b
  else
    let enabled := negb (truthy (dict_get (backup_settings b) "enabled" (JBool false))) in
    let b := with_settings (<["enabled" := JBool enabled]> (backup_settings b)) b in
    let '(_, b) := save_backup_settings h b in
    let b := setup_auto_backup h b in
    let b := emit (CallbackAnswer (Some (Toggled enabled)) false) b in
    emit (EditText (settings_view b)) b.

Definition callback_set_interval (h : host) (uid : Z) (data : string) (b : bot) : bot :=
  if negb (is_admin b uid) then deny_callback b
  else
    let interval := Py.remove_all "interval_" data in
    let b := with_settings (<["interval" := JStr interval]> (backup_settings b)) b in
    let '(_, b) := save_backup_settings h b in
    let b := setup_auto_backup h b in
    let b := emit (CallbackAnswer (Some (IntervalSet interval)) false) b in
    emit (EditText (settings_view b)) b.

(** ** Free-text handler *)

(** The validation of a typed backup time; [None] is the [ValueError]. *)
Definition parse_backup_time (time_text : string) : option string :=
  match Py.split ":" time_text with
  | [part0; part1] =>
      match Py.int part0, Py.int part1 with
      | Some hour, Some minute =>
          if (0 <=? hour) && (hour <=? 23) && (0 <=? minute) && (minute <=? 59)
          then Some (Py.fmt02d hour +:+ ":" +:+ Py.fmt02d minute)
          else None
      | _, _ => None
      end
  | _ => None
  end.

(** The validation of a typed keep count; [None] is the [ValueError]. *)
Definition parse_keep_count (text : string) : option Z :=
  match Py.int (Py.strip text) with
  | Some count => if (count <? 1) || (50 <? count) then None else Some count
  | None => None
  end.

(** [reply_to_message and reply_to_message.text and pat in reply_to_message.text] *)
Definition replies_to (pat : string) (reply_to : option string) : bool :=
  match reply_to with
  | Some t => Py.contains pat t
  | None => false
  end.

Definition add_player (h : host) (text : string) (b : bot) : bot :=
  let player_name := Py.strip text in
  let '(whitelist, b) := load_whitelist b in
  if bool_decide (Exists (λ p, pname p = Some player_name) whitelist)
  then emit (Answer (PlayerExists player_name)) b
  else
    (* [whitelist.append] works on the cached list itself *)
    let whitelist := whitelist ++ [{| uuid := ""; pname := Some player_name |}] in
    let b := with_cache whitelist b in
    let '(saved, b) := save_whitelist h whitelist b in
    if saved then
      let '(success, b) := execute_server_command h ("whitelist add " +:+ player_name) b in
      let '(_, b) := execute_server_command h "whitelist reload" b in
      if success then emit (Answer (PlayerAdded player_name)) b
      else emit (Answer PlayerAddedFileOnly) b
    else emit (Answer (PlayerAddFailed player_name)) b.

Definition say_message (h : host) (text : string) (b : bot) : bot :=
  let text := Py.strip text in
  let '(success, b) := execute_server_command h ("say " +:+ text) b in
  if success then emit (Answer (MessageSent text)) b
  else emit (Answer CommandFailed) b.

Definition set_backup_time (h : host) (text : string) (b : bot) : bot :=
  match parse_backup_time (Py.strip text) with
  | Some formatted_time =>
      let b := with_settings (<["time" := JStr formatted_time]> (backup_settings b)) b in
      let '(_, b) := save_backup_settings h b in
      let b := setup_auto_backup h b in
      emit (Answer (TimeSet formatted_time)) b
  | None => emit (Answer TimeInvalid) b
  end.

Definition set_backup_count (h : host) (text : string) (b : bot) : bot :=
  match parse_keep_count text with
  | Some count =>
      let b := with_settings (<["keep_count" := JInt count]> (backup_settings b)) b in
      let '(_, b) := save_backup_settings h b in
      emit (Answer (CountSet count)) b
  | None => emit (Answer CountInvalid) b
  end.

(** [handle_text]: a non-administrator gets no answer at all. *)
Definition handle_text (h : host) (uid : Z) (text : string) (reply_to : option string)
    (b : bot) : bot :=
  if negb (is_admin b uid) then b
  else if replies_to "никнейм игрока" reply_to then add_player h text b
  else if replies_to "сообщение для отправки" reply_to then say_message h text b
  else if replies_to "время для бэкапов" reply_to then set_backup_time h text b
  else if replies_to "количество бэкапов" reply_to then set_backup_count h text b
  else emit (Answer (Menu MainMenu)) b.

(** ** Dispatch *)

Definition on_command (h : host) (uid : Z) (c : command) (args : option string)
    (b : bot) : bot :=
  match c with
  | CmdStart => cmd_start h uid b
  | CmdStatus => cmd_status h uid b
  | CmdInfo => cmd_info h uid b
  | CmdLogs => cmd_logs h uid args b
  | CmdWhitelist => cmd_whitelist h uid b
  | CmdBackup => cmd_backup h uid b
  | CmdCommand => cmd_command h uid args b
  | CmdMessage => cmd_message h uid args b
  | CmdHelp => cmd_help h uid b
  end.

Definition on_button (h : host) (uid : Z) (btn : button) (data : string) (b : bot) : bot :=
  match btn with
  | BServerStatus => callback_server_status h uid b
  | BServerInfo => callback_server_info h uid b
  | BServerLogs => callback_server_logs h uid b
  | BServiceStatus => callback_service_status h uid b
  | BServerControl => callback_menu ControlMenu uid b
  | BWhitelistMenu => callback_menu WhitelistMenu uid b
  | BShowWhitelist => callback_show_whitelist h uid b
  | BBackToMain => callback_menu MainMenu uid b
  | BStartServer => callback_start_server h uid b
  | BStopServer => callback_stop_server h uid b
  | BRestartServer => callback_restart_server h uid b
  | BSaveWorld =>
      callback_fixed_command h uid "save-all" "Команда сохранения отправлена" b
  | BWeatherClear =>
      callback_fixed_command h uid "weather clear"
        "Команда установки ясной погоды отправлена" b
  | BWeatherRain =>
      callback_fixed_command h uid "weather rain" "Команда установки дождя отправлена" b
  | BWeatherThunder =>
      callback_fixed_command h uid "weather thunder" "Команда установки грозы отправлена" b
  | BTimeDay =>
      callback_fixed_command h uid "time set day" "Команда установки дня отправлена" b
  | BTimeNight =>
      callback_fixed_command h uid "time set night" "Команда установки ночи отправлена" b
  | BListPlayers =>
      callback_fixed_command h uid "list"
        "Команда списка игроков отправлена, проверьте логи" b
  | BAddPlayer => callback_prompt add_player_prompt uid b
  | BRemovePlayer => callback_remove_player h uid b
  | BRemovePlayerConfirm => callback_remove_player_confirm h uid data b
  | BRefreshWhitelist =>
      callback_fixed_command h uid "whitelist reload" "Белый список обновлен на сервере" b
  | BCreateBackup => callback_create_backup h uid b
  | BSendMessage => callback_prompt send_message_prompt uid b
  | BBackupSettings => callback_backup_settings h uid b
  | BToggleAutoBackup => callback_toggle_auto_backup h uid b
  | BSetBackupInterval => callback_menu IntervalMenu uid b
  | BSetInterval => callback_set_interval h uid data b
  | BSetBackupTime => callback_prompt backup_time_prompt uid b
  | BSetBackupCount => callback_prompt backup_count_prompt uid b
  end.

(** One update from Telegram, sent by the user [uid]. *)
Definition dispatch (h : host) (uid : Z) (req : request) (b : bot) : bot :=
  match req with
  | SlashCommand c args => on_command h uid c args b
  | ButtonPress data =>
      match route_callback data with
      | Some btn => on_button h uid btn data b
      | None => b
      end
  | TextMessage text reply_to => handle_text h uid text reply_to b
  end.

(** ** The process: startup, then updates and timer fires *)

(** [start_polling] up to the polling loop. *)
Definition start_polling (h : host) (b : bot) : bot :=
  let b := emit (Log INFO BotStarting) b in
  let '(_, b) := load_whitelist b in
  let '(_, b) := load_backup_settings b in
  setup_auto_backup h b.

Inductive input :=
| Update (uid : Z) (req : request)
| TimerFired.

(** The armed cron job calls [auto_backup_task]. *)
Definition step (h : host) (i : input) (b : bot) : bot :=
  match i with
  | Update uid req => dispatch h uid req b
  | TimerFired =>
      match backup_job b with
      | Some _ => auto_backup_task h b
      | None => b
      end
  end.

Definition run (inputs : list (host * input)) (b : bot) : bot :=
  foldl (λ b hi, step hi.1 hi.2 b) b inputs.

(** ** Specification vocabulary *)

(** The five interval names the scheduler knows. *)
Definition recognized_interval (v : jvalue) : bool :=
  bool_decide (v ∈ [JStr "15min"; JStr "30min"; JStr "hourly"; JStr "daily"; JStr "weekly"]).

Definition enabled (b : bot) : bool :=
  truthy (dict_get (backup_settings b) "enabled" (JBool false)).

Definition interval_of (b : bot) : jvalue :=
  dict_get (backup_settings b) "interval" (JStr "daily").

Definition time_of (b : bot) : jvalue :=
  dict_get (backup_settings b) "time" (JStr "03:00").

Definition keep_count_of (b : bot) : jvalue :=
  dict_get (backup_settings b) "keep_count" (JInt 7).

(** The events [stop_job] leaves on the trace. *)
Definition stop_events (b : bot) : list event :=
  match backup_job b with
  | Some spec => [CronStop spec]
  | None => []
  end.

(** The artifacts in the backup directory. *)
Definition artifacts (b : bot) : list (string * fstat) := glob_backups (backup_dir b).

(** The artifacts sorted as the retention pass sorts them. *)
Definition newest_first (b : bot) : list (string * fstat) :=
  sort_by_mtime_desc (artifacts b).


Definition unlocked (p : string * fstat) : Prop := locked p.2 = false.

(** A file whose modification time can be read. *)
Definition statable (p : string * fstat) : Prop := stat_raises p.2 = false.


(** The state after the files [files] were unlinked one after the other,
    each with its log line. *)
Definition deleted (files : list (string * fstat)) (b : bot) : bot :=
  emits ((λ p, Log INFO (OldBackupDeleted p.1)) <$> files)
    (with_dir (foldl (λ d p, delete p.1 d) (backup_dir b) files) b).

(** A 24-hour time written [HH:MM]. *)
Definition valid_time (s : string) : bool :=
  match s with
  | String h1 (String h2 (String c (String m1 (String m2 EmptyString)))) =>
      match Py.digit_of h1, Py.digit_of h2, Py.digit_of m1, Py.digit_of m2 with
      | Some a, Some b, Some x, Some y =>
          Ascii.eqb c ":" && (10 * a + b <=? 23) && (10 * x + y <=? 59)
      | _, _, _, _ => false
      end
  | _ => false
  end.

(** The invariant of the data model: the keep count in use is an integer
    between 1 and 50 and the time in use is a valid 24-hour time. *)
Definition settings_ok (d : gmap string jvalue) : bool :=
  match dict_get d "keep_count" (JInt 7) with
  | JInt k => (1 <=? k) && (k <=? 50)
  | _ => false
  end &&
  match dict_get d "time" (JStr "03:00") with
  | JStr t => valid_time t
  | _ => false
  end.

(** What a non-administrator gets back: a rejection message for a command,
    a rejection alert for a button some handler is registered for, and
    nothing for a free text or for callback data no handler takes. *)
Definition rejection (req : request) : list event :=
  match req with
  | SlashCommand CmdStart _ => [Answer (Rejected NoAccessBot)]
  | SlashCommand _ _ => [Answer (Rejected NoAccessCommand)]
  | ButtonPress data =>
      match route_callback data with
      | Some _ => [CallbackAnswer (Some (Rejected NoAccessAlert)) true]
      | None => []
      end
  | TextMessage _ _ => []
  end.

(** An event that tells the requester the request was refused. *)
Definition is_rejection (e : event) : bool :=
  match e with
  | Answer (Rejected _) | EditText (Rejected _) | CallbackAnswer (Some (Rejected _)) _ => true
  | _ => false
  end.

(** ** Sample hosts and states *)

Module Sample.

Definition quiet : host :=
  {| now_stamp := "20240101_030000"; now_mtime := 100;
     world_exists := true; tar_outcome := TarOk; upload_ok := true;
     crontab_accepts := λ _, true;
     settings_write := Written; whitelist_write := Written;
     command_write := Written; command_partial := 0;
     rcon := λ _, None; systemctl_ok := λ _, true;
     service_state := Some "active"; service_report := "";
     host_report := ""; logs_tail := λ _, "" |}.

Definition with_tar (r : tar_result) (exists_ : bool) : host :=
  {| now_stamp := now_stamp quiet; now_mtime := now_mtime quiet;
     world_exists := exists_; tar_outcome := r; upload_ok := true;
     crontab_accepts := crontab_accepts quiet;
     settings_write := Written; whitelist_write := Written;
     command_write := Written; command_partial := 0;
     rcon := rcon quiet; systemctl_ok := systemctl_ok quiet;
     service_state := service_state quiet; service_report := "";
     host_report := ""; logs_tail := logs_tail quiet |}.

Definition admin : Z := 42.
Definition stranger : Z := 7.

Definition cfg : Config := default_config admin (-1001).

Definition file (mtime : Z) (is_locked : bool) : fstat :=
  {| st_mtime := mtime; stat_raises := false; locked := is_locked; intact := true |}.

Definition settings (on : bool) (interval time : string) (keep : Z)
    : gmap string jvalue :=
  <["enabled" := JBool on]>
  (<["interval" := JStr interval]>
  (<["time" := JStr time]>
  (<["keep_count" := JInt keep]> ∅))).

(** Three archives, newest first by name: [a], [b], [c]. *)
Definition three (b_locked : bool) : gmap string fstat :=
  <["world_backup_a.tar.gz" := file 3 false]>
  (<["world_backup_b.tar.gz" := file 2 b_locked]>
  (<["world_backup_c.tar.gz" := file 1 false]>
  (<["notes.txt" := file 0 false]> ∅))).

(** A bot as [__init__] leaves it, then given the settings [d]. *)
Definition bot_with (d : gmap string jvalue) (dir : gmap string fstat) : bot :=
  with_settings d (init cfg dir Absent Absent "").

(** A bot started on a host whose settings file holds [d]. *)
Definition started (d : gmap string jvalue) : bot :=
  start_polling quiet (init cfg ∅ (Content d) Absent "").

End Sample.

(** ** Further vocabulary *)

(** What the scheduler works from: the settings in use, the armed job and
    the settings on disk. *)
Definition scheduling (b : bot)
    : gmap string jvalue * option string * file_state (gmap string jvalue) :=
  (backup_settings b, backup_job b, settings_file b).

(** The requests that can reach a handler that writes the settings. *)
Definition reconfigures (req : request) : bool :=
  match req with
  | SlashCommand _ _ => false
  | ButtonPress data =>
      match route_callback data with
      | Some BToggleAutoBackup | Some BSetInterval => true
      | _ => false
      end
  | TextMessage _ reply_to =>
      replies_to "время для бэкапов" reply_to || replies_to "количество бэкапов" reply_to
  end.

(** The armed job is the one the settings in use ask for, and there is one
    only while backups are enabled. *)
Definition armed_matches (b : bot) : Prop :=
  ∀ spec, backup_job b = Some spec →
    enabled b = true ∧
    ∀ h, plan_job h (interval_of b) (time_of b) = crontab h spec.

(** The settings on disk are the settings in use. *)
Definition in_sync (b : bot) : Prop := settings_file b = Content (backup_settings b).

(** The allow-list as the handlers read it from the file. *)
Definition whitelist_on_disk (b : bot) : list player :=
  match whitelist_file b with
  | Content l => l
  | _ => []
  end.

(** The names in an allow-list, entries without a name left out. *)
Definition names (l : list player) : list string := omap pname l.

(** What the allow-list handlers work from. *)
Definition wframe (b : bot) : Config * file_state (list player) :=
  (config b, whitelist_file b).

(** What one step on the host [h] can do to the allow-list file: nothing;
    when the file can be written, replace it by what was read with a name
    not yet listed appended or with a name filtered out; when a write
    fails once the file is open, leave a file that does not parse. *)
Definition whitelist_step (h : host) (b b' : bot) : Prop :=
  whitelist_file b' = whitelist_file b ∨
  (whitelist_write h = Written ∧
   ((∃ name, (name ∉ names (whitelist_on_disk b)) ∧
       whitelist_file b'
         = Content (whitelist_on_disk b ++ [{| uuid := ""; pname := Some name |}])) ∨
    (∃ name,
       whitelist_file b'
         = Content (filter (λ p, pname p ≠ Some name) (whitelist_on_disk b))))) ∨
  (whitelist_write h = WriteFails ∧ whitelist_file b' = Corrupt).

(** How many line feeds a text holds: the lines it ends. *)
Fixpoint line_feeds (s : string) : nat :=
  match s with
  | EmptyString => O
  | String c s' => if Ascii.eqb c line_feed then S (line_feeds s') else line_feeds s'
  end.

(** No event of the trace is a rejection. *)
Definition unrefused (b : bot) : Prop := Forall (λ e, is_rejection e = false) (trace b).

(** ** Keyboards *)

(** [InlineKeyboardButton(text=..., callback_data=...)] *)
Record inline_button := { label : string; callback_data : string }.

(** [str(v)], as an f-string renders a settings value. *)
Definition py_str (v : jvalue) : string :=
  match v with
  | JNull => "None"
  | JBool true => "True"
  | JBool false => "False"
  | JInt n => pretty n
  | JStr s => s
  end.

(** [get_main_keyboard], row by row. *)
Definition get_main_keyboard : list (list inline_button) :=
  [ [ {| label := "🔄 Статус сервера"; callback_data := "server_status" |};
      {| label := "📊 Информация"; callback_data := "server_info" |} ];
    [ {| label := "📜 Логи сервера"; callback_data := "server_logs" |};
      {| label := "🔍 Статус сервиса"; callback_data := "service_status" |} ];
    [ {| label := "⚙️ Управление"; callback_data := "server_control" |};
      {| label := "�  Белый список"; callback_data := "whitelist_menu" |} ];
    [ {| label := "💾 Создать бэкап"; callback_data := "create_backup" |};
      {| label := "⚙️ Настройки бэкапов"; callback_data := "backup_settings" |} ];
    [ {| label := "📢 Отправить сообщение"; callback_data := "send_message" |} ] ].

(** [get_control_keyboard] *)
Definition get_control_keyboard : list (list inline_button) :=
  [ [ {| label := "▶️ Запустить сервер"; callback_data := "start_server" |};
      {| label := "⏹️ Остановить сервер"; callback_data := "stop_server" |} ];
    [ {| label := "🔄 Перезагрузить"; callback_data := "restart_server" |};
      {| label := "💾 Сохранить мир"; callback_data := "save_world" |} ];
    [ {| label := "☀️ Ясная погода"; callback_data := "weather_clear" |};
      {| label := "🌧️ Дождь"; callback_data := "weather_rain" |} ];
    [ {| label := "⛈️ Гроза"; callback_data := "weather_thunder" |};
      {| label := "🕐 Установить день"; callback_data := "time_day" |} ];
    [ {| label := "🌙 Установить ночь"; callback_data := "time_night" |};
      {| label := "📋 Список игроков"; callback_data := "list_players" |} ];
    [ {| label := "↩️ Назад"; callback_data := "back_to_main" |} ] ].

(** [get_whitelist_keyboard] *)
Definition get_whitelist_keyboard : list (list inline_button) :=
  [ [ {| label := "📋 Показать белый список"; callback_data := "show_whitelist" |} ];
    [ {| label := "➕ Добавить игрока"; callback_data := "add_player" |};
      {| label := "➖ Удалить игрока"; callback_data := "remove_player" |} ];
    [ {| label := "🔄 Обновить белый список"; callback_data := "refresh_whitelist" |} ];
    [ {| label := "↩️ Назад"; callback_data := "back_to_main" |} ] ].

(** The [interval_text] lookup of [get_backup_settings_keyboard]; a value
    that is no key of the table gives the default. *)
Definition interval_text (v : jvalue) : string :=
  match v with
  | JStr s =>
      if String.eqb s "15min" then "15 минут"
      else if String.eqb s "30min" then "30 минут"
      else if String.eqb s "hourly" then "Каждый час"
      else if String.eqb s "daily" then "Ежедневно"
      else if String.eqb s "weekly" then "Еженедельно"
      else "Ежедневно"
  | _ => "Ежедневно"
  end.

(** [self.backup_settings.get("interval") in ["daily", "weekly"]], the
    lookup without a default. *)
Definition shows_time (b : bot) : bool :=
  match backup_settings b !! "interval" with
  | Some v => bool_decide (v = JStr "daily") || bool_decide (v = JStr "weekly")
  | None => false
  end.

(** [get_backup_settings_keyboard] *)
Definition get_backup_settings_keyboard (b : bot) : list (list inline_button) :=
  let on := truthy (dict_get (backup_settings b) "enabled" (JBool false)) in
  let status := if on then "✅ Включены" else "❌ Отключены" in
  [ [ {| label := "Автобэкапы: " +:+ status; callback_data := "toggle_auto_backup" |} ] ]
  ++ (if on then
        [ [ {| label := "Интервал: "
                 +:+ interval_text (dict_get (backup_settings b) "interval" (JStr "daily"));
               callback_data := "set_backup_interval" |} ] ]
        ++ (if shows_time b then
              [ [ {| label := "Время: "
                       +:+ py_str (dict_get (backup_settings b) "time" (JStr "03:00"));
                     callback_data := "set_backup_time" |} ] ]
            else [])
        ++ [ [ {| label := "Хранить: "
                    +:+ py_str (dict_get (backup_settings b) "keep_count" (JInt 7))
                    +:+ " бэкапов";
                  callback_data := "set_backup_count" |} ] ]
      else [])
  ++ [ [ {| label := "💾 Создать бэкап сейчас"; callback_data := "create_backup" |} ];
       [ {| label := "↩️ Назад"; callback_data := "back_to_main" |} ] ].

(** The [intervals] list of [get_interval_keyboard]. *)
Definition intervals : list (string * string) :=
  [ ("15min", "⚡ Каждые 15 минут");
    ("30min", "🔄 Каждые 30 минут");
    ("hourly", "⏰ Каждый час");
    ("daily", "📅 Ежедневно");
    ("weekly", "📆 Еженедельно") ].

(** [get_interval_keyboard] *)
Definition get_interval_keyboard (b : bot) : list (list inline_button) :=
  ((λ kn : string * string,
      let current :=
        if bool_decide (backup_settings b !! "interval" = Some (JStr kn.1))
        then "✅ " else "" in
      [ {| label := current +:+ kn.2; callback_data := "interval_" +:+ kn.1 |} ])
     <$> intervals)
  ++ [ [ {| label := "↩️ Назад"; callback_data := "backup_settings" |} ] ].

(** The keyboard [callback_remove_player] builds from the allow-list. *)
Definition remove_player_keyboard (whitelist : list player) : list (list inline_button) :=
  ((λ p : player,
      let player_name := default "Unknown" (pname p) in
      [ {| label := "❌ " +:+ player_name;
           callback_data := "remove_player_" +:+ player_name |} ])
     <$> whitelist)
  ++ [ [ {| label := "↩️ Назад"; callback_data := "whitelist_menu" |} ] ].

(** The single back button under a prompt. *)
Definition back_keyboard (target : string) : list (list inline_button) :=
  [ [ {| label := "↩️ Назад"; callback_data := target |} ] ].

(** Every keyboard a handler can attach to a message, in the state [b]
    with the allow-list [whitelist]. *)
Definition keyboards (b : bot) (whitelist : list player) : list (list (list inline_button)) :=
  [ get_main_keyboard; get_control_keyboard; get_whitelist_keyboard;
    get_backup_settings_keyboard b; get_interval_keyboard b;
    remove_player_keyboard whitelist;
    back_keyboard "whitelist_menu"; back_keyboard "back_to_main";
    back_keyboard "backup_settings" ].
(** The tail of a log file in [get_logs]:
    [all_lines[-lines:] if len(all_lines) > lines else all_lines]. *)
Definition last_lines (all_lines : list string) (lines : Z) : list string :=
  if lines <? Z.of_nat (length all_lines)
  then Py.slice_from (- lines) all_lines
  else all_lines.

(** ** Authorization *)

(** C2: the authorization predicate is true exactly for the configured
    administrator identity and false for every other integer; being a total
    function, it raises on none. *)
Theorem is_admin_exact (b : bot) (user_id : Z) :
  (is_admin b user_id = true ↔ user_id = ADMIN_ID (config b)) ∧
  (is_admin b user_id = false ↔ user_id ≠ ADMIN_ID (config b)).
Proof.
  unfold is_admin. split.
  - apply Z.eqb_eq.
  - apply Z.eqb_neq.
Qed.

Lemma is_admin_exact_witness :
  is_admin (Sample.bot_with ∅ ∅) 0 = false ∧
  is_admin (Sample.bot_with ∅ ∅) (-42) = false ∧
  is_admin (Sample.bot_with ∅ ∅) 42 = true.
Proof.
  split; [|split].
  - apply (is_admin_exact (Sample.bot_with ∅ ∅) 0). vm_compute. discriminate.
  - apply (is_admin_exact (Sample.bot_with ∅ ∅) (-42)). vm_compute. discriminate.
  - apply (is_admin_exact (Sample.bot_with ∅ ∅) 42). reflexivity.
Defined.

(** ** Scheduler *)

Lemma stop_job_job (b : bot) : backup_job (stop_job b) = None.
Proof. unfold stop_job. destruct (backup_job b) eqn:E; [reflexivity | exact E]. Qed.

Lemma stop_job_settings (b : bot) : backup_settings (stop_job b) = backup_settings b.
Proof. unfold stop_job. destruct (backup_job b); reflexivity. Qed.

Lemma stop_job_trace (b : bot) : trace (stop_job b) = trace b ++ stop_events b.
Proof.
  unfold stop_job, stop_events. destruct (backup_job b); simpl.
  - reflexivity.
  - symmetry. apply app_nil_r.
Qed.

Lemma plan_job_unrecognized (h : host) (interval backup_time : jvalue) :
  recognized_interval interval = false → plan_job h interval backup_time = NoBranch.
Proof.
  unfold recognized_interval. intros H. apply bool_decide_eq_false in H.
  unfold plan_job.
  repeat (case_decide; [exfalso; apply H; subst interval; set_solver |]).
  reflexivity.
Qed.

Lemma setup_auto_backup_settings (h : host) (b : bot) :
  backup_settings (setup_auto_backup h b) = backup_settings b.
Proof.
  unfold setup_auto_backup.
  destruct (negb _); [apply stop_job_settings |].
  destruct (plan_job _ _ _); simpl; apply stop_job_settings.
Qed.

(** C10: with backups enabled and an interval that is none of the five
    names, reconfiguration cancels the armed job, arms none and logs
    nothing; and a settings file holding such a record is taken over as it
    is at startup, which then leaves the bot enabled and unarmed. *)
Theorem unknown_interval_disarms (h : host) (b : bot) :
  enabled b = true →
  recognized_interval (interval_of b) = false →
  backup_job (setup_auto_backup h b) = None ∧
  trace (setup_auto_backup h b) = trace b ++ stop_events b ∧
  backup_settings (setup_auto_backup h b) = backup_settings b ∧
  (∀ b0, settings_file b0 = Content (backup_settings b) →
     backup_settings (start_polling h b0) = backup_settings b ∧
     backup_job (start_polling h b0) = None).
Proof.
  intros Hen Hint.
  assert (Hsetup : ∀ b', backup_settings b' = backup_settings b →
            setup_auto_backup h b' = stop_job b').
  { intros b' Hs. unfold setup_auto_backup.
    rewrite stop_job_settings, Hs.
    unfold enabled in Hen. rewrite Hen. simpl.
    unfold interval_of in Hint. rewrite plan_job_unrecognized by exact Hint.
    reflexivity. }
  rewrite (Hsetup b eq_refl).
  split; [apply stop_job_job |].
  split; [apply stop_job_trace |].
  split; [apply stop_job_settings |].
  intros b0 Hfile. unfold start_polling.
  destruct (load_whitelist _) as [wl b1] eqn:Hwl.
  assert (Hsf : settings_file b1 = Content (backup_settings b)).
  { unfold load_whitelist in Hwl. simpl in Hwl.
    destruct (whitelist_file b0); inversion Hwl; subst; simpl; exact Hfile. }
  unfold load_backup_settings. rewrite Hsf.
  rewrite Hsetup by reflexivity.
  split; [rewrite stop_job_settings; reflexivity | apply stop_job_job].
Qed.

Lemma unknown_interval_disarms_witness :
  backup_job (setup_auto_backup Sample.quiet
    (with_job (Some "0 * * * *")
       (Sample.bot_with (Sample.settings true "monthly" "03:00" 7) ∅))) = None.
Proof.
  apply (unknown_interval_disarms Sample.quiet
    (with_job (Some "0 * * * *")
       (Sample.bot_with (Sample.settings true "monthly" "03:00" 7) ∅))).
  - vm_compute. reflexivity.
  - vm_compute. reflexivity.
Defined.

(** Counterexample to C5 as stated: the bot starts from a settings file
    with an hourly schedule and the time [0300]; the job is armed.  The
    administrator then picks the daily interval: the time does not split
    into hour and minute, the reconfiguration fails, and the hourly job is
    gone while backups stay enabled. *)
Lemma failed_reschedule_drops_job :
  let b := Sample.started (Sample.settings true "hourly" "0300" 7) in
  let b' := dispatch Sample.quiet Sample.admin (ButtonPress "interval_daily") b in
  backup_job b = Some "0 * * * *" ∧
  backup_job b' = None ∧
  enabled b' = true ∧
  Log ERROR ScheduleFailed ∈ trace b' ∧
  CronStop "0 * * * *" ∈ trace b'.
Proof.
  vm_compute. repeat split.
  - do 4 apply list_elem_of_further. apply list_elem_of_here.
  - do 3 apply list_elem_of_further. apply list_elem_of_here.
Qed.

(** C5 (amended): a reconfiguration whose schedule cannot be computed or
    armed fails for that call only, as a logged error; the job armed before
    has been cancelled first and none is armed afterwards, with the
    settings, still enabled, left as they were. *)
Theorem failed_schedule_is_contained (h : host) (b : bot) :
  enabled b = true →
  plan_job h (interval_of b) (time_of b) = Raised →
  setup_auto_backup h b = emit (Log ERROR ScheduleFailed) (stop_job b) ∧
  backup_job (setup_auto_backup h b) = None ∧
  trace (setup_auto_backup h b) = trace b ++ stop_events b ++ [Log ERROR ScheduleFailed] ∧
  enabled (setup_auto_backup h b) = true.
Proof.
  intros Hen Hplan.
  assert (Heq : setup_auto_backup h b = emit (Log ERROR ScheduleFailed) (stop_job b)).
  { unfold setup_auto_backup. rewrite stop_job_settings.
    unfold enabled in Hen. rewrite Hen. simpl.
    unfold interval_of, time_of in Hplan. rewrite Hplan. reflexivity. }
  rewrite Heq. split; [reflexivity |].
  split; [simpl; apply stop_job_job |].
  split.
  - simpl. rewrite stop_job_trace, <- app_assoc. reflexivity.
  - unfold enabled in *. simpl. rewrite stop_job_settings. exact Hen.
Qed.

Lemma failed_schedule_is_contained_witness :
  backup_job (setup_auto_backup Sample.quiet
    (with_job (Some "0 * * * *")
       (Sample.bot_with (Sample.settings true "daily" "0300" 7) ∅))) = None.
Proof.
  apply (failed_schedule_is_contained Sample.quiet
    (with_job (Some "0 * * * *")
       (Sample.bot_with (Sample.settings true "daily" "0300" 7) ∅))).
  - vm_compute. reflexivity.
  - vm_compute. reflexivity.
Defined.

(** ** Archive Builder and pipeline *)

(** The outcome of the builder is decided by the host alone. *)
Lemma create_backup_result (h : host) (b b' : bot) :
  (create_backup h b).1 = (create_backup h b').1.
Proof.
  unfold create_backup.
  destruct (world_exists h); simpl; [| reflexivity].
  destruct (tar_outcome h); reflexivity.
Qed.

Lemma create_backup_trace (h : host) (b : bot) :
  trace (create_backup h b).2 = trace b.
Proof.
  unfold create_backup.
  destruct (world_exists h); simpl; [| reflexivity].
  destruct (tar_outcome h); reflexivity.
Qed.

Lemma create_backup_dir (h : host) (b b' : bot) :
  backup_dir b = backup_dir b' →
  backup_dir (create_backup h b).2 = backup_dir (create_backup h b').2.
Proof.
  intros H. unfold create_backup.
  destruct (world_exists h); simpl; [| exact H].
  destruct (tar_outcome h); simpl; rewrite ?H; reflexivity.
Qed.

Lemma create_backup_failed (h : host) (b : bot) :
  (create_backup h b).1.1.1 = false →
  ∃ m, (create_backup h b).1 = (false, m, None).
Proof.
  unfold create_backup.
  destruct (world_exists h); simpl.
  - destruct (tar_outcome h); simpl; intros H; try discriminate; eauto.
  - eauto.
Qed.

(** Counterexample to C7 as stated: when [tar.add] fails after the output
    file was opened, a file that is no complete archive stays in the backup
    directory under a name the retention pass and the glob take for an
    artifact. *)
Lemma partial_archive_is_left :
  let h := Sample.with_tar TarAddFails true in
  let r := create_backup h (Sample.bot_with ∅ ∅) in
  r.1 = (false, BackupError, None) ∧
  is_artifact_name (backup_name h) = true ∧
  backup_dir r.2 !! backup_name h
    = Some {| st_mtime := 100; stat_raises := false; locked := false; intact := false |} ∧
  (backup_name h, {| st_mtime := 100; stat_raises := false; locked := false; intact := false |}) ∈ artifacts r.2.
Proof.
  vm_compute. repeat split. apply list_elem_of_here.
Qed.

(** C7 (amended): every I/O failure while the archive is written surfaces
    as a failure outcome (no success, the error message, no artifact path);
    the archive is written directly under its final name, so a failure
    after the file was opened leaves the partial file there, and a failure
    to open it leaves the directory as it was. *)
Theorem archive_write_failure_surfaces (h : host) (b : bot) :
  world_exists h = true →
  tar_outcome h ≠ TarOk →
  (create_backup h b).1 = (false, BackupError, None) ∧
  (tar_outcome h = TarOpenFails → (create_backup h b).2 = b) ∧
  (tar_outcome h = TarAddFails →
     backup_dir (create_backup h b).2 !! backup_name h
       = Some {| st_mtime := now_mtime h; stat_raises := false; locked := false; intact := false |}).
Proof.
  intros Hw Hne. unfold create_backup. rewrite Hw. simpl.
  destruct (tar_outcome h) eqn:E; [congruence | |].
  - split; [reflexivity |]. split; [reflexivity | discriminate].
  - split; [reflexivity |]. split; [discriminate |].
    intros _. simpl. apply lookup_insert_eq.
Qed.

Lemma archive_write_failure_surfaces_witness :
  (create_backup (Sample.with_tar TarOpenFails true) (Sample.bot_with ∅ ∅)).1
    = (false, BackupError, None).
Proof.
  apply (archive_write_failure_surfaces (Sample.with_tar TarOpenFails true)
           (Sample.bot_with ∅ ∅)).
  - reflexivity.
  - simpl. discriminate.
Defined.

(** C8: when the Archive Builder fails, the scheduled task and both manual
    paths stop there: the only effect after the builder is the failure
    report (an error log line, or the failure reply), so the backup
    directory is as the builder left it, with no file deleted, and nothing
    is uploaded; a missing world directory is such a failure and changes
    nothing at all. *)
Theorem failed_build_short_circuits (h : host) (b : bot) :
  (create_backup h b).1.1.1 = false →
  let m := (create_backup h b).1.1.2 in
  (auto_backup_task h b
     = emit (Log ERROR (AutoBackupFailed m))
         (create_backup h (emit (Log INFO AutoBackupStarted) b)).2) ∧
  trace (auto_backup_task h b)
     = trace b ++ [Log INFO AutoBackupStarted; Log ERROR (AutoBackupFailed m)] ∧
  backup_dir (auto_backup_task h b) = backup_dir (create_backup h b).2 ∧
  (∀ uid, is_admin b uid = true →
     cmd_backup h uid b
       = emit (Answer (BackupResult false m))
           (create_backup h (emit (Answer CreatingBackup) b)).2 ∧
     trace (cmd_backup h uid b)
       = trace b ++ [Answer CreatingBackup; Answer (BackupResult false m)] ∧
     callback_create_backup h uid b
       = ack (emit (EditText (BackupResult false m))
           (create_backup h (emit (EditText CreatingBackup) b)).2) ∧
     trace (callback_create_backup h uid b)
       = trace b ++ [EditText CreatingBackup; EditText (BackupResult false m);
                     CallbackAnswer None false]) ∧
  (world_exists h = false → create_backup h b = ((false, WorldDirMissing, None), b)).
Proof.
  intros Hfail m.
  destruct (create_backup_failed h b Hfail) as [m' Hm].
  assert (Hmm : m = m') by (subst m; rewrite Hm; reflexivity).
  assert (Hany : ∀ b', create_backup h b' = ((false, m, None), (create_backup h b').2)).
  { intros b'. rewrite (surjective_pairing (create_backup h b')) at 1.
    rewrite (create_backup_result h b' b), Hm, Hmm. reflexivity. }
  assert (Hauto : auto_backup_task h b
     = emit (Log ERROR (AutoBackupFailed m))
         (create_backup h (emit (Log INFO AutoBackupStarted) b)).2).
  { unfold auto_backup_task. rewrite Hany at 1. reflexivity. }
  split; [exact Hauto |].
  split.
  { rewrite Hauto. simpl. rewrite create_backup_trace. simpl.
    rewrite <- app_assoc. reflexivity. }
  split.
  { rewrite Hauto. simpl. apply create_backup_dir. reflexivity. }
  split.
  - intros uid Hadm.
    assert (Hcmd : cmd_backup h uid b
       = emit (Answer (BackupResult false m))
           (create_backup h (emit (Answer CreatingBackup) b)).2).
    { unfold cmd_backup. rewrite Hadm. simpl. rewrite Hany at 1. reflexivity. }
    assert (Hcb : callback_create_backup h uid b
       = ack (emit (EditText (BackupResult false m))
           (create_backup h (emit (EditText CreatingBackup) b)).2)).
    { unfold callback_create_backup. rewrite Hadm. simpl. rewrite Hany at 1. reflexivity. }
    split; [exact Hcmd |].
    split.
    { rewrite Hcmd. simpl. rewrite create_backup_trace. simpl.
      rewrite <- app_assoc. reflexivity. }
    split; [exact Hcb |].
    rewrite Hcb. simpl. rewrite create_backup_trace. simpl.
    rewrite <- !app_assoc. reflexivity.
  - intros Hw. unfold create_backup. rewrite Hw. reflexivity.
Qed.

Lemma failed_build_short_circuits_witness :
  trace (auto_backup_task (Sample.with_tar TarOk false) (Sample.bot_with ∅ ∅))
    = [Log INFO AutoBackupStarted; Log ERROR (AutoBackupFailed WorldDirMissing)].
Proof.
  apply (failed_build_short_circuits (Sample.with_tar TarOk false) (Sample.bot_with ∅ ∅)).
  reflexivity.
Defined.

(** ** Authorization of requests *)

Lemma emits_nil (b : bot) : emits [] b = b.
Proof. destruct b. unfold emits. simpl. rewrite app_nil_r. reflexivity. Qed.

(** Counterexample to C1 as stated: a free text from somebody who is not
    the administrator is dropped without any answer, so no rejection
    notice reaches the requester. *)
Lemma stranger_text_gets_no_notice :
  let b := Sample.bot_with ∅ ∅ in
  let b' := dispatch Sample.quiet Sample.stranger
              (TextMessage "hello" (Some add_player_prompt)) b in
  is_admin b Sample.stranger = false ∧
  trace b' = [] ∧
  ¬ Exists (λ e, is_rejection e = true) (trace b').
Proof.
  vm_compute. repeat split. intros H. inversion H.
Qed.

Local Ltac refuse H :=
  cbv beta delta [cmd_start cmd_status cmd_info cmd_logs cmd_whitelist cmd_backup
             cmd_command cmd_message cmd_help
             callback_server_status callback_server_info callback_server_logs
             callback_service_status callback_menu callback_show_whitelist
             callback_start_server callback_stop_server callback_restart_server
             callback_fixed_command callback_prompt callback_remove_player
             callback_remove_player_confirm callback_create_backup
             callback_backup_settings callback_toggle_auto_backup
             callback_set_interval handle_text];
  rewrite H; reflexivity.

(** C1 (amended): for a requester who is not the administrator every
    handler checks the identity first and stops there.  The bot, its files
    and the backup directory stay as they were, no server command or
    service action is issued and nothing is read out; the only effect is
    the rejection: a message for a command, an alert for a button press,
    and for a free text no reply at all. *)
Theorem stranger_is_rejected (h : host) (uid : Z) (req : request) (b : bot) :
  is_admin b uid = false →
  dispatch h uid req b = emits (rejection req) b ∧
  Forall (λ e, is_rejection e = true) (rejection req).
Proof.
  intros H. split.
  - destruct req as [c args | data | text reply_to]; unfold dispatch, rejection.
    + destruct c; unfold on_command; refuse H.
    + destruct (route_callback data) as [btn |]; [| symmetry; apply emits_nil].
      destruct btn; unfold on_button; refuse H.
    + unfold handle_text. rewrite H. simpl. symmetry. apply emits_nil.
  - destruct req as [c args | data | text reply_to]; unfold rejection.
    + destruct c; repeat constructor.
    + destruct (route_callback data); repeat constructor.
    + constructor.
Qed.

Lemma stranger_is_rejected_witness :
  dispatch Sample.quiet Sample.stranger (SlashCommand CmdStatus None) (Sample.bot_with ∅ ∅)
    = emits [Answer (Rejected NoAccessCommand)] (Sample.bot_with ∅ ∅).
Proof.
  apply (stranger_is_rejected Sample.quiet Sample.stranger (SlashCommand CmdStatus None)
           (Sample.bot_with ∅ ∅)).
  reflexivity.
Defined.

(** ** The settings invariant *)

Lemma dict_get_insert (d : gmap string jvalue) (k k' : string) (v default : jvalue) :
  dict_get (<[k := v]> d) k' default
    = if decide (k = k') then v else dict_get d k' default.
Proof. unfold dict_get. rewrite lookup_insert. case_decide; reflexivity. Qed.

Lemma settings_ok_other (d : gmap string jvalue) (k : string) (v : jvalue) :
  k ≠ "keep_count" → k ≠ "time" → settings_ok (<[k := v]> d) = settings_ok d.
Proof.
  intros H1 H2. unfold settings_ok. rewrite !dict_get_insert.
  repeat case_decide; congruence.
Qed.

Lemma settings_ok_time (d : gmap string jvalue) (t : string) :
  valid_time t = true → settings_ok d = true →
  settings_ok (<["time" := JStr t]> d) = true.
Proof.
  unfold settings_ok. intros Ht Hd. rewrite !dict_get_insert.
  rewrite decide_False by done. rewrite decide_True by done.
  apply andb_true_iff in Hd as [Hk _]. rewrite Hk, Ht. reflexivity.
Qed.

Lemma settings_ok_keep_count (d : gmap string jvalue) (k : Z) :
  1 ≤ k ≤ 50 → settings_ok d = true →
  settings_ok (<["keep_count" := JInt k]> d) = true.
Proof.
  unfold settings_ok. intros Hk Hd. rewrite !dict_get_insert.
  rewrite decide_True by done. rewrite decide_False by done.
  apply andb_true_iff in Hd as [_ Ht]. rewrite Ht.
  rewrite andb_true_r. apply andb_true_iff. split; apply Z.leb_le; lia.
Qed.

Lemma formatted_times_valid :
  forallb (λ hour,
    forallb (λ minute, valid_time (Py.fmt02d hour +:+ ":" +:+ Py.fmt02d minute))
      (seqZ 0 60))
    (seqZ 0 24) = true.
Proof. vm_compute. reflexivity. Qed.

Lemma parse_backup_time_valid (text t : string) :
  parse_backup_time text = Some t → valid_time t = true.
Proof.
  unfold parse_backup_time.
  destruct (Py.split ":" text) as [| p0 [| p1 [| ? ?]]]; try discriminate.
  destruct (Py.int p0) as [hour |]; [| discriminate].
  destruct (Py.int p1) as [minute |]; [| discriminate].
  destruct (_ && _) eqn:Hr; [| discriminate].
  intros [= <-].
  repeat (apply andb_true_iff in Hr as [Hr ?]).
  pose proof formatted_times_valid as Hall.
  rewrite forallb_forall in Hall.
  specialize (Hall hour). rewrite forallb_forall in Hall.
  apply Hall; apply list_elem_of_In, elem_of_seqZ; lia.
Qed.

Lemma parse_keep_count_range (text : string) (k : Z) :
  parse_keep_count text = Some k → 1 ≤ k ≤ 50.
Proof.
  unfold parse_keep_count.
  destruct (Py.int _) as [count |]; [| discriminate].
  destruct (_ || _) eqn:Hr; [discriminate |].
  intros [= <-]. apply orb_false_iff in Hr as [H1 H2]. lia.
Qed.

Section SettingsUntouched.

Variable h : host.

Lemma load_whitelist_settings (b : bot) :
  backup_settings (load_whitelist b).2 = backup_settings b.
Proof. unfold load_whitelist. destruct (whitelist_file b); reflexivity. Qed.

Lemma save_whitelist_settings (w : list player) (b : bot) :
  backup_settings (save_whitelist h w b).2 = backup_settings b.
Proof. unfold save_whitelist. destruct (whitelist_write h); reflexivity. Qed.

Lemma execute_server_command_settings (c : string) (b : bot) :
  backup_settings (execute_server_command h c b).2 = backup_settings b.
Proof.
  unfold execute_server_command.
  destruct (rcon h c); [reflexivity |].
  destruct (command_write h); reflexivity.
Qed.

Lemma get_server_info_settings (b : bot) :
  backup_settings (get_server_info h b).2 = backup_settings b.
Proof.
  unfold get_server_info. pose proof (load_whitelist_settings b) as H.
  destruct (load_whitelist b). exact H.
Qed.

Lemma create_backup_settings (b : bot) :
  backup_settings (create_backup h b).2 = backup_settings b.
Proof.
  unfold create_backup.
  destruct (world_exists h); simpl; [| reflexivity].
  destruct (tar_outcome h); reflexivity.
Qed.

Lemma send_backup_settings (path : string) (c : caption) (b : bot) :
  backup_settings (send_backup h path c b).2 = backup_settings b.
Proof. unfold send_backup. destruct (backup_dir b !! path); reflexivity. Qed.

Lemma save_backup_settings_settings (b : bot) :
  backup_settings (save_backup_settings h b).2 = backup_settings b.
Proof. unfold save_backup_settings. destruct (settings_write h); reflexivity. Qed.

Lemma unlink_each_settings (files : list (string * fstat)) (b : bot) :
  backup_settings (unlink_each files b).2 = backup_settings b.
Proof.
  revert b. induction files as [| [name st] rest IH]; intros b; simpl.
  - reflexivity.
  - destruct (locked st); [reflexivity |]. rewrite IH. reflexivity.
Qed.

Lemma cleanup_old_backups_settings (b : bot) :
  backup_settings (cleanup_old_backups b) = backup_settings b.
Proof.
  unfold cleanup_old_backups. destruct (excess b) as [old |]; [| reflexivity].
  pose proof (unlink_each_settings old b) as H.
  destruct (unlink_each old b) as [raised b']. simpl in H.
  destruct raised; exact H.
Qed.

Lemma service_control_settings (verb : string) (w : option string) (t : string)
    (n : Z) (b : bot) :
  backup_settings (service_control h verb w t n b) = backup_settings b.
Proof.
  unfold service_control.
  destruct (systemctl_ok h verb); destruct w; simpl;
    rewrite ?execute_server_command_settings; reflexivity.
Qed.

End SettingsUntouched.

(** Name a call whose result is taken apart, record that it leaves the
    settings alone, and take the result apart. *)
Local Ltac open_call :=
  match goal with
  | |- context [match ?e with pair _ _ => _ end] =>
      lazymatch e with
      | load_whitelist ?b => pose proof (load_whitelist_settings b)
      | save_whitelist ?h ?w ?b => pose proof (save_whitelist_settings h w b)
      | execute_server_command ?h ?c ?b =>
          pose proof (execute_server_command_settings h c b)
      | get_server_info ?h ?b => pose proof (get_server_info_settings h b)
      | create_backup ?h ?b => pose proof (create_backup_settings h b)
      | send_backup ?h ?p ?c ?b => pose proof (send_backup_settings h p c b)
      | save_backup_settings ?h ?b => pose proof (save_backup_settings_settings h b)
      | _ => idtac
      end;
      destruct e; cbn [snd] in *
  end.

Local Ltac open_if :=
  match goal with
  | |- context [if ?c then _ else _] => destruct c
  | |- context [match ?c with [] => _ | _ :: _ => _ end] => destruct c
  | |- context [match ?c with Some _ => _ | None => _ end] => destruct c
  end.

Local Ltac untouched :=
  repeat first [open_call | open_if];
  cbn [backup_settings emit emits ack with_cache with_dir with_job
       with_settings_file with_whitelist_file with_command_file] in *;
  rewrite ?setup_auto_backup_settings, ?cleanup_old_backups_settings,
          ?service_control_settings in *;
  cbn [backup_settings emit emits ack with_cache with_dir with_job with_settings
       with_settings_file with_whitelist_file with_command_file] in *;
  congruence.

Lemma auto_backup_task_settings (h : host) (b : bot) :
  backup_settings (auto_backup_task h b) = backup_settings b.
Proof. unfold auto_backup_task. untouched. Qed.

Local Ltac updated :=
  open_call; cbn [backup_settings emit]; rewrite ?setup_auto_backup_settings;
  match goal with E : backup_settings _ = _ |- _ => rewrite E end;
  cbn [backup_settings with_settings].

Section Handlers.

Variables (h : host) (uid : Z) (b : bot).
Hypothesis valid : settings_ok (backup_settings b) = true.

Lemma callback_toggle_auto_backup_ok :
  settings_ok (backup_settings (callback_toggle_auto_backup h uid b)) = true.
Proof.
  unfold callback_toggle_auto_backup.
  destruct (negb (is_admin b uid)); [exact valid |].
  updated. rewrite settings_ok_other by done. exact valid.
Qed.

Lemma callback_set_interval_ok (data : string) :
  settings_ok (backup_settings (callback_set_interval h uid data b)) = true.
Proof.
  unfold callback_set_interval.
  destruct (negb (is_admin b uid)); [exact valid |].
  updated. rewrite settings_ok_other by done. exact valid.
Qed.

Lemma set_backup_time_ok (text : string) :
  settings_ok (backup_settings (set_backup_time h text b)) = true.
Proof.
  unfold set_backup_time.
  destruct (parse_backup_time _) as [t |] eqn:Hp; [| exact valid].
  updated. apply settings_ok_time; [| exact valid].
  exact (parse_backup_time_valid _ _ Hp).
Qed.

Lemma set_backup_count_ok (text : string) :
  settings_ok (backup_settings (set_backup_count h text b)) = true.
Proof.
  unfold set_backup_count.
  destruct (parse_keep_count text) as [k |] eqn:Hp; [| exact valid].
  updated. apply settings_ok_keep_count; [| exact valid].
  exact (parse_keep_count_range _ _ Hp).
Qed.

Lemma handle_text_ok (text : string) (reply_to : option string) :
  settings_ok (backup_settings (handle_text h uid text reply_to b)) = true.
Proof.
  unfold handle_text.
  destruct (negb (is_admin b uid)); [exact valid |].
  destruct (replies_to _ reply_to); [unfold add_player; untouched |].
  destruct (replies_to _ reply_to); [unfold say_message; untouched |].
  destruct (replies_to _ reply_to); [apply set_backup_time_ok |].
  destruct (replies_to _ reply_to); [apply set_backup_count_ok |].
  exact valid.
Qed.

Lemma on_command_ok (c : command) (args : option string) :
  settings_ok (backup_settings (on_command h uid c args b)) = true.
Proof.
  destruct c; unfold on_command, cmd_start, cmd_status, cmd_info, cmd_logs,
    cmd_whitelist, cmd_backup, cmd_command, cmd_message, cmd_help, deny_message;
    untouched.
Qed.

Lemma on_button_ok (btn : button) (data : string) :
  settings_ok (backup_settings (on_button h uid btn data b)) = true.
Proof.
  destruct btn; unfold on_button;
    try apply callback_toggle_auto_backup_ok;
    try apply callback_set_interval_ok;
    unfold callback_server_status, callback_server_info, callback_server_logs,
      callback_service_status, callback_menu, callback_show_whitelist,
      callback_start_server, callback_stop_server, callback_restart_server,
      callback_fixed_command, callback_prompt, callback_remove_player,
      callback_remove_player_confirm, callback_create_backup,
      callback_backup_settings, deny_callback;
    untouched.
Qed.

Lemma dispatch_ok (req : request) :
  settings_ok (backup_settings (dispatch h uid req b)) = true.
Proof.
  destruct req as [c args | data | text reply_to]; unfold dispatch.
  - apply on_command_ok.
  - destruct (route_callback data); [apply on_button_ok | exact valid].
  - apply handle_text_ok.
Qed.

End Handlers.

Lemma step_ok (h : host) (i : input) (b : bot) :
  settings_ok (backup_settings b) = true →
  settings_ok (backup_settings (step h i b)) = true.
Proof.
  intros H. destruct i as [uid req |]; unfold step.
  - apply dispatch_ok. exact H.
  - destruct (backup_job b); [rewrite auto_backup_task_settings |]; exact H.
Qed.

Lemma start_polling_settings (h : host) (b : bot) :
  backup_settings (start_polling h b)
    = match settings_file b with
      | Content d => d
      | _ => backup_settings b
      end.
Proof.
  unfold start_polling.
  destruct (load_whitelist _) as [wl b1] eqn:E1.
  destruct (load_backup_settings b1) as [loaded b2] eqn:E2.
  rewrite setup_auto_backup_settings.
  assert (H1 : settings_file b1 = settings_file b ∧ backup_settings b1 = backup_settings b).
  { unfold load_whitelist in E1. cbn in E1.
    destruct (whitelist_file b); inversion E1; subst; auto. }
  destruct H1 as [Hf Hs]. unfold load_backup_settings in E2. rewrite Hf in E2.
  destruct (settings_file b); inversion E2; subst; simpl; congruence.
Qed.

(** Counterexample to C9 as stated: the settings file is loaded without
    any check, so a file holding a keep count of 100 and the time [25:99]
    puts the bot, right after startup, in a state that breaks both bounds. *)
Lemma loaded_settings_break_bounds :
  let b := Sample.started (Sample.settings true "hourly" "25:99" 100) in
  keep_count_of b = JInt 100 ∧
  time_of b = JStr "25:99" ∧
  valid_time "25:99" = false ∧
  settings_ok (backup_settings b) = false.
Proof. vm_compute. repeat split. Qed.

(** C9 (amended): the keep count in [1,50] and the valid 24-hour time hold
    of the class defaults and are kept by every handler, hence by any
    sequence of updates and timer fires from a state where they hold;
    startup takes the settings file over as it is (or keeps the configured
    values when there is no readable file), so they hold in the reachable
    states when they hold of that record. *)
Theorem settings_bounds_preserved (inputs : list (host * input)) (b : bot) :
  settings_ok (backup_settings b) = true →
  settings_ok (backup_settings (run inputs b)) = true ∧
  (∀ admin chat dir sf wf cf,
     settings_ok (backup_settings (init (default_config admin chat) dir sf wf cf)) = true) ∧
  (∀ h b0, settings_file b0 = Content (backup_settings b) →
     settings_ok (backup_settings (run inputs (start_polling h b0))) = true) ∧
  (∀ h, (∀ d, settings_file b ≠ Content d) →
     settings_ok (backup_settings (run inputs (start_polling h b))) = true).
Proof.
  intros H.
  assert (Hrun : ∀ b', settings_ok (backup_settings b') = true →
            settings_ok (backup_settings (run inputs b')) = true).
  { clear. unfold run. induction inputs as [| [h i] rest IH]; intros b' H'; simpl.
    - exact H'.
    - apply IH, step_ok, H'. }
  split; [apply Hrun, H |].
  split; [intros; vm_compute; reflexivity |].
  split.
  - intros h b0 Hf. apply Hrun. rewrite start_polling_settings, Hf. exact H.
  - intros h Hno. apply Hrun. rewrite start_polling_settings.
    destruct (settings_file b) as [| | d]; [exact H | exact H |].
    exfalso. exact (Hno d eq_refl).
Qed.

Lemma settings_bounds_preserved_witness :
  settings_ok (backup_settings
    (run [(Sample.quiet, Update Sample.admin
             (TextMessage "12" (Some backup_count_prompt)));
          (Sample.quiet, TimerFired)]
       (Sample.bot_with (Sample.settings true "daily" "03:00" 7) ∅))) = true.
Proof.
  refine (proj1 (settings_bounds_preserved
    [(Sample.quiet, Update Sample.admin (TextMessage "12" (Some backup_count_prompt)));
     (Sample.quiet, TimerFired)]
    (Sample.bot_with (Sample.settings true "daily" "03:00" 7) ∅) _)).
  vm_compute. reflexivity.
Defined.

(** ** Retention *)

Lemma insert_desc_perm (x : string * fstat) (l : list (string * fstat)) :
  insert_desc x l ≡ₚ x :: l.
Proof.
  induction l as [| y l IH]; simpl; [reflexivity |].
  destruct (_ <? _); [| reflexivity].
  rewrite IH. apply Permutation_swap.
Qed.

Lemma sort_by_mtime_desc_perm (l : list (string * fstat)) :
  sort_by_mtime_desc l ≡ₚ l.
Proof.
  induction l as [| x l IH]; simpl; [reflexivity |].
  rewrite insert_desc_perm, IH. reflexivity.
Qed.








(** *** The unlink loop *)

Lemma deleted_nil (b : bot) : deleted [] b = b.
Proof. destruct b. unfold deleted, emits, with_dir. simpl. rewrite app_nil_r. reflexivity. Qed.

Lemma deleted_cons (x : string * fstat) (l : list (string * fstat)) (b : bot) :
  deleted (x :: l) b
    = deleted l (emit (Log INFO (OldBackupDeleted x.1))
                   (with_dir (delete x.1 (backup_dir b)) b)).
Proof.
  unfold deleted, emits, emit, with_dir. simpl. rewrite <- app_assoc. reflexivity.
Qed.

Lemma unlink_each_app (pre rest : list (string * fstat)) (b : bot) :
  Forall unlocked pre →
  unlink_each (pre ++ rest) b = unlink_each rest (deleted pre b).
Proof.
  intros H. revert b. induction H as [| [name st] pre Hx _ IH]; intros b.
  - rewrite deleted_nil. reflexivity.
  - simpl. unfold unlocked in Hx. simpl in Hx. rewrite Hx.
    rewrite IH, deleted_cons. reflexivity.
Qed.

Lemma unlink_each_unlocked (files : list (string * fstat)) (b : bot) :
  Forall unlocked files → unlink_each files b = (false, deleted files b).
Proof.
  intros H. rewrite <- (app_nil_r files) at 1.
  rewrite unlink_each_app by exact H. reflexivity.
Qed.

Lemma unlink_each_locked (pre post : list (string * fstat)) (x : string * fstat) (b : bot) :
  Forall unlocked pre → locked x.2 = true →
  unlink_each (pre ++ x :: post) b = (true, deleted pre b).
Proof.
  intros H Hx. rewrite unlink_each_app by exact H.
  destruct x as [name st]. simpl in *. rewrite Hx. reflexivity.
Qed.

Lemma lookup_foldl_delete (files : list (string * fstat)) (d : gmap string fstat)
    (name : string) :
  foldl (λ d p, delete p.1 d) d files !! name
    = if decide (name ∈ files.*1) then None else d !! name.
Proof.
  revert d. induction files as [| [n st] files IH]; intros d.
  - destruct (decide (name ∈ [].*1)) as [Hin | _]; [| reflexivity].
    apply elem_of_nil in Hin. contradiction.
  - cbn [foldl]. rewrite IH, fmap_cons. cbn [fst].
    destruct (decide (name ∈ files.*1)) as [Hin | Hnin];
      destruct (decide (name ∈ n :: files.*1)) as [Hin' | Hnin']; try reflexivity.
    + exfalso. apply Hnin'. right. exact Hin.
    + apply elem_of_cons in Hin' as [-> | Hin']; [apply lookup_delete_eq | contradiction].
    + apply lookup_delete_ne. intros ->. apply Hnin'. left.
Qed.

Lemma backup_dir_deleted (files : list (string * fstat)) (b : bot) (name : string) :
  backup_dir (deleted files b) !! name
    = if decide (name ∈ files.*1) then None else backup_dir b !! name.
Proof. unfold deleted. simpl. apply lookup_foldl_delete. Qed.


(** *** One pass *)

Lemma elem_of_artifacts (b : bot) (name : string) (st : fstat) :
  (name, st) ∈ artifacts b ↔ is_artifact_name name = true ∧ backup_dir b !! name = Some st.
Proof.
  unfold artifacts, glob_backups. rewrite list_elem_of_filter, elem_of_map_to_list.
  simpl. rewrite Is_true_true. reflexivity.
Qed.

Lemma NoDup_artifacts (b : bot) : NoDup (artifacts b).
Proof. apply NoDup_filter, NoDup_map_to_list. Qed.

Lemma NoDup_artifact_names (b : bot) : NoDup (artifacts b).*1.
Proof.
  eapply sublist_NoDup; [apply (NoDup_fst_map_to_list (backup_dir b)) |].
  apply fmap_sublist, sublist_filter.
Qed.

Lemma newest_first_perm (b : bot) : newest_first b ≡ₚ artifacts b.
Proof. apply sort_by_mtime_desc_perm. Qed.

Lemma stat_raises_none (l : list (string * fstat)) :
  Forall statable l → existsb (λ p, stat_raises p.2) l = false.
Proof.
  induction 1 as [| p l Hp _ IH]; [reflexivity |].
  simpl. unfold statable in Hp. rewrite Hp. exact IH.
Qed.


(** The pass with the sort behind it. *)
Lemma excess_statable (b : bot) :
  Forall statable (artifacts b) →
  excess b
    = match as_int (keep_count_of b) with
      | None => None
      | Some keep_count =>
          if keep_count <? Z.of_nat (length (newest_first b))
          then Some (Py.slice_from keep_count (newest_first b))
          else Some []
      end.
Proof.
  intros Hst. unfold excess. fold (artifacts b).
  rewrite (stat_raises_none _ Hst). reflexivity.
Qed.

Lemma excess_drop (b : bot) (k : Z) :
  keep_count_of b = JInt k → 0 ≤ k → Forall statable (artifacts b) →
  excess b = Some (drop (Z.to_nat k) (newest_first b)).
Proof.
  intros Hk Hpos Hst. rewrite (excess_statable b Hst), Hk. simpl.
  destruct (k <? Z.of_nat (length (newest_first b))) eqn:E.
  - unfold Py.slice_from. rewrite (proj2 (Z.ltb_ge k 0)) by lia. reflexivity.
  - apply Z.ltb_ge in E. rewrite drop_ge by lia. reflexivity.
Qed.

Lemma cleanup_unlocked (b : bot) (k : Z) :
  keep_count_of b = JInt k → 0 ≤ k →
  Forall statable (artifacts b) → Forall unlocked (artifacts b) →
  cleanup_old_backups b = deleted (drop (Z.to_nat k) (newest_first b)) b.
Proof.
  intros Hk Hpos Hst Hun. unfold cleanup_old_backups.
  rewrite (excess_drop b k Hk Hpos Hst).
  rewrite unlink_each_unlocked; [reflexivity |].
  apply Forall_drop. rewrite newest_first_perm. exact Hun.
Qed.

(** What is left of the artifacts when the tail of the sorted list is
    deleted: its first [k] entries. *)
Lemma artifacts_deleted (b : bot) (k : nat) :
  artifacts (deleted (drop k (newest_first b)) b) ≡ₚ take k (newest_first b).
Proof.
  assert (Hnames : NoDup (take k (newest_first b) ++ drop k (newest_first b)).*1).
  { rewrite take_drop, newest_first_perm. apply NoDup_artifact_names. }
  rewrite fmap_app in Hnames. apply NoDup_app in Hnames as (_ & Hdisj & _).
  apply NoDup_Permutation.
  - apply NoDup_artifacts.
  - eapply sublist_NoDup; [| apply sublist_take].
    rewrite newest_first_perm. apply NoDup_artifacts.
  - intros [name st]. rewrite elem_of_artifacts, backup_dir_deleted. split.
    + intros [Hart Hlook]. destruct (decide _) as [| Hnin]; [discriminate |].
      assert (Hin : (name, st) ∈ newest_first b).
      { rewrite newest_first_perm. apply elem_of_artifacts. split; assumption. }
      rewrite <- (take_drop k (newest_first b)) in Hin.
      apply elem_of_app in Hin as [Hin | Hin]; [exact Hin |].
      exfalso. apply Hnin. apply (list_elem_of_fmap_2 fst) in Hin. exact Hin.
    + intros Hin.
      assert (Hin' : (name, st) ∈ artifacts b).
      { rewrite <- newest_first_perm, <- (take_drop k (newest_first b)).
        apply elem_of_app. left. exact Hin. }
      apply elem_of_artifacts in Hin' as [Hart Hlook]. split; [exact Hart |].
      destruct (decide _) as [Hbad | _]; [| exact Hlook].
      exfalso. apply (Hdisj name); [| exact Hbad].
      apply (list_elem_of_fmap_2 fst) in Hin. exact Hin.
Qed.

Lemma artifacts_after_cleanup (b : bot) (k : Z) :
  keep_count_of b = JInt k → 0 ≤ k →
  Forall statable (artifacts b) → Forall unlocked (artifacts b) →
  artifacts (cleanup_old_backups b) ≡ₚ take (Z.to_nat k) (newest_first b).
Proof.
  intros Hk Hpos Hst Hun. rewrite (cleanup_unlocked b k Hk Hpos Hst Hun).
  apply artifacts_deleted.
Qed.




(** Counterexample to C6 as stated: with a keep count of 1 and the second
    newest of three archives undeletable, the pass gives up at that file;
    the oldest archive, which could be deleted, is never tried and stays. *)
Lemma retention_gives_up_at_locked_file :
  let b := Sample.bot_with (Sample.settings true "daily" "03:00" 1) (Sample.three true) in
  excess b = Some [("world_backup_b.tar.gz", Sample.file 2 true);
                   ("world_backup_c.tar.gz", Sample.file 1 false)] ∧
  backup_dir (cleanup_old_backups b) !! "world_backup_c.tar.gz" = Some (Sample.file 1 false) ∧
  trace (cleanup_old_backups b) = [Log ERROR CleanupFailed].
Proof. vm_compute. repeat split. Qed.

(** After a successful build the scheduled task runs the retention pass
    and then the upload, whatever the pass did. *)
Lemma auto_backup_task_built (h : host) (b : bot) :
  world_exists h = true →
  tar_outcome h = TarOk →
  auto_backup_task h b
    = let b1 := cleanup_old_backups (create_backup h (emit (Log INFO AutoBackupStarted) b)).2 in
      let r := send_backup h (backup_name h) AutoCaption b1 in
      if r.1 then emit (Log INFO (AutoBackupSent (backup_name h))) r.2
      else emit (Log ERROR AutoBackupNotSent) r.2.
Proof.
  intros Hw Ht. unfold auto_backup_task, create_backup. rewrite Hw, Ht. cbn [negb snd].
  destruct (send_backup _ _ _ _) as [sent b2]. reflexivity.
Qed.

(** C6 (amended): when a deletion fails, the pass does not raise: it logs
    one error and ends there.  The excess artifacts sorted before the
    failing one have been deleted, each with its log line; the failing one
    and all after it are left in place, untried; nothing is returned.  The
    backup operation goes on: the scheduled task still uploads the new
    archive after such a pass. *)
Theorem retention_stops_at_first_failure (b : bot)
    (pre post : list (string * fstat)) (x : string * fstat) :
  excess b = Some (pre ++ x :: post) →
  Forall unlocked pre →
  locked x.2 = true →
  cleanup_old_backups b = emit (Log ERROR CleanupFailed) (deleted pre b) ∧
  trace (cleanup_old_backups b)
    = trace b ++ ((λ p, Log INFO (OldBackupDeleted p.1)) <$> pre)
        ++ [Log ERROR CleanupFailed] ∧
  (∀ name, backup_dir (cleanup_old_backups b) !! name
     = if decide (name ∈ pre.*1) then None else backup_dir b !! name) ∧
  (∀ h b0,
     world_exists h = true → tar_outcome h = TarOk →
     (create_backup h (emit (Log INFO AutoBackupStarted) b0)).2 = b →
     backup_name h ∉ pre.*1 →
     Upload (BACKUP_CHAT_ID (config b)) (backup_name h) AutoCaption (upload_ok h)
       ∈ trace (auto_backup_task h b0)).
Proof.
  intros Hex Hpre Hx.
  assert (Heq : cleanup_old_backups b = emit (Log ERROR CleanupFailed) (deleted pre b)).
  { unfold cleanup_old_backups. rewrite Hex, (unlink_each_locked pre post x b Hpre Hx).
    reflexivity. }
  rewrite Heq. split; [reflexivity |]. split; [| split].
  - simpl. rewrite <- app_assoc. reflexivity.
  - intros name. apply (backup_dir_deleted pre b name).
  - intros h b0 Hw Ht Hb Hnew.
    rewrite (auto_backup_task_built h b0 Hw Ht), Hb, Heq. cbn zeta.
    assert (Hthere : backup_dir (emit (Log ERROR CleanupFailed) (deleted pre b))
                       !! backup_name h
                     = Some {| st_mtime := now_mtime h; stat_raises := false; locked := false; intact := true |}).
    { change (backup_dir (emit (Log ERROR CleanupFailed) (deleted pre b)))
        with (backup_dir (deleted pre b)).
      rewrite backup_dir_deleted, decide_False by exact Hnew.
      rewrite <- Hb. unfold create_backup. rewrite Hw, Ht. simpl.
      apply lookup_insert_eq. }
    unfold send_backup. rewrite Hthere. cbn [fst snd].
    destruct (upload_ok h); simpl; set_solver.
Qed.

Lemma retention_stops_at_first_failure_witness :
  trace (cleanup_old_backups
    (Sample.bot_with (Sample.settings true "daily" "03:00" 0) (Sample.three true)))
  = [] ++ ((λ p, Log INFO (OldBackupDeleted p.1)) <$> [("world_backup_a.tar.gz", Sample.file 3 false)])
       ++ [Log ERROR CleanupFailed].
Proof.
  refine (proj1 (proj2 (retention_stops_at_first_failure
    (Sample.bot_with (Sample.settings true "daily" "03:00" 0) (Sample.three true))
    [("world_backup_a.tar.gz", Sample.file 3 false)]
    [("world_backup_c.tar.gz", Sample.file 1 false)]
    ("world_backup_b.tar.gz", Sample.file 2 true) _ _ _))).
  - vm_compute. reflexivity.
  - repeat constructor.
  - reflexivity.
Defined.

(** ** Keep count after a backup run *)






(** * Further properties *)

(** ** More on the Retention Manager *)

Lemma unlink_each_prefix (files : list (string * fstat)) (b : bot) :
  ∃ pre post, files = pre ++ post ∧ (unlink_each files b).2 = deleted pre b.
Proof.
  revert b. induction files as [| [name st] rest IH]; intros b.
  - exists [], []. split; [reflexivity |]. symmetry. apply deleted_nil.
  - simpl. destruct (locked st).
    + exists [], ((name, st) :: rest). split; [reflexivity |]. symmetry. apply deleted_nil.
    + destruct (IH (emit (Log INFO (OldBackupDeleted name))
                      (with_dir (delete name (backup_dir b)) b))) as (pre & post & -> & Heq).
      exists ((name, st) :: pre), post. split; [reflexivity |].
      rewrite Heq, deleted_cons. reflexivity.
Qed.

Lemma slice_from_sublist {A} (k : Z) (l : list A) : Py.slice_from k l `sublist_of` l.
Proof. unfold Py.slice_from. destruct (k <? 0); apply sublist_drop. Qed.

Lemma excess_artifacts (b : bot) (old : list (string * fstat)) :
  excess b = Some old → ∀ p, p ∈ old → p ∈ artifacts b.
Proof.
  unfold excess. fold (artifacts b). fold (newest_first b).
  destruct (existsb _ _); [discriminate |].
  destruct (as_int _) as [k |]; [| discriminate].
  destruct (k <? _); intros [= <-] p Hp.
  - rewrite <- newest_first_perm. eapply elem_of_sublist; [exact Hp | apply slice_from_sublist].
  - inversion Hp.
Qed.

(** The pass changes the backup directory and the trace only; whatever
    happens, it ends in a state where some artifacts are gone and nothing
    else has moved. *)
Lemma cleanup_old_backups_shape (b : bot) :
  ∃ gone es,
    cleanup_old_backups b = emits es (deleted gone b) ∧
    ∀ p, p ∈ gone → p ∈ artifacts b.
Proof.
  unfold cleanup_old_backups. destruct (excess b) as [old |] eqn:Hex.
  - destruct (unlink_each_prefix old b) as (pre & post & -> & Heq).
    destruct (unlink_each (pre ++ post) b) as [raised b'] eqn:E. simpl in Heq. subst b'.
    assert (Hin : ∀ p, p ∈ pre → p ∈ artifacts b).
    { intros p Hp. apply (excess_artifacts b _ Hex). apply elem_of_app. left. exact Hp. }
    destruct raised.
    + exists pre, [Log ERROR CleanupFailed]. split; [reflexivity | exact Hin].
    + exists pre, []. split; [symmetry; apply emits_nil | exact Hin].
  - exists [], [Log ERROR CleanupFailed]. split.
    + rewrite deleted_nil. reflexivity.
    + intros p Hp. inversion Hp.
Qed.

(** X1: whatever the keep count and whatever fails, a retention pass only
    ever removes artifacts: every other file of the backup directory stays
    as it is, no file appears or changes, and the settings, the armed job
    and the files outside the directory are not touched. *)
Theorem retention_only_removes_artifacts (b : bot) :
  (∀ name, is_artifact_name name = false →
     backup_dir (cleanup_old_backups b) !! name = backup_dir b !! name) ∧
  (∀ name st, backup_dir (cleanup_old_backups b) !! name = Some st →
     backup_dir b !! name = Some st) ∧
  backup_settings (cleanup_old_backups b) = backup_settings b ∧
  backup_job (cleanup_old_backups b) = backup_job b ∧
  settings_file (cleanup_old_backups b) = settings_file b ∧
  whitelist_file (cleanup_old_backups b) = whitelist_file b ∧
  command_file (cleanup_old_backups b) = command_file b.
Proof.
  destruct (cleanup_old_backups_shape b) as (gone & es & -> & Hgone).
  assert (Hlook : ∀ name, backup_dir (emits es (deleted gone b)) !! name
            = if decide (name ∈ gone.*1) then None else backup_dir b !! name).
  { intros name. apply (backup_dir_deleted gone b name). }
  split; [| split; [| repeat split]].
  - intros name Hno. rewrite Hlook. destruct (decide _) as [Hin | _]; [| reflexivity].
    apply list_elem_of_fmap in Hin as ([n st] & -> & Hin).
    apply Hgone, elem_of_artifacts in Hin as [Hart _]. simpl in Hno. congruence.
  - intros name st. rewrite Hlook. destruct (decide _); [discriminate | tauto].
Qed.

Lemma retention_only_removes_artifacts_witness :
  backup_dir (cleanup_old_backups
    (Sample.bot_with (Sample.settings true "daily" "03:00" 0) (Sample.three true)))
    !! "notes.txt"
  = backup_dir (Sample.bot_with (Sample.settings true "daily" "03:00" 0) (Sample.three true))
    !! "notes.txt".
Proof.
  refine (proj1 (retention_only_removes_artifacts
    (Sample.bot_with (Sample.settings true "daily" "03:00" 0) (Sample.three true)))
    "notes.txt" _).
  reflexivity.
Defined.

(** X2: a second retention pass right after a complete one (an integer keep
    count of at least 0, every artifact's modification time readable, no
    artifact resisting deletion) deletes nothing and logs nothing. *)
Theorem retention_is_idempotent (b : bot) (k : Z) :
  keep_count_of b = JInt k →
  0 ≤ k →
  Forall statable (artifacts b) →
  Forall unlocked (artifacts b) →
  cleanup_old_backups (cleanup_old_backups b) = cleanup_old_backups b.
Proof.
  intros Hk Hpos Hst Hun.
  pose proof (artifacts_after_cleanup b k Hk Hpos Hst Hun) as Hperm.
  set (b' := cleanup_old_backups b) in *.
  assert (Hk' : keep_count_of b' = JInt k).
  { unfold keep_count_of, b'. rewrite cleanup_old_backups_settings. exact Hk. }
  assert (Hst' : Forall statable (artifacts b')).
  { rewrite Hperm. apply Forall_take. unfold newest_first.
    rewrite sort_by_mtime_desc_perm. exact Hst. }
  unfold cleanup_old_backups at 1. rewrite (excess_statable b' Hst'), Hk'. simpl.
  assert (Hlen : (length (newest_first b') ≤ Z.to_nat k)%nat).
  { rewrite newest_first_perm, Hperm, length_take. lia. }
  rewrite (proj2 (Z.ltb_ge _ _)) by lia. reflexivity.
Qed.

Lemma retention_is_idempotent_witness :
  cleanup_old_backups (cleanup_old_backups
    (Sample.bot_with (Sample.settings true "daily" "03:00" 1) (Sample.three false)))
  = cleanup_old_backups
    (Sample.bot_with (Sample.settings true "daily" "03:00" 1) (Sample.three false)).
Proof.
  refine (retention_is_idempotent
    (Sample.bot_with (Sample.settings true "daily" "03:00" 1) (Sample.three false)) 1
    _ _ _ _).
  - vm_compute. reflexivity.
  - lia.
  - apply (bool_decide_unpack _). vm_compute. exact I.
  - apply (bool_decide_unpack _). vm_compute. exact I.
Defined.



(** ** More on the Archive Builder *)

Lemma prefix_app (p s : string) : String.prefix p (p +:+ s) = true.
Proof.
  induction p as [| c p IH]; simpl; [destruct s; reflexivity |].
  destruct (ascii_dec c c); [exact IH | contradiction].
Qed.

Lemma rev_app_app (s1 s2 acc : string) :
  String.rev_app (s1 +:+ s2) acc = String.rev_app s2 (String.rev_app s1 acc).
Proof. revert acc. induction s1 as [| c s1 IH]; intros acc; simpl; [reflexivity | apply IH]. Qed.

Lemma string_app_assoc (s1 s2 s3 : string) : (s1 +:+ s2) +:+ s3 = s1 +:+ (s2 +:+ s3).
Proof.
  induction s1 as [| c s1 IH]; [reflexivity |].
  change (String c ((s1 +:+ s2) +:+ s3) = String c (s1 +:+ (s2 +:+ s3))).
  rewrite IH. reflexivity.
Qed.

Lemma string_length_app (s1 s2 : string) :
  String.length (s1 +:+ s2) = (String.length s1 + String.length s2)%nat.
Proof.
  induction s1 as [| c s1 IH]; [reflexivity |].
  change (S (String.length (s1 +:+ s2)) = S (String.length s1 + String.length s2)).
  rewrite IH. reflexivity.
Qed.

Lemma rev_app_acc (s acc : string) :
  String.rev_app s acc = String.rev_app s "" +:+ acc.
Proof.
  revert acc. induction s as [| c s IH]; intros acc; cbn; [reflexivity |].
  rewrite IH, (IH (String c "")), string_app_assoc. reflexivity.
Qed.

Lemma string_rev_app (s1 s2 : string) :
  String.rev (s1 +:+ s2) = String.rev s2 +:+ String.rev s1.
Proof. unfold String.rev. rewrite rev_app_app. apply rev_app_acc. Qed.

Lemma endswith_app (s p : string) : Py.endswith p (s +:+ p) = true.
Proof. unfold Py.endswith. rewrite string_rev_app. apply prefix_app. Qed.

Lemma backup_name_is_artifact (h : host) : is_artifact_name (backup_name h) = true.
Proof.
  unfold is_artifact_name, backup_name, Py.startswith.
  rewrite prefix_app.
  rewrite <- string_app_assoc, endswith_app.
  rewrite !string_length_app. cbn. rewrite Nat.add_comm. reflexivity.
Qed.

(** X4: whatever the clock says, the name the builder gives an archive
    matches the pattern the retention pass globs for, so every archive
    built is subject to retention. *)
Theorem built_archive_is_artifact (h : host) : is_artifact_name (backup_name h) = true.
Proof. apply backup_name_is_artifact. Qed.

Lemma length_artifacts_insert (name : string) (st : fstat) (b : bot) :
  is_artifact_name name = true →
  length (artifacts (with_dir (<[name := st]> (backup_dir b)) b))
    = if decide (is_Some (backup_dir b !! name))
      then length (artifacts b) else S (length (artifacts b)).
Proof.
  intros Hart. unfold artifacts, glob_backups. cbn [backup_dir with_dir].
  assert (Hfresh : ∀ d : gmap string fstat, d !! name = None →
            length (filter (λ p, is_artifact_name p.1) (map_to_list (<[name := st]> d)))
              = S (length (filter (λ p, is_artifact_name p.1) (map_to_list d)))).
  { intros d Hd. rewrite (map_to_list_insert d name st Hd).
    rewrite filter_cons_True by (simpl; rewrite Hart; exact I). reflexivity. }
  destruct (decide _) as [[st0 Hsome] | Hnone].
  - rewrite <- (insert_delete_eq (backup_dir b)).
    rewrite Hfresh by apply lookup_delete_eq.
    rewrite <- (map_to_list_delete (backup_dir b) name st0 Hsome).
    rewrite filter_cons_True by (simpl; rewrite Hart; exact I). reflexivity.
  - apply Hfresh. apply eq_None_not_Some. exact Hnone.
Qed.

(** X5: a build whose output file could be opened adds exactly one artifact
    to the backup directory, or, when an artifact of the same second is
    already there, replaces that one; no other file is touched. *)
Theorem build_adds_or_replaces_one (h : host) (b : bot) :
  world_exists h = true →
  tar_outcome h ≠ TarOpenFails →
  length (artifacts (create_backup h b).2)
    = (if decide (is_Some (backup_dir b !! backup_name h))
       then length (artifacts b) else S (length (artifacts b))) ∧
  (∀ name, name ≠ backup_name h →
     backup_dir (create_backup h b).2 !! name = backup_dir b !! name) ∧
  (∃ st, backup_dir (create_backup h b).2 !! backup_name h = Some st ∧
         st_mtime st = now_mtime h ∧
         intact st = match tar_outcome h with TarOk => true | _ => false end).
Proof.
  intros Hw Hopen. unfold create_backup. rewrite Hw. cbn [negb].
  destruct (tar_outcome h) eqn:Ht; [| congruence |]; cbn [snd].
  all: split; [apply length_artifacts_insert, backup_name_is_artifact |].
  all: split; [intros name Hne; cbn; apply lookup_insert_ne; congruence |].
  all: eexists; split; [cbn; apply lookup_insert_eq | split; reflexivity].
Qed.

Lemma build_adds_or_replaces_one_witness :
  length (artifacts (create_backup Sample.quiet
     (Sample.bot_with ∅ (Sample.three false))).2)
  = (if decide (is_Some (backup_dir (Sample.bot_with ∅ (Sample.three false))
                           !! backup_name Sample.quiet))
     then length (artifacts (Sample.bot_with ∅ (Sample.three false)))
     else S (length (artifacts (Sample.bot_with ∅ (Sample.three false))))).
Proof.
  refine (proj1 (build_adds_or_replaces_one Sample.quiet
            (Sample.bot_with ∅ (Sample.three false)) _ _)).
  - reflexivity.
  - simpl. discriminate.
Defined.

(** ** More on the scheduled task *)



(** ** What leaves the scheduler alone *)

Section SchedulingUntouched.

Variable h : host.

Lemma load_whitelist_scheduling (b : bot) :
  scheduling (load_whitelist b).2 = scheduling b.
Proof. unfold load_whitelist. destruct (whitelist_file b); reflexivity. Qed.

Lemma save_whitelist_scheduling (w : list player) (b : bot) :
  scheduling (save_whitelist h w b).2 = scheduling b.
Proof. unfold save_whitelist. destruct (whitelist_write h); reflexivity. Qed.

Lemma execute_server_command_scheduling (c : string) (b : bot) :
  scheduling (execute_server_command h c b).2 = scheduling b.
Proof.
  unfold execute_server_command.
  destruct (rcon h c); [reflexivity |].
  destruct (command_write h); reflexivity.
Qed.

Lemma get_server_info_scheduling (b : bot) :
  scheduling (get_server_info h b).2 = scheduling b.
Proof.
  unfold get_server_info. pose proof (load_whitelist_scheduling b) as H.
  destruct (load_whitelist b). exact H.
Qed.

Lemma create_backup_scheduling (b : bot) :
  scheduling (create_backup h b).2 = scheduling b.
Proof.
  unfold create_backup.
  destruct (world_exists h); simpl; [| reflexivity].
  destruct (tar_outcome h); reflexivity.
Qed.

Lemma send_backup_scheduling (path : string) (c : caption) (b : bot) :
  scheduling (send_backup h path c b).2 = scheduling b.
Proof. unfold send_backup. destruct (backup_dir b !! path); reflexivity. Qed.

Lemma cleanup_old_backups_scheduling (b : bot) :
  scheduling (cleanup_old_backups b) = scheduling b.
Proof.
  destruct (cleanup_old_backups_shape b) as (gone & es & -> & _). reflexivity.
Qed.

Lemma service_control_scheduling (verb : string) (w : option string) (t : string)
    (n : Z) (b : bot) :
  scheduling (service_control h verb w t n b) = scheduling b.
Proof.
  unfold service_control.
  destruct (systemctl_ok h verb); destruct w; unfold scheduling; simpl;
    try reflexivity;
    pose proof (execute_server_command_scheduling s b) as E;
    unfold scheduling in E; exact E.
Qed.

End SchedulingUntouched.

Local Ltac frame_call :=
  match goal with
  | |- context [match ?e with pair _ _ => _ end] =>
      lazymatch e with
      | load_whitelist ?b => pose proof (load_whitelist_scheduling b)
      | save_whitelist ?h ?w ?b => pose proof (save_whitelist_scheduling h w b)
      | execute_server_command ?h ?c ?b =>
          pose proof (execute_server_command_scheduling h c b)
      | get_server_info ?h ?b => pose proof (get_server_info_scheduling h b)
      | create_backup ?h ?b => pose proof (create_backup_scheduling h b)
      | send_backup ?h ?p ?c ?b => pose proof (send_backup_scheduling h p c b)
      | _ => idtac
      end;
      destruct e; cbn [snd] in *
  end.

Local Ltac frame_if :=
  match goal with
  | |- context [if ?c then _ else _] => destruct c
  | |- context [match ?c with [] => _ | _ :: _ => _ end] => destruct c
  | |- context [match ?c with Some _ => _ | None => _ end] => destruct c
  end.

Local Ltac framed :=
  repeat first [frame_call | frame_if];
  repeat match goal with
         | |- context [service_control ?h ?v ?w ?t ?n ?b] =>
             rewrite (service_control_scheduling h v w t n b)
         | |- context [cleanup_old_backups ?b] =>
             rewrite (cleanup_old_backups_scheduling b)
         end;
  unfold scheduling in *;
  cbn [backup_settings backup_job settings_file emit emits ack deny_message deny_callback
       with_cache with_dir with_whitelist_file with_command_file] in *;
  congruence.

Lemma auto_backup_task_scheduling (h : host) (b : bot) :
  scheduling (auto_backup_task h b) = scheduling b.
Proof.
  unfold auto_backup_task.
  pose proof (create_backup_scheduling h (emit (Log INFO AutoBackupStarted) b)) as H1.
  destruct (create_backup h _) as [[[success result] path] b1]. cbn [snd] in H1.
  change (scheduling (emit (Log INFO AutoBackupStarted) b)) with (scheduling b) in H1.
  destruct success, path as [path |]; try exact H1.
  pose proof (send_backup_scheduling h path AutoCaption (cleanup_old_backups b1)) as H2.
  rewrite cleanup_old_backups_scheduling, H1 in H2.
  destruct (send_backup _ _ _ _) as [sent b2]. destruct sent; exact H2.
Qed.

Lemma step_framed (h : host) (i : input) (b : bot) :
  match i with
  | Update _ req => reconfigures req = false
  | TimerFired => True
  end →
  scheduling (step h i b) = scheduling b.
Proof.
  destruct i as [uid req |]; unfold step.
  - intros Hreq. destruct req as [c args | data | text reply_to]; unfold dispatch.
    + destruct c; unfold on_command, cmd_start, cmd_status, cmd_info, cmd_logs,
        cmd_whitelist, cmd_backup, cmd_command, cmd_message, cmd_help; framed.
    + unfold reconfigures in Hreq.
      destruct (route_callback data) as [btn |]; [| reflexivity].
      destruct btn; try discriminate Hreq; unfold on_button,
        callback_server_status, callback_server_info, callback_server_logs,
        callback_service_status, callback_menu, callback_show_whitelist,
        callback_start_server, callback_stop_server, callback_restart_server,
        callback_fixed_command, callback_prompt, callback_remove_player,
        callback_remove_player_confirm, callback_create_backup,
        callback_backup_settings; framed.
    + unfold reconfigures in Hreq. apply orb_false_iff in Hreq as [Ht Hc].
      unfold handle_text. rewrite Ht, Hc. clear Ht Hc.
      destruct (negb (is_admin b uid)); [reflexivity |].
      destruct (replies_to _ reply_to); [unfold add_player; framed |].
      destruct (replies_to _ reply_to); [unfold say_message; framed |].
      reflexivity.
  - intros _. destruct (backup_job b); [apply auto_backup_task_scheduling | reflexivity].
Qed.

(** X7: only four handlers can change what the scheduler works from.  A
    request that is neither the toggle button, an interval button, nor a
    reply to the time or count prompt leaves the settings in use, the armed
    job and the settings file exactly as they were, whoever sends it; so
    does a timer fire. *)
Theorem scheduler_state_is_framed (h : host) (i : input) (b : bot) :
  match i with
  | Update _ req => reconfigures req = false
  | TimerFired => True
  end →
  scheduling (step h i b) = scheduling b.
Proof. apply step_framed. Qed.

Lemma scheduler_state_is_framed_witness :
  scheduling (step Sample.quiet (Update Sample.admin (SlashCommand CmdBackup None))
                (Sample.bot_with (Sample.settings true "daily" "03:00" 1) ∅))
  = scheduling (Sample.bot_with (Sample.settings true "daily" "03:00" 1) ∅).
Proof.
  refine (scheduler_state_is_framed Sample.quiet
    (Update Sample.admin (SlashCommand CmdBackup None))
    (Sample.bot_with (Sample.settings true "daily" "03:00" 1) ∅) _).
  reflexivity.
Defined.

(** ** The armed job follows the settings *)

Lemma plan_job_spec (h : host) (interval backup_time : jvalue) (spec : string) :
  plan_job h interval backup_time = Job spec →
  ∀ h', plan_job h' interval backup_time = crontab h' spec.
Proof.
  unfold plan_job, crontab. intros H h'.
  repeat case_decide; try discriminate H;
    try (destruct (split_time backup_time) as [[hour minute] |]; [| discriminate H]);
    match type of H with
    | (if ?c then _ else _) = _ => destruct c; [| discriminate H]
    end;
    injection H as <-; reflexivity.
Qed.

Lemma armed_matches_ext (b b' : bot) :
  backup_settings b' = backup_settings b → backup_job b' = backup_job b →
  armed_matches b → armed_matches b'.
Proof.
  unfold armed_matches, enabled, interval_of, time_of. intros -> ->. tauto.
Qed.

Lemma setup_auto_backup_job (h : host) (b : bot) :
  backup_job (setup_auto_backup h b)
    = if enabled b
      then match plan_job h (interval_of b) (time_of b) with
           | Job spec => Some spec
           | _ => None
           end
      else None.
Proof.
  unfold setup_auto_backup, enabled, interval_of, time_of.
  rewrite stop_job_settings.
  destruct (truthy _); simpl; [| apply stop_job_job].
  destruct (plan_job _ _ _); simpl; try apply stop_job_job. reflexivity.
Qed.

Lemma setup_auto_backup_file (h : host) (b : bot) :
  settings_file (setup_auto_backup h b) = settings_file b.
Proof.
  assert (Hs : settings_file (stop_job b) = settings_file b).
  { unfold stop_job. destruct (backup_job b); reflexivity. }
  unfold setup_auto_backup.
  destruct (negb _); [exact Hs |].
  destruct (plan_job _ _ _); simpl; exact Hs.
Qed.

Lemma setup_auto_backup_matches (h : host) (b : bot) :
  armed_matches (setup_auto_backup h b).
Proof.
  intros spec Hjob. rewrite setup_auto_backup_job in Hjob.
  unfold enabled, interval_of, time_of in *. rewrite setup_auto_backup_settings.
  destruct (truthy _); [| discriminate].
  destruct (plan_job _ _ _) as [| spec' |] eqn:Hplan; try discriminate.
  injection Hjob as ->. split; [reflexivity |].
  exact (plan_job_spec _ _ _ _ Hplan).
Qed.

Lemma add_player_scheduling (h : host) (text : string) (b : bot) :
  scheduling (add_player h text b) = scheduling b.
Proof. unfold add_player. framed. Qed.

Lemma say_message_scheduling (h : host) (text : string) (b : bot) :
  scheduling (say_message h text b) = scheduling b.
Proof. unfold say_message. framed. Qed.

Lemma armed_matches_framed (b b' : bot) :
  scheduling b' = scheduling b → armed_matches b → armed_matches b'.
Proof.
  unfold scheduling. intros [= Hs Hj _]. apply armed_matches_ext; assumption.
Qed.

Section Reconfiguration.

Variables (h : host) (uid : Z) (b : bot).
Hypothesis matches_before : armed_matches b.

Lemma callback_toggle_auto_backup_matches :
  armed_matches (callback_toggle_auto_backup h uid b).
Proof.
  unfold callback_toggle_auto_backup.
  destruct (negb (is_admin b uid)); [exact matches_before |].
  destruct (save_backup_settings h _) as [saved b1].
  eapply armed_matches_ext; [| | apply (setup_auto_backup_matches h b1)]; reflexivity.
Qed.

Lemma callback_set_interval_matches (data : string) :
  armed_matches (callback_set_interval h uid data b).
Proof.
  unfold callback_set_interval.
  destruct (negb (is_admin b uid)); [exact matches_before |].
  destruct (save_backup_settings h _) as [saved b1].
  eapply armed_matches_ext; [| | apply (setup_auto_backup_matches h b1)]; reflexivity.
Qed.

Lemma set_backup_time_matches (text : string) :
  armed_matches (set_backup_time h text b).
Proof.
  unfold set_backup_time.
  destruct (parse_backup_time _) as [t |]; [| exact matches_before].
  destruct (save_backup_settings h _) as [saved b1].
  eapply armed_matches_ext; [| | apply (setup_auto_backup_matches h b1)]; reflexivity.
Qed.

Lemma set_backup_count_matches (text : string) :
  armed_matches (set_backup_count h text b).
Proof.
  unfold set_backup_count.
  destruct (parse_keep_count text) as [k |]; [| exact matches_before].
  pose proof (save_backup_settings_settings h
    (with_settings (<["keep_count" := JInt k]> (backup_settings b)) b)) as Hs.
  assert (Hj : backup_job (save_backup_settings h
    (with_settings (<["keep_count" := JInt k]> (backup_settings b)) b)).2 = backup_job b).
  { unfold save_backup_settings. destruct (settings_write h); reflexivity. }
  destruct (save_backup_settings h _) as [saved b1]. cbn [snd] in Hs, Hj.
  cbn [backup_settings with_settings] in Hs.
  intros spec Hjob. cbn [backup_job emit] in Hjob. rewrite Hj in Hjob.
  destruct (matches_before spec Hjob) as [Hen Hplan].
  unfold enabled, interval_of, time_of in *. cbn [backup_settings emit].
  rewrite Hs, !dict_get_insert.
  rewrite !decide_False by done. split; assumption.
Qed.

Lemma dispatch_matches (req : request) : armed_matches (dispatch h uid req b).
Proof.
  destruct (reconfigures req) eqn:Hreq.
  - destruct req as [c args | data | text reply_to]; [discriminate | |].
    + unfold reconfigures in Hreq. unfold dispatch.
      destruct (route_callback data) as [btn |]; [| discriminate].
      destruct btn; try discriminate Hreq; unfold on_button.
      * apply callback_toggle_auto_backup_matches.
      * apply callback_set_interval_matches.
    + clear Hreq. unfold dispatch, handle_text.
      destruct (negb (is_admin b uid)); [exact matches_before |].
      destruct (replies_to _ reply_to).
      { eapply armed_matches_framed; [apply add_player_scheduling | exact matches_before]. }
      destruct (replies_to _ reply_to).
      { eapply armed_matches_framed; [apply say_message_scheduling | exact matches_before]. }
      destruct (replies_to _ reply_to); [apply set_backup_time_matches |].
      destruct (replies_to _ reply_to); [apply set_backup_count_matches |].
      exact matches_before.
  - eapply armed_matches_framed; [| exact matches_before].
    apply (step_framed h (Update uid req) b). exact Hreq.
Qed.

End Reconfiguration.

Lemma step_matches (h : host) (i : input) (b : bot) :
  armed_matches b → armed_matches (step h i b).
Proof.
  intros H. destruct i as [uid req |]; unfold step.
  - apply dispatch_matches, H.
  - destruct (backup_job b) eqn:E; [| exact H].
    eapply armed_matches_framed; [apply auto_backup_task_scheduling | exact H].
Qed.

Lemma start_polling_matches (h : host) (b : bot) : armed_matches (start_polling h b).
Proof.
  unfold start_polling.
  destruct (load_whitelist _) as [wl b1]. destruct (load_backup_settings b1) as [ok b2].
  apply setup_auto_backup_matches.
Qed.

(** X8: in every state the bot reaches after startup, whatever requests and
    timer fires it has handled, a job is armed only while backups are
    enabled, and the armed job is the very one the interval and time now in
    the settings ask for: the schedule in effect is never a stale one. *)
Theorem armed_job_follows_settings (h0 : host) (b0 : bot) (inputs : list (host * input)) :
  armed_matches (run inputs (start_polling h0 b0)).
Proof.
  generalize (start_polling_matches h0 b0). generalize (start_polling h0 b0).
  unfold run. induction inputs as [| [h i] rest IH]; intros b H; simpl.
  - exact H.
  - apply IH, step_matches, H.
Qed.

Lemma armed_job_follows_settings_witness :
  enabled (run [(Sample.quiet, Update Sample.admin (ButtonPress "interval_weekly"))]
             (start_polling Sample.quiet
                (init Sample.cfg ∅ (Content (Sample.settings true "daily" "03:00" 7))
                   Absent ""))) = true.
Proof.
  refine (proj1 (armed_job_follows_settings Sample.quiet
    (init Sample.cfg ∅ (Content (Sample.settings true "daily" "03:00" 7)) Absent "")
    [(Sample.quiet, Update Sample.admin (ButtonPress "interval_weekly"))]
    "00 03 * * 0" _)).
  vm_compute. reflexivity.
Defined.

(** ** Arming with valid settings *)

Lemma digit_not_colon (c : ascii) (d : Z) :
  Py.digit_of c = Some d → Ascii.eqb c ":" = false.
Proof.
  destruct c as [[] [] [] [] [] [] [] []]; vm_compute; congruence.
Qed.

Lemma valid_time_splits (t : string) :
  valid_time t = true →
  ∃ hour minute, t = hour +:+ ":" +:+ minute ∧ split_time (JStr t) = Some (hour, minute).
Proof.
  unfold valid_time.
  destruct t as [| h1 [| h2 [| c [| m1 [| m2 [| ? ?]]]]]]; try discriminate.
  destruct (Py.digit_of h1) eqn:E1; [| discriminate].
  destruct (Py.digit_of h2) eqn:E2; [| discriminate].
  destruct (Py.digit_of m1) eqn:E3; [| discriminate].
  destruct (Py.digit_of m2) eqn:E4; [| discriminate].
  intros H. repeat (apply andb_true_iff in H as [H ?]).
  apply Ascii.eqb_eq in H. subst c.
  exists (String h1 (String h2 "")), (String m1 (String m2 "")).
  split; [reflexivity |].
  unfold split_time. cbn [Py.split].
  rewrite (digit_not_colon _ _ E1), (digit_not_colon _ _ E2),
          (digit_not_colon _ _ E3), (digit_not_colon _ _ E4).
  reflexivity.
Qed.

(** X9: with settings that satisfy the bounds, backups enabled, one of the
    five interval names and a cron library that accepts the specification,
    a reconfiguration cancels the previous job once (if there was one) and
    arms exactly one new job; for the daily and weekly intervals its
    specification is the minute, then the hour of the stored time, weekly
    on day 0. *)
Theorem valid_settings_arm_one_job (h : host) (b : bot) :
  settings_ok (backup_settings b) = true →
  enabled b = true →
  recognized_interval (interval_of b) = true →
  (∀ spec, crontab_accepts h spec = true) →
  ∃ spec,
    backup_job (setup_auto_backup h b) = Some spec ∧
    trace (setup_auto_backup h b)
      = trace b ++ stop_events b
          ++ [CronArm spec; Log INFO (BackupsScheduled (interval_of b))] ∧
    (interval_of b = JStr "15min" → spec = "*/15 * * * *") ∧
    (interval_of b = JStr "30min" → spec = "*/30 * * * *") ∧
    (interval_of b = JStr "hourly" → spec = "0 * * * *") ∧
    (interval_of b = JStr "daily" →
       ∃ hour minute, time_of b = JStr (hour +:+ ":" +:+ minute) ∧
                      spec = minute +:+ " " +:+ hour +:+ " * * *") ∧
    (interval_of b = JStr "weekly" →
       ∃ hour minute, time_of b = JStr (hour +:+ ":" +:+ minute) ∧
                      spec = minute +:+ " " +:+ hour +:+ " * * 0").
Proof.
  intros Hok Hen Hrec Hcron.
  assert (Htime : ∃ hour minute, time_of b = JStr (hour +:+ ":" +:+ minute) ∧
            split_time (time_of b) = Some (hour, minute)).
  { unfold settings_ok in Hok. apply andb_true_iff in Hok as [_ Ht].
    unfold time_of. destruct (dict_get _ "time" _) as [| | | t]; try discriminate.
    destruct (valid_time_splits t Ht) as (hour & minute & -> & Hsplit).
    exists hour, minute. split; [reflexivity | exact Hsplit]. }
  destruct Htime as (hour & minute & Htime & Hsplit).
  assert (Hplan : ∃ spec, plan_job h (interval_of b) (time_of b) = Job spec ∧
    (interval_of b = JStr "15min" → spec = "*/15 * * * *") ∧
    (interval_of b = JStr "30min" → spec = "*/30 * * * *") ∧
    (interval_of b = JStr "hourly" → spec = "0 * * * *") ∧
    (interval_of b = JStr "daily" → spec = minute +:+ " " +:+ hour +:+ " * * *") ∧
    (interval_of b = JStr "weekly" → spec = minute +:+ " " +:+ hour +:+ " * * 0")).
  { unfold recognized_interval in Hrec. apply bool_decide_eq_true in Hrec.
    unfold plan_job, crontab. rewrite Hsplit.
    repeat case_decide; rewrite ?Hcron;
      try (eexists; split; [reflexivity |]; repeat split; congruence).
    exfalso. repeat (apply elem_of_cons in Hrec as [? | Hrec]; [congruence |]).
    inversion Hrec. }
  destruct Hplan as (spec & Hplan & H15 & H30 & Hh & Hd & Hw).
  exists spec.
  assert (Heq : setup_auto_backup h b
            = emit (Log INFO (BackupsScheduled (interval_of b)))
                (with_job (Some spec) (emit (CronArm spec) (stop_job b)))).
  { unfold setup_auto_backup. rewrite stop_job_settings.
    unfold enabled in Hen. rewrite Hen. cbn [negb].
    unfold interval_of, time_of in Hplan. rewrite Hplan. reflexivity. }
  split; [rewrite Heq; reflexivity |].
  split.
  { rewrite Heq. cbn [trace emit with_job]. rewrite stop_job_trace, <- !app_assoc.
    reflexivity. }
  repeat split; try assumption.
  - intros Hi. exists hour, minute. split; [exact Htime | exact (Hd Hi)].
  - intros Hi. exists hour, minute. split; [exact Htime | exact (Hw Hi)].
Qed.

Lemma valid_settings_arm_one_job_witness :
  ∃ spec,
    backup_job (setup_auto_backup Sample.quiet
      (with_job (Some "0 * * * *")
         (Sample.bot_with (Sample.settings true "weekly" "04:30" 7) ∅))) = Some spec.
Proof.
  destruct (valid_settings_arm_one_job Sample.quiet
    (with_job (Some "0 * * * *")
       (Sample.bot_with (Sample.settings true "weekly" "04:30" 7) ∅)))
    as (spec & Hjob & _).
  - vm_compute. reflexivity.
  - vm_compute. reflexivity.
  - vm_compute. reflexivity.
  - intros spec. reflexivity.
  - exists spec. exact Hjob.
Defined.

(** ** Persistence of the settings *)

Lemma save_backup_settings_in_sync (h : host) (b : bot) :
  settings_writable h = true → in_sync (save_backup_settings h b).2.
Proof.
  unfold settings_writable, save_backup_settings.
  destruct (settings_write h); [reflexivity | discriminate | discriminate].
Qed.

Lemma in_sync_ext (b b' : bot) :
  backup_settings b' = backup_settings b → settings_file b' = settings_file b →
  in_sync b → in_sync b'.
Proof. unfold in_sync. intros -> ->. tauto. Qed.

Lemma in_sync_framed (b b' : bot) :
  scheduling b' = scheduling b → in_sync b → in_sync b'.
Proof. unfold scheduling. intros [= Hs _ Hf]. apply in_sync_ext; assumption. Qed.

Lemma setup_after_save_in_sync (h : host) (b : bot) :
  settings_writable h = true →
  in_sync (setup_auto_backup h (save_backup_settings h b).2).
Proof.
  intros Hw. unfold in_sync.
  rewrite setup_auto_backup_file, setup_auto_backup_settings.
  apply save_backup_settings_in_sync, Hw.
Qed.

Section Saving.

Variables (h : host) (uid : Z) (b : bot).
Hypothesis writable : settings_writable h = true.
Hypothesis sync_before : in_sync b.

Lemma callback_toggle_auto_backup_in_sync :
  in_sync (callback_toggle_auto_backup h uid b).
Proof.
  unfold callback_toggle_auto_backup.
  destruct (negb (is_admin b uid)); [exact sync_before |].
  pose proof (setup_after_save_in_sync h
    (with_settings (<["enabled" := JBool (negb (truthy (dict_get (backup_settings b)
       "enabled" (JBool false))))]> (backup_settings b)) b) writable) as H.
  destruct (save_backup_settings h _) as [saved b1]. exact H.
Qed.

Lemma callback_set_interval_in_sync (data : string) :
  in_sync (callback_set_interval h uid data b).
Proof.
  unfold callback_set_interval.
  destruct (negb (is_admin b uid)); [exact sync_before |].
  pose proof (setup_after_save_in_sync h
    (with_settings (<["interval" := JStr (Py.remove_all "interval_" data)]>
       (backup_settings b)) b) writable) as H.
  destruct (save_backup_settings h _) as [saved b1]. exact H.
Qed.

Lemma set_backup_time_in_sync (text : string) : in_sync (set_backup_time h text b).
Proof.
  unfold set_backup_time.
  destruct (parse_backup_time _) as [t |]; [| exact sync_before].
  pose proof (setup_after_save_in_sync h
    (with_settings (<["time" := JStr t]> (backup_settings b)) b) writable) as H.
  destruct (save_backup_settings h _) as [saved b1]. exact H.
Qed.

Lemma set_backup_count_in_sync (text : string) : in_sync (set_backup_count h text b).
Proof.
  unfold set_backup_count.
  destruct (parse_keep_count text) as [k |]; [| exact sync_before].
  pose proof (save_backup_settings_in_sync h
    (with_settings (<["keep_count" := JInt k]> (backup_settings b)) b) writable) as H.
  destruct (save_backup_settings h _) as [saved b1]. exact H.
Qed.

Lemma dispatch_in_sync (req : request) : in_sync (dispatch h uid req b).
Proof.
  destruct (reconfigures req) eqn:Hreq.
  - destruct req as [c args | data | text reply_to]; [discriminate | |].
    + unfold reconfigures in Hreq. unfold dispatch.
      destruct (route_callback data) as [btn |]; [| discriminate].
      destruct btn; try discriminate Hreq; unfold on_button.
      * apply callback_toggle_auto_backup_in_sync.
      * apply callback_set_interval_in_sync.
    + clear Hreq. unfold dispatch, handle_text.
      destruct (negb (is_admin b uid)); [exact sync_before |].
      destruct (replies_to _ reply_to).
      { eapply in_sync_framed; [apply add_player_scheduling | exact sync_before]. }
      destruct (replies_to _ reply_to).
      { eapply in_sync_framed; [apply say_message_scheduling | exact sync_before]. }
      destruct (replies_to _ reply_to); [apply set_backup_time_in_sync |].
      destruct (replies_to _ reply_to); [apply set_backup_count_in_sync |].
      exact sync_before.
  - eapply in_sync_framed; [| exact sync_before].
    apply (step_framed h (Update uid req) b). exact Hreq.
Qed.

End Saving.

Lemma run_in_sync (inputs : list (host * input)) (b : bot) :
  Forall (λ hi, settings_writable hi.1 = true) inputs →
  in_sync b → in_sync (run inputs b).
Proof.
  intros Hw. revert b. unfold run.
  induction Hw as [| [h i] rest Hh _ IH]; intros b Hb; simpl; [exact Hb |].
  apply IH. destruct i as [uid req |]; unfold step.
  - apply dispatch_in_sync; assumption.
  - destruct (backup_job b); [| exact Hb].
    eapply in_sync_framed; [apply auto_backup_task_scheduling | exact Hb].
Qed.

(** X10: the settings survive a restart.  From a state whose settings file
    holds the settings in use (as after a startup that found the file), and
    as long as the file can be written, every sequence of requests and
    timer fires leaves the file holding the settings in use; a bot
    constructed anew on that file, whatever its configuration, starts with
    exactly those settings. *)
Theorem settings_survive_restart (inputs : list (host * input)) (b : bot) :
  Forall (λ hi, settings_writable hi.1 = true) inputs →
  in_sync b →
  in_sync (run inputs b) ∧
  ∀ h c dir wf cf,
    backup_settings (start_polling h (init c dir (settings_file (run inputs b)) wf cf))
      = backup_settings (run inputs b).
Proof.
  intros Hw Hb. pose proof (run_in_sync inputs b Hw Hb) as Hs.
  split; [exact Hs |]. intros h c dir wf cf.
  rewrite start_polling_settings. unfold in_sync in Hs.
  change (settings_file (init c dir (settings_file (run inputs b)) wf cf))
    with (settings_file (run inputs b)).
  rewrite Hs. reflexivity.
Qed.

Lemma settings_survive_restart_witness :
  in_sync (run [(Sample.quiet, Update Sample.admin
                   (TextMessage "12" (Some backup_count_prompt)))]
             (Sample.started (Sample.settings true "daily" "03:00" 7))).
Proof.
  refine (proj1 (settings_survive_restart
    [(Sample.quiet, Update Sample.admin (TextMessage "12" (Some backup_count_prompt)))]
    (Sample.started (Sample.settings true "daily" "03:00" 7)) _ _)).
  - repeat constructor.
  - vm_compute. reflexivity.
Defined.

(** X11: the result of saving the settings is ignored.  When the settings
    file cannot be written, a valid keep count typed by the administrator
    is still put in use and answered as set, and the failure shows only as
    an error log line.  If it was [open] that failed, the file keeps its old
    content; if the write failed once [open] had emptied the file, what is
    left does not parse, and the next start keeps the values of the
    configuration.  Either way the typed count is lost at the next start
    unless the file held it already. *)
Theorem unsaved_count_is_reported_set (h : host) (text : string) (k : Z) (b : bot) :
  settings_writable h = false →
  parse_keep_count text = Some k →
  keep_count_of (set_backup_count h text b) = JInt k ∧
  trace (set_backup_count h text b)
    = trace b ++ [Log ERROR SettingsSaveFailed; Answer (CountSet k)] ∧
  settings_file (set_backup_count h text b)
    = match settings_write h with
      | OpenFails => settings_file b
      | _ => Corrupt
      end ∧
  ∀ h' c dir wf cf,
    backup_settings
      (start_polling h' (init c dir (settings_file (set_backup_count h text b)) wf cf))
    = match settings_write h, settings_file b with
      | OpenFails, Content d => d
      | _, _ => backup_settings (init c dir Absent wf cf)
      end.
Proof.
  intros Hw Hk. unfold set_backup_count, save_backup_settings. rewrite Hk.
  unfold settings_writable in Hw.
  destruct (settings_write h); [discriminate Hw | |].
  - split; [| split; [| split]].
    + unfold keep_count_of. cbn [backup_settings emit with_settings].
      rewrite dict_get_insert, decide_True by reflexivity. reflexivity.
    + cbn [trace emit with_settings]. rewrite <- app_assoc. reflexivity.
    + reflexivity.
    + intros h' c dir wf cf. rewrite start_polling_settings.
      cbn [settings_file emit with_settings init].
      destruct (settings_file b); reflexivity.
  - split; [| split; [| split]].
    + unfold keep_count_of. cbn [backup_settings emit with_settings with_settings_file].
      rewrite dict_get_insert, decide_True by reflexivity. reflexivity.
    + cbn [trace emit with_settings with_settings_file]. rewrite <- app_assoc. reflexivity.
    + reflexivity.
    + intros h' c dir wf cf. rewrite start_polling_settings.
      cbn [settings_file emit with_settings with_settings_file init]. reflexivity.
Qed.

Lemma unsaved_count_is_reported_set_witness :
  keep_count_of (set_backup_count
    {| now_stamp := ""; now_mtime := 0; world_exists := true; tar_outcome := TarOk;
       upload_ok := true; crontab_accepts := λ _, true; settings_write := WriteFails;
       whitelist_write := Written; command_write := Written; command_partial := 0;
       rcon := λ _, None;
       systemctl_ok := λ _, true; service_state := None; service_report := "";
       host_report := ""; logs_tail := λ _, "" |}
    " 12 " (Sample.bot_with ∅ ∅)) = JInt 12.
Proof.
  refine (proj1 (unsaved_count_is_reported_set _ " 12 " 12 (Sample.bot_with ∅ ∅) _ _)).
  - reflexivity.
  - vm_compute. reflexivity.
Defined.

(** ** Callback data carrying a value *)

Lemma remove_go_skip (pat p s : string) :
  Py.remove_go pat (p +:+ s) (String.length p) = Py.remove_go pat s O.
Proof. induction p as [| c p IH]; [destruct s; reflexivity | exact IH]. Qed.

Lemma remove_all_prefixed (c : ascii) (p s : string) :
  Py.remove_all (String c p) (String c p +:+ s) = Py.remove_all (String c p) s.
Proof.
  unfold Py.remove_all.
  change (String c p +:+ s) with (String c (p +:+ s)).
  cbn [Py.remove_go].
  change (String c (p +:+ s)) with (String c p +:+ s).
  rewrite prefix_app.
  replace (String.length (String c p) - 1)%nat with (String.length p) by (simpl; lia).
  apply remove_go_skip.
Qed.

Lemma remove_all_absent (pat s : string) :
  Py.contains pat s = false → Py.remove_all pat s = s.
Proof.
  unfold Py.remove_all. induction s as [| c s IH]; intros H; [reflexivity |].
  cbn [Py.contains] in H. apply orb_false_iff in H as [Hp Hc].
  cbn [Py.remove_go]. rewrite Hp, (IH Hc). reflexivity.
Qed.

(** X12: a value travels through callback data by prefixing a marker and
    deleting every occurrence of the marker on arrival.  A remove button
    for any player name reaches the confirm handler and an interval button
    the interval handler; the value that arrives is the value sent with all
    occurrences of the marker deleted, hence the value itself exactly when
    it does not contain the marker. *)
Theorem callback_value_round_trip (value : string) :
  route_callback ("remove_player_" +:+ value) = Some BRemovePlayerConfirm ∧
  route_callback ("interval_" +:+ value) = Some BSetInterval ∧
  Py.remove_all "remove_player_" ("remove_player_" +:+ value)
    = Py.remove_all "remove_player_" value ∧
  Py.remove_all "interval_" ("interval_" +:+ value) = Py.remove_all "interval_" value ∧
  (Py.contains "remove_player_" value = false →
     Py.remove_all "remove_player_" ("remove_player_" +:+ value) = value) ∧
  (Py.contains "interval_" value = false →
     Py.remove_all "interval_" ("interval_" +:+ value) = value).
Proof.
  split; [destruct value; reflexivity |]. split; [destruct value; reflexivity |].
  split; [apply remove_all_prefixed |]. split; [apply remove_all_prefixed |].
  split; intros H; rewrite remove_all_prefixed; apply remove_all_absent, H.
Qed.

Lemma callback_value_round_trip_witness :
  Py.remove_all "remove_player_" ("remove_player_" +:+ "Steve") = "Steve".
Proof.
  refine (proj1 (proj2 (proj2 (proj2 (proj2 (callback_value_round_trip "Steve"))))) _).
  reflexivity.
Defined.

(** ** The allow-list *)


Section WhitelistUntouched.

Variable h : host.

Lemma load_whitelist_wframe (b : bot) : wframe (load_whitelist b).2 = wframe b.
Proof. unfold load_whitelist. destruct (whitelist_file b); reflexivity. Qed.

Lemma load_whitelist_list (b : bot) : (load_whitelist b).1 = whitelist_on_disk b.
Proof. unfold load_whitelist, whitelist_on_disk. destruct (whitelist_file b); reflexivity. Qed.

Lemma execute_server_command_wframe (c : string) (b : bot) :
  wframe (execute_server_command h c b).2 = wframe b.
Proof.
  unfold execute_server_command.
  destruct (rcon h c); [reflexivity |].
  destruct (command_write h); reflexivity.
Qed.

Lemma get_server_info_wframe (b : bot) : wframe (get_server_info h b).2 = wframe b.
Proof.
  unfold get_server_info. pose proof (load_whitelist_wframe b) as H.
  destruct (load_whitelist b). exact H.
Qed.

Lemma create_backup_wframe (b : bot) : wframe (create_backup h b).2 = wframe b.
Proof.
  unfold create_backup.
  destruct (world_exists h); simpl; [| reflexivity].
  destruct (tar_outcome h); reflexivity.
Qed.

Lemma send_backup_wframe (path : string) (c : caption) (b : bot) :
  wframe (send_backup h path c b).2 = wframe b.
Proof. unfold send_backup. destruct (backup_dir b !! path); reflexivity. Qed.

Lemma save_backup_settings_wframe (b : bot) :
  wframe (save_backup_settings h b).2 = wframe b.
Proof. unfold save_backup_settings. destruct (settings_write h); reflexivity. Qed.

Lemma setup_auto_backup_wframe (b : bot) : wframe (setup_auto_backup h b) = wframe b.
Proof.
  assert (Hs : wframe (stop_job b) = wframe b).
  { unfold stop_job. destruct (backup_job b); reflexivity. }
  unfold setup_auto_backup.
  destruct (negb _); [exact Hs |].
  destruct (plan_job _ _ _); exact Hs.
Qed.

Lemma cleanup_old_backups_wframe (b : bot) : wframe (cleanup_old_backups b) = wframe b.
Proof. destruct (cleanup_old_backups_shape b) as (gone & es & -> & _). reflexivity. Qed.

Lemma service_control_wframe (verb : string) (w : option string) (t : string)
    (n : Z) (b : bot) :
  wframe (service_control h verb w t n b) = wframe b.
Proof.
  unfold service_control.
  destruct (systemctl_ok h verb); destruct w; unfold wframe; simpl;
    try reflexivity;
    pose proof (execute_server_command_wframe s b) as E;
    unfold wframe in E; exact E.
Qed.

Lemma save_whitelist_config (w : list player) (b : bot) :
  config (save_whitelist h w b).2 = config b.
Proof. unfold save_whitelist. destruct (whitelist_write h); reflexivity. Qed.

End WhitelistUntouched.

Local Ltac wframe_call :=
  match goal with
  | |- context [match ?e with pair _ _ => _ end] =>
      lazymatch e with
      | load_whitelist ?b => pose proof (load_whitelist_wframe b)
      | execute_server_command ?h ?c ?b =>
          pose proof (execute_server_command_wframe h c b)
      | get_server_info ?h ?b => pose proof (get_server_info_wframe h b)
      | create_backup ?h ?b => pose proof (create_backup_wframe h b)
      | send_backup ?h ?p ?c ?b => pose proof (send_backup_wframe h p c b)
      | save_backup_settings ?h ?b => pose proof (save_backup_settings_wframe h b)
      | _ => idtac
      end;
      destruct e; cbn [snd] in *
  end.

Local Ltac wframe_if :=
  match goal with
  | |- context [if ?c then _ else _] => destruct c
  | |- context [match ?c with [] => _ | _ :: _ => _ end] => destruct c
  | |- context [match ?c with Some _ => _ | None => _ end] => destruct c
  end.

Local Ltac wframed :=
  repeat first [wframe_call | wframe_if];
  repeat match goal with
         | |- context [service_control ?h ?v ?w ?t ?n ?b] =>
             rewrite (service_control_wframe h v w t n b)
         | |- context [setup_auto_backup ?h ?b] =>
             rewrite (setup_auto_backup_wframe h b)
         end;
  unfold wframe in *;
  cbn [config whitelist_file emit emits ack deny_message deny_callback
       with_cache with_dir with_settings with_job with_settings_file with_command_file] in *;
  congruence.

Lemma auto_backup_task_wframe (h : host) (b : bot) :
  wframe (auto_backup_task h b) = wframe b.
Proof.
  unfold auto_backup_task.
  pose proof (create_backup_wframe h (emit (Log INFO AutoBackupStarted) b)) as H1.
  destruct (create_backup h _) as [[[success result] path] b1]. cbn [snd] in H1.
  change (wframe (emit (Log INFO AutoBackupStarted) b)) with (wframe b) in H1.
  destruct success, path as [path |]; try exact H1.
  pose proof (send_backup_wframe h path AutoCaption (cleanup_old_backups b1)) as H2.
  rewrite cleanup_old_backups_wframe, H1 in H2.
  destruct (send_backup _ _ _ _) as [sent b2]. destruct sent; exact H2.
Qed.

Lemma names_app (l1 l2 : list player) : names (l1 ++ l2) = names l1 ++ names l2.
Proof. apply omap_app. Qed.

Lemma elem_of_names (l : list player) (name : string) :
  name ∈ names l ↔ Exists (λ p, pname p = Some name) l.
Proof.
  unfold names. rewrite list_elem_of_omap, Exists_exists. split.
  - intros (p & Hp & Hn). exists p. split; assumption.
  - intros (p & Hp & Hn). exists p. split; assumption.
Qed.

Lemma names_filter (l : list player) (name : string) :
  names (filter (λ p, pname p ≠ Some name) l) = filter (λ n, n ≠ name) (names l).
Proof.
  unfold names. induction l as [| p l IH]; [reflexivity |].
  destruct (decide (pname p = Some name)) as [Heq | Hne].
  - rewrite filter_cons_False by tauto. cbn [omap list_omap]. rewrite Heq.
    rewrite filter_cons_False by tauto. exact IH.
  - rewrite filter_cons_True by exact Hne. cbn [omap list_omap].
    destruct (pname p) as [n |]; [| exact IH].
    rewrite filter_cons_True by congruence. rewrite <- IH. reflexivity.
Qed.

Lemma after_commands_wframe (h : host) (c1 c2 : string) (b : bot) :
  wframe (execute_server_command h c2 (execute_server_command h c1 b).2).2 = wframe b.
Proof. rewrite !execute_server_command_wframe. reflexivity. Qed.

(** What [add_player] leaves on disk. *)
Lemma add_player_disk (h : host) (text : string) (b : bot) :
  config (add_player h text b) = config b ∧
  whitelist_file (add_player h text b)
    = if decide (Py.strip text ∈ names (whitelist_on_disk b)) then whitelist_file b
      else match whitelist_write h with
           | Written =>
               Content (whitelist_on_disk b ++ [{| uuid := ""; pname := Some (Py.strip text) |}])
           | OpenFails => whitelist_file b
           | WriteFails => Corrupt
           end.
Proof.
  unfold add_player.
  pose proof (load_whitelist_wframe b) as Hf. pose proof (load_whitelist_list b) as Hl.
  destruct (load_whitelist b) as [wl b1]. cbn [fst snd] in Hf, Hl. subst wl.
  unfold wframe in Hf. injection Hf as Hc1 Hd1.
  destruct (decide (Py.strip text ∈ names (whitelist_on_disk b))) as [Hin | Hnin].
  - rewrite bool_decide_eq_true_2 by (apply elem_of_names, Hin).
    split; [exact Hc1 | exact Hd1].
  - rewrite bool_decide_eq_false_2 by (rewrite <- elem_of_names; exact Hnin).
    unfold save_whitelist. destruct (whitelist_write h).
    + pose proof (after_commands_wframe h ("whitelist add " +:+ Py.strip text)
        "whitelist reload"
        (with_cache (whitelist_on_disk b ++ [{| uuid := ""; pname := Some (Py.strip text) |}])
           (with_whitelist_file
              (Content (whitelist_on_disk b ++ [{| uuid := ""; pname := Some (Py.strip text) |}]))
              (with_cache (whitelist_on_disk b ++ [{| uuid := ""; pname := Some (Py.strip text) |}])
                 b1)))) as Hw.
      destruct (execute_server_command h ("whitelist add " +:+ _) _) as [success b2].
      cbn [snd] in Hw.
      destruct (execute_server_command h _ b2) as [ok b3]. cbn [snd] in Hw.
      unfold wframe in Hw. cbn [config whitelist_file with_cache with_whitelist_file] in Hw.
      injection Hw as Hc Hw.
      destruct success; cbn [config whitelist_file emit]; (split; congruence).
    + split; [exact Hc1 | exact Hd1].
    + split; [exact Hc1 | reflexivity].
Qed.

Lemma filter_same_length {A} (P : A → Prop) `{∀ x, Decision (P x)} (l : list A) :
  length (filter P l) = length l → filter P l = l.
Proof.
  induction l as [| x l IH]; [reflexivity |].
  destruct (decide (P x)) as [Hx | Hx].
  - rewrite filter_cons_True by exact Hx. simpl. intros Hlen. f_equal. apply IH. lia.
  - rewrite filter_cons_False by exact Hx. intros Hlen.
    pose proof (length_filter P l). simpl in Hlen. lia.
Qed.

(** What [callback_remove_player_confirm] leaves on disk: the file is
    written only when the filter took an entry out. *)
Lemma remove_player_disk (h : host) (uid : Z) (data : string) (b : bot) :
  config (callback_remove_player_confirm h uid data b) = config b ∧
  whitelist_file (callback_remove_player_confirm h uid data b)
    = let new := filter (λ p, pname p ≠ Some (Py.remove_all "remove_player_" data))
                   (whitelist_on_disk b) in
      if is_admin b uid && negb (length new =? length (whitelist_on_disk b))%nat
      then match whitelist_write h with
           | Written => Content new
           | OpenFails => whitelist_file b
           | WriteFails => Corrupt
           end
      else whitelist_file b.
Proof.
  unfold callback_remove_player_confirm.
  destruct (is_admin b uid); cbn [negb andb]; [| split; reflexivity].
  pose proof (load_whitelist_wframe b) as Hf. pose proof (load_whitelist_list b) as Hl.
  destruct (load_whitelist b) as [wl b1]. cbn [fst snd] in Hf, Hl. subst wl.
  unfold wframe in Hf. injection Hf as Hc1 Hd1.
  cbn zeta. set (new := filter _ (whitelist_on_disk b)).
  destruct (length new =? length (whitelist_on_disk b))%nat eqn:Hlen; cbn [negb].
  - split; [exact Hc1 | exact Hd1].
  - unfold save_whitelist. destruct (whitelist_write h).
    + pose proof (after_commands_wframe h
        ("whitelist remove " +:+ Py.remove_all "remove_player_" data) "whitelist reload"
        (with_cache new (with_whitelist_file (Content new) b1))) as Hw.
      destruct (execute_server_command h ("whitelist remove " +:+ _) _) as [ok1 b2].
      cbn [snd] in Hw.
      destruct (execute_server_command h _ b2) as [ok2 b3]. cbn [snd] in Hw.
      unfold wframe in Hw. cbn [config whitelist_file with_cache with_whitelist_file] in Hw.
      injection Hw as Hc Hw.
      cbn [config whitelist_file ack emit]. split; congruence.
    + split; [exact Hc1 | exact Hd1].
    + split; [exact Hc1 | reflexivity].
Qed.

Local Ltac wframed' :=
  repeat first [wframe_call | wframe_if];
  repeat match goal with
         | |- context [wframe (emit ?e ?x)] => change (wframe (emit e x)) with (wframe x)
         | |- context [wframe (ack ?x)] => change (wframe (ack x)) with (wframe x)
         end;
  rewrite ?setup_auto_backup_wframe, ?service_control_wframe;
  unfold wframe in *;
  cbn [config whitelist_file emit emits ack deny_message deny_callback
       with_cache with_dir with_settings with_job with_settings_file with_command_file] in *;
  congruence.

Lemma wframe_step (h : host) (b b' : bot) :
  wframe b' = wframe b →
  config b' = config b ∧ whitelist_step h b b'.
Proof.
  unfold wframe. intros [= Hc Hf]. split; [exact Hc |]. left. exact Hf.
Qed.

Lemma dispatch_whitelist (h : host) (uid : Z) (req : request) (b : bot) :
  config (dispatch h uid req b) = config b ∧
  whitelist_step h b (dispatch h uid req b).
Proof.
  destruct req as [c args | data | text reply_to]; unfold dispatch.
  - apply wframe_step.
    destruct c; unfold on_command, cmd_start, cmd_status, cmd_info, cmd_logs,
      cmd_whitelist, cmd_backup, cmd_command, cmd_message, cmd_help; wframed'.
  - destruct (route_callback data) as [btn |]; [| apply wframe_step; reflexivity].
    destruct btn; unfold on_button;
      try (apply wframe_step; unfold
        callback_server_status, callback_server_info, callback_server_logs,
        callback_service_status, callback_menu, callback_show_whitelist,
        callback_start_server, callback_stop_server, callback_restart_server,
        callback_fixed_command, callback_prompt, callback_remove_player,
        callback_create_backup, callback_backup_settings,
        callback_toggle_auto_backup, callback_set_interval; wframed').
    destruct (remove_player_disk h uid data b) as [Hc Hd].
    split; [exact Hc |]. unfold whitelist_step. rewrite Hd. cbn zeta.
    destruct (_ && _); [| left; reflexivity].
    destruct (whitelist_write h).
    + right; left. split; [reflexivity |]. right. eexists. reflexivity.
    + left. reflexivity.
    + right; right. split; reflexivity.
  - unfold handle_text.
    destruct (negb (is_admin b uid)); [apply wframe_step; reflexivity |].
    destruct (replies_to _ reply_to).
    { destruct (add_player_disk h text b) as [Hc Hd]. split; [exact Hc |].
      unfold whitelist_step. rewrite Hd.
      destruct (decide _) as [| Hnew]; [left; reflexivity |].
      destruct (whitelist_write h).
      - right; left. split; [reflexivity |]. left.
        exists (Py.strip text). split; [exact Hnew | reflexivity].
      - left. reflexivity.
      - right; right. split; reflexivity. }
    apply wframe_step.
    destruct (replies_to _ reply_to); [unfold say_message; wframed' |].
    destruct (replies_to _ reply_to); [unfold set_backup_time; wframed' |].
    destruct (replies_to _ reply_to); [unfold set_backup_count; wframed' |].
    reflexivity.
Qed.

Lemma step_whitelist (h : host) (i : input) (b : bot) :
  config (step h i b) = config b ∧ whitelist_step h b (step h i b).
Proof.
  destruct i as [uid req |]; unfold step; [apply dispatch_whitelist |].
  destruct (backup_job b); [apply wframe_step, auto_backup_task_wframe |].
  apply wframe_step. reflexivity.
Qed.

Lemma whitelist_step_unique (h : host) (b b' : bot) :
  whitelist_step h b b' →
  NoDup (names (whitelist_on_disk b)) → NoDup (names (whitelist_on_disk b')).
Proof.
  unfold whitelist_on_disk at 2.
  intros [-> | [[_ [(name & Hnew & ->) | (name & ->)]] | [_ ->]]] Hnd.
  - exact Hnd.
  - rewrite names_app. apply NoDup_app. split; [exact Hnd |]. split.
    + intros n Hn Hin. apply list_elem_of_singleton in Hin. subst n. contradiction.
    + apply NoDup_singleton.
  - rewrite names_filter. apply NoDup_filter, Hnd.
  - constructor.
Qed.

(** X13: no request and no timer fire changes the configuration, so the
    administrator identity is fixed for the life of the process.  One step
    leaves the allow-list file as it is, or, when the file can be written,
    replaces it by what was read with a name not yet listed appended or
    with a name filtered out, or, when a write fails once the file is open,
    leaves a file that does not parse; so names that are unique in what
    the handlers read from the file stay unique. *)
Theorem allow_list_names_stay_unique (inputs : list (host * input)) (b : bot) :
  (∀ h i b0, config (step h i b0) = config b0 ∧ whitelist_step h b0 (step h i b0)) ∧
  config (run inputs b) = config b ∧
  (NoDup (names (whitelist_on_disk b)) →
   NoDup (names (whitelist_on_disk (run inputs b)))).
Proof.
  split; [intros h i b0; apply step_whitelist |].
  revert b. unfold run. induction inputs as [| [h i] rest IH]; intros b; simpl.
  - split; [reflexivity | tauto].
  - destruct (step_whitelist h i b) as [Hc Hw].
    destruct (IH (step h i b)) as [Hc' Hnd'].
    split; [congruence |].
    intros Hnd. apply Hnd'. exact (whitelist_step_unique h _ _ Hw Hnd).
Qed.

Lemma allow_list_names_stay_unique_witness :
  NoDup (names (whitelist_on_disk
    (run [(Sample.quiet, Update Sample.admin
             (TextMessage "Steve" (Some add_player_prompt)));
          (Sample.quiet, Update Sample.admin
             (TextMessage "Steve" (Some add_player_prompt)))]
       (Sample.bot_with ∅ ∅)))).
Proof.
  refine (proj2 (proj2 (allow_list_names_stay_unique
    [(Sample.quiet, Update Sample.admin (TextMessage "Steve" (Some add_player_prompt)));
     (Sample.quiet, Update Sample.admin (TextMessage "Steve" (Some add_player_prompt)))]
    (Sample.bot_with ∅ ∅))) _).
  vm_compute. constructor.
Defined.

Lemma route_remove_player (value : string) :
  route_callback ("remove_player_" +:+ value) = Some BRemovePlayerConfirm.
Proof. destruct value; reflexivity. Qed.

Lemma filter_keeps_other_names (l : list player) (name : string) :
  name ∉ names l → filter (λ p, pname p ≠ Some name) l = l.
Proof.
  intros Hnew. induction l as [| p l IH]; [reflexivity |].
  rewrite filter_cons_True.
  - f_equal. apply IH. intros Hin. apply Hnew.
    apply elem_of_names. apply Exists_cons_tl, elem_of_names, Hin.
  - intros Hp. apply Hnew. apply elem_of_names. apply Exists_cons_hd. exact Hp.
Qed.

(** X14: adding a player and then pressing that player's remove button
    brings the allow-list back to what it was, as long as the allow-list
    file can be written at both steps.  The administrator replies to the add
    prompt with a text whose stripped form is not yet listed and does not
    contain the marker of the remove buttons; what is read from the file
    is then the old entries followed by the new one with an empty uuid, and
    after the remove button it is the old entries again. *)
Theorem add_then_remove_restores (h1 h2 : host) (uid : Z) (text : string) (b : bot) :
  is_admin b uid = true →
  whitelist_writable h1 = true →
  whitelist_writable h2 = true →
  Py.strip text ∉ names (whitelist_on_disk b) →
  Py.contains "remove_player_" (Py.strip text) = false →
  whitelist_on_disk (dispatch h1 uid (TextMessage text (Some add_player_prompt)) b)
    = whitelist_on_disk b ++ [{| uuid := ""; pname := Some (Py.strip text) |}] ∧
  whitelist_on_disk
    (dispatch h2 uid (ButtonPress ("remove_player_" +:+ Py.strip text))
       (dispatch h1 uid (TextMessage text (Some add_player_prompt)) b))
    = whitelist_on_disk b.
Proof.
  intros Hadm Hw1 Hw2 Hnew Hmark.
  assert (Hadd : dispatch h1 uid (TextMessage text (Some add_player_prompt)) b
            = add_player h1 text b).
  { unfold dispatch, handle_text. rewrite Hadm. reflexivity. }
  rewrite Hadd. destruct (add_player_disk h1 text b) as [Hc Hd].
  rewrite decide_False in Hd by exact Hnew.
  unfold whitelist_writable in Hw1, Hw2.
  destruct (whitelist_write h1); try discriminate Hw1.
  assert (Hdisk : whitelist_on_disk (add_player h1 text b)
            = whitelist_on_disk b ++ [{| uuid := ""; pname := Some (Py.strip text) |}]).
  { unfold whitelist_on_disk at 1. rewrite Hd. reflexivity. }
  split; [exact Hdisk |].
  unfold dispatch. rewrite route_remove_player. unfold on_button.
  destruct (remove_player_disk h2 uid ("remove_player_" +:+ Py.strip text)
              (add_player h1 text b)) as [_ Hr].
  assert (Hadm' : is_admin (add_player h1 text b) uid = true)
    by (unfold is_admin in *; rewrite Hc; exact Hadm).
  rewrite Hadm', Hdisk in Hr. cbn zeta in Hr.
  rewrite (remove_all_prefixed "r" "emove_player_" (Py.strip text)) in Hr.
  rewrite (remove_all_absent _ _ Hmark) in Hr.
  rewrite filter_app, filter_keeps_other_names in Hr by exact Hnew.
  rewrite filter_cons_False in Hr by (intros H; apply H; reflexivity).
  rewrite app_nil_r, length_app in Hr. cbn [length andb] in Hr.
  rewrite (proj2 (Nat.eqb_neq _ _)) in Hr by lia. cbn [negb] in Hr.
  destruct (whitelist_write h2); try discriminate Hw2.
  unfold whitelist_on_disk at 1. rewrite Hr. reflexivity.
Qed.

Lemma add_then_remove_restores_witness :
  whitelist_on_disk
    (dispatch Sample.quiet Sample.admin (ButtonPress ("remove_player_" +:+ Py.strip " Alex "))
       (dispatch Sample.quiet Sample.admin (TextMessage " Alex " (Some add_player_prompt))
          (Sample.bot_with ∅ ∅)))
  = whitelist_on_disk (Sample.bot_with ∅ ∅).
Proof.
  refine (proj2 (add_then_remove_restores Sample.quiet Sample.quiet Sample.admin " Alex "
            (Sample.bot_with ∅ ∅) _ _ _ _ _)).
  - reflexivity.
  - reflexivity.
  - reflexivity.
  - vm_compute. intros H. inversion H.
  - vm_compute. reflexivity.
Defined.

(** ** Relaying commands *)

Lemma line_feeds_app (s1 s2 : string) :
  line_feeds (s1 +:+ s2) = (line_feeds s1 + line_feeds s2)%nat.
Proof.
  induction s1 as [| c s1 IH]; [reflexivity |].
  change (String c s1 +:+ s2) with (String c (s1 +:+ s2)).
  cbn [line_feeds]. rewrite IH. destruct (Ascii.eqb c line_feed); reflexivity.
Qed.

Lemma substring_prefix (n : nat) (s : string) :
  String.prefix (String.substring 0 n s) s = true.
Proof.
  revert s. induction n as [| n IH]; intros [| c s]; try reflexivity.
  cbn [String.substring String.prefix].
  destruct (ascii_dec c c); [apply IH | contradiction].
Qed.

(** X15: the command relay passes its argument through untouched and reports
    delivery loosely.  For the administrator and a non-empty argument: when
    RCON answers, the server gets exactly the argument and the command file
    is left alone; when RCON is unavailable but the command file can be
    written, the argument and one line feed are appended to the file, the
    server gets nothing, and the reply still says the command was sent.
    The file gains one line feed more than the argument holds, so an
    argument with line feeds in it is recorded as several lines.  When the
    file cannot be written a failure is reported; the file is as before if
    it could not be opened, and else holds what it held followed by some
    beginning of the new text. *)
Theorem command_relay_is_opaque (h : host) (uid : Z) (args : string) (b : bot) :
  is_admin b uid = true →
  args ≠ "" →
  match rcon h args with
  | Some response =>
      trace (cmd_command h uid (Some args) b)
        = trace b ++ [ServerCommand args; Log INFO (CommandViaRcon args response);
                      Answer (CommandSent args)] ∧
      command_file (cmd_command h uid (Some args) b) = command_file b
  | None =>
      match command_write h with
      | Written =>
          trace (cmd_command h uid (Some args) b)
            = trace b ++ [Log INFO (CommandRecorded args);
                          Log INFO (CommandForServer args);
                          Answer (CommandSent args)] ∧
          command_file (cmd_command h uid (Some args) b)
            = command_file b +:+ args +:+ String line_feed "" ∧
          line_feeds (command_file (cmd_command h uid (Some args) b))
            = (line_feeds (command_file b) + line_feeds args + 1)%nat
      | OpenFails =>
          trace (cmd_command h uid (Some args) b)
            = trace b ++ [Log ERROR CommandFileFailed; Answer CommandFailed] ∧
          command_file (cmd_command h uid (Some args) b) = command_file b
      | WriteFails =>
          trace (cmd_command h uid (Some args) b)
            = trace b ++ [Log ERROR CommandFileFailed; Answer CommandFailed] ∧
          ∃ part,
            String.prefix part (args +:+ String line_feed "") = true ∧
            command_file (cmd_command h uid (Some args) b) = command_file b +:+ part
      end
  end.
Proof.
  intros Hadm Hne. unfold cmd_command, no_args, execute_server_command.
  rewrite Hadm. cbn [negb].
  rewrite (proj2 (String.eqb_neq args "")) by exact Hne.
  change (default "" (Some args)) with args.
  destruct (rcon h args); [| destruct (command_write h)];
    cbn [trace command_file emit emits with_command_file];
    rewrite <- ?app_assoc.
  - split; reflexivity.
  - split; [reflexivity |]. split; [reflexivity |].
    unfold command_line. rewrite !line_feeds_app.
    change (line_feeds (String line_feed "")) with 1%nat. lia.
  - split; reflexivity.
  - split; [reflexivity |]. eexists. split; [apply substring_prefix | reflexivity].
Qed.

Lemma command_relay_is_opaque_witness :
  line_feeds (command_file
    (cmd_command Sample.quiet Sample.admin (Some ("say hi" +:+ String line_feed "stop"))
       (Sample.bot_with ∅ ∅)))
  = (line_feeds (command_file (Sample.bot_with ∅ ∅))
     + line_feeds ("say hi" +:+ String line_feed "stop") + 1)%nat.
Proof.
  refine (proj2 (proj2 (command_relay_is_opaque Sample.quiet Sample.admin
            ("say hi" +:+ String line_feed "stop") (Sample.bot_with ∅ ∅) _ _))).
  - reflexivity.
  - discriminate.
Defined.

(** ** Log lines *)

(** X16: the number of log lines asked for is capped at 200 but has no lower
    bound: every argument gives at most 200, a missing, empty or
    unparsable argument gives 50, and a negative number is passed on as it
    is. *)
Theorem logs_lines_bounds (args : option string) :
  logs_lines args ≤ 200 ∧
  (∀ a n, args = Some a → a ≠ "" → Py.int a = Some n → logs_lines args = Z.min n 200) ∧
  (∀ a, args = Some a → Py.int a = None → logs_lines args = 50) ∧
  (args = None → logs_lines args = 50) ∧
  logs_lines (Some "-5") = -5.
Proof.
  split; [| split; [| split; [| split]]].
  - unfold logs_lines. destruct args as [a |]; [| lia].
    destruct (String.eqb a ""); [lia |]. destruct (Py.int a); lia.
  - intros a n -> Hne Hn. unfold logs_lines.
    rewrite (proj2 (String.eqb_neq a "")) by exact Hne. rewrite Hn. reflexivity.
  - intros a -> Hn. unfold logs_lines. rewrite Hn. destruct (String.eqb a ""); reflexivity.
  - intros ->. reflexivity.
  - reflexivity.
Qed.

Lemma logs_lines_bounds_witness : logs_lines (Some "1_000") = Z.min 1000 200.
Proof.
  refine (proj1 (proj2 (logs_lines_bounds (Some "1_000"))) "1_000" 1000 _ _ _).
  - reflexivity.
  - discriminate.
  - reflexivity.
Defined.

(** ** Typed backup times *)

Lemma formatted_times_are_fixed :
  forallb (λ hour,
    forallb (λ minute,
      bool_decide
        (parse_backup_time (Py.fmt02d hour +:+ ":" +:+ Py.fmt02d minute)
           = Some (Py.fmt02d hour +:+ ":" +:+ Py.fmt02d minute)))
      (seqZ 0 60))
    (seqZ 0 24) = true.
Proof. vm_compute. reflexivity. Qed.

(** X17: the validation of a typed backup time normalises it.  Whatever is
    accepted is stored as two digits, a colon and two digits with the hour
    at most 23 and the minute at most 59, and validating the stored form
    again gives the same text. *)
Theorem backup_time_is_normalised (text t : string) :
  parse_backup_time text = Some t →
  valid_time t = true ∧ parse_backup_time t = Some t.
Proof.
  intros H. split; [exact (parse_backup_time_valid text t H) |].
  unfold parse_backup_time in H.
  destruct (Py.split ":" text) as [| p0 [| p1 [| ? ?]]]; try discriminate.
  destruct (Py.int p0) as [hour |]; [| discriminate].
  destruct (Py.int p1) as [minute |]; [| discriminate].
  destruct (_ && _) eqn:Hr; [| discriminate].
  injection H as <-.
  repeat (apply andb_true_iff in Hr as [Hr ?]).
  pose proof formatted_times_are_fixed as Hall.
  rewrite forallb_forall in Hall.
  specialize (Hall hour). rewrite forallb_forall in Hall.
  apply (bool_decide_eq_true_1 _). apply Hall; apply list_elem_of_In, elem_of_seqZ; lia.
Qed.

Lemma backup_time_is_normalised_witness : parse_backup_time "03:05" = Some "03:05".
Proof.
  refine (proj2 (backup_time_is_normalised " 3 : +5" "03:05" _)).
  vm_compute. reflexivity.
Defined.

(** ** The administrator is served *)

Lemma unrefused_emit (e : event) (b : bot) :
  is_rejection e = false → unrefused b → unrefused (emit e b).
Proof.
  intros He Hb. unfold unrefused. cbn [trace emit].
  apply Forall_app_2; [exact Hb | repeat constructor; exact He].
Qed.

Lemma unrefused_emits (es : list event) (b : bot) :
  Forall (λ e, is_rejection e = false) es → unrefused b → unrefused (emits es b).
Proof. intros He Hb. unfold unrefused. cbn [trace emits]. apply Forall_app_2; assumption. Qed.

Section Unrefused.

Variable h : host.

Lemma load_whitelist_unrefused (b : bot) : unrefused b → unrefused (load_whitelist b).2.
Proof.
  intros H. unfold load_whitelist. destruct (whitelist_file b); try exact H.
  apply (unrefused_emit _ b); [reflexivity | exact H].
Qed.

Lemma save_whitelist_unrefused (w : list player) (b : bot) :
  unrefused b → unrefused (save_whitelist h w b).2.
Proof.
  intros H. unfold save_whitelist. destruct (whitelist_write h); [exact H | |].
  - apply unrefused_emit; [reflexivity | exact H].
  - apply (unrefused_emit _ (with_whitelist_file _ b)); [reflexivity | exact H].
Qed.

Lemma execute_server_command_unrefused (c : string) (b : bot) :
  unrefused b → unrefused (execute_server_command h c b).2.
Proof.
  intros H. unfold execute_server_command. destruct (rcon h c).
  - repeat (apply unrefused_emit; [reflexivity |]). exact H.
  - destruct (command_write h).
    + apply (unrefused_emits _ (with_command_file _ b)); [repeat constructor | exact H].
    + apply unrefused_emit; [reflexivity | exact H].
    + apply (unrefused_emit _ (with_command_file _ b)); [reflexivity | exact H].
Qed.

Lemma create_backup_unrefused (b : bot) : unrefused b → unrefused (create_backup h b).2.
Proof. unfold unrefused. rewrite create_backup_trace. tauto. Qed.

Lemma send_backup_unrefused (path : string) (c : caption) (b : bot) :
  unrefused b → unrefused (send_backup h path c b).2.
Proof.
  intros H. unfold send_backup. destruct (backup_dir b !! path); [| exact H].
  apply unrefused_emit; [reflexivity | exact H].
Qed.

Lemma save_backup_settings_unrefused (b : bot) :
  unrefused b → unrefused (save_backup_settings h b).2.
Proof.
  intros H. unfold save_backup_settings. destruct (settings_write h); [exact H | |].
  - apply unrefused_emit; [reflexivity | exact H].
  - apply (unrefused_emit _ (with_settings_file _ b)); [reflexivity | exact H].
Qed.

Lemma setup_auto_backup_unrefused (b : bot) : unrefused b → unrefused (setup_auto_backup h b).
Proof.
  intros H.
  assert (Hs : unrefused (stop_job b)).
  { unfold stop_job. destruct (backup_job b); [| exact H].
    apply (unrefused_emit (CronStop _) b); [reflexivity | exact H]. }
  unfold setup_auto_backup. destruct (negb _).
  - apply unrefused_emit; [reflexivity | exact Hs].
  - destruct (plan_job _ _ _).
    + exact Hs.
    + apply unrefused_emit; [reflexivity |].
      apply (unrefused_emit (CronArm _) (stop_job b)); [reflexivity | exact Hs].
    + apply unrefused_emit; [reflexivity | exact Hs].
Qed.

Lemma service_control_unrefused (verb : string) (w : option string) (t : string)
    (n : Z) (b : bot) :
  unrefused b → unrefused (service_control h verb w t n b).
Proof.
  intros H. unfold service_control.
  assert (Hw : unrefused match w with
                         | Some w0 => emit (Sleep 10) (execute_server_command h w0 b).2
                         | None => b
                         end).
  { destruct w; [| exact H].
    apply unrefused_emit; [reflexivity | apply execute_server_command_unrefused, H]. }
  destruct (systemctl_ok h verb); apply unrefused_emits; try exact Hw; repeat constructor.
Qed.

End Unrefused.

Local Ltac served_call :=
  match goal with
  | |- context [load_whitelist ?x] =>
      pose proof (load_whitelist_unrefused x);
      destruct (load_whitelist x) as [? ?]
  | |- context [save_whitelist ?h ?w ?x] =>
      pose proof (save_whitelist_unrefused h w x);
      destruct (save_whitelist h w x) as [? ?]
  | |- context [execute_server_command ?h ?c ?x] =>
      pose proof (execute_server_command_unrefused h c x);
      destruct (execute_server_command h c x) as [? ?]
  | |- context [create_backup ?h ?x] =>
      pose proof (create_backup_unrefused h x);
      destruct (create_backup h x) as [[[? ?] ?] ?]
  | |- context [send_backup ?h ?p ?c ?x] =>
      pose proof (send_backup_unrefused h p c x);
      destruct (send_backup h p c x) as [? ?]
  | |- context [save_backup_settings ?h ?x] =>
      pose proof (save_backup_settings_unrefused h x);
      destruct (save_backup_settings h x) as [? ?]
  end; cbn [fst snd] in *; cbv beta iota.

Local Ltac served_step :=
  match goal with
  | |- unrefused (emit _ _) => apply unrefused_emit; [reflexivity |]
  | |- unrefused (emits _ _) => apply unrefused_emits; [repeat constructor |]
  | |- unrefused (ack _) => unfold ack
  | |- unrefused (with_cache _ ?x) => change (unrefused x)
  | |- unrefused (with_settings _ ?x) => change (unrefused x)
  | |- unrefused (with_whitelist_file _ ?x) => change (unrefused x)
  | |- unrefused (setup_auto_backup _ _) => apply setup_auto_backup_unrefused
  | |- unrefused (service_control _ _ _ _ _ _) => apply service_control_unrefused
  | |- unrefused (if ?c then _ else _) => destruct c
  | |- unrefused (match ?c with [] => _ | _ :: _ => _ end) => destruct c
  | |- unrefused (match ?c with Some _ => _ | None => _ end) => destruct c
  | H : unrefused ?x → unrefused ?y |- unrefused ?y => apply H
  | |- _ => assumption
  end.

Local Ltac served := repeat first [served_call | served_step].

Section Served.

Variables (h : host) (uid : Z) (b : bot).
Hypothesis admin : is_admin b uid = true.
Hypothesis before : unrefused b.

Lemma on_command_unrefused (c : command) (args : option string) :
  unrefused (on_command h uid c args b).
Proof.
  destruct c; unfold on_command, cmd_start, cmd_status, cmd_info, cmd_logs,
    cmd_whitelist, cmd_backup, cmd_command, cmd_message, cmd_help, get_server_info;
    rewrite admin; cbn [negb]; served.
Qed.

Lemma on_button_unrefused (btn : button) (data : string) :
  unrefused (on_button h uid btn data b).
Proof.
  destruct btn; unfold on_button,
    callback_server_status, callback_server_info, callback_server_logs,
    callback_service_status, callback_menu, callback_show_whitelist,
    callback_start_server, callback_stop_server, callback_restart_server,
    callback_fixed_command, callback_prompt, callback_remove_player,
    callback_remove_player_confirm, callback_create_backup,
    callback_backup_settings, callback_toggle_auto_backup, callback_set_interval,
    get_server_info;
    rewrite admin; cbn [negb]; served.
Qed.

Lemma handle_text_unrefused (text : string) (reply_to : option string) :
  unrefused (handle_text h uid text reply_to b).
Proof.
  unfold handle_text, add_player, say_message, set_backup_time, set_backup_count.
  rewrite admin; cbn [negb]; served.
Qed.

End Served.

Lemma unlink_each_unrefused (files : list (string * fstat)) (b : bot) :
  unrefused b → unrefused (unlink_each files b).2.
Proof.
  revert b. induction files as [| [name st] rest IH]; intros b H; simpl; [exact H |].
  destruct (locked st); [exact H |].
  apply IH. apply (unrefused_emit _ (with_dir _ b)); [reflexivity | exact H].
Qed.

Lemma cleanup_old_backups_unrefused (b : bot) :
  unrefused b → unrefused (cleanup_old_backups b).
Proof.
  intros H. unfold cleanup_old_backups. destruct (excess b) as [old |].
  - pose proof (unlink_each_unrefused old b H) as Hu.
    destruct (unlink_each old b) as [raised b']. cbn [snd] in Hu.
    destruct raised; [apply unrefused_emit; [reflexivity |] |]; exact Hu.
  - apply unrefused_emit; [reflexivity | exact H].
Qed.

Lemma auto_backup_task_unrefused (h : host) (b : bot) :
  unrefused b → unrefused (auto_backup_task h b).
Proof.
  intros H. unfold auto_backup_task.
  pose proof (create_backup_unrefused h (emit (Log INFO AutoBackupStarted) b)
                (unrefused_emit (Log INFO AutoBackupStarted) b eq_refl H)) as H1.
  destruct (create_backup h _) as [[[success result] path] b1]. cbn [snd] in H1.
  destruct success, path as [path |];
    try (apply unrefused_emit; [reflexivity | exact H1]).
  pose proof (send_backup_unrefused h path AutoCaption (cleanup_old_backups b1)
                (cleanup_old_backups_unrefused b1 H1)) as H2.
  destruct (send_backup _ _ _ _) as [sent b2]. cbn [snd] in H2.
  destruct sent; apply unrefused_emit; try reflexivity; exact H2.
Qed.

Lemma step_config (h : host) (i : input) (b : bot) : config (step h i b) = config b.
Proof.
  destruct i as [uid req |]; unfold step; [apply dispatch_whitelist |].
  destruct (backup_job b); [| reflexivity].
  pose proof (auto_backup_task_wframe h b) as H. unfold wframe in H. congruence.
Qed.

(** X18: the administrator is never refused.  In a run in which every update
    comes from the administrator, whatever the requests and however the
    host answers, no handler and no timer fire ever emits a rejection. *)
Theorem administrator_is_never_refused (inputs : list (host * input)) (b : bot) :
  Forall (λ hi, match hi.2 with
                | Update uid _ => is_admin b uid = true
                | TimerFired => True
                end) inputs →
  unrefused b →
  unrefused (run inputs b).
Proof.
  intros Hin. unfold run.
  assert (Hgen : ∀ b', config b' = config b → unrefused b' →
            unrefused (foldl (λ b hi, step hi.1 hi.2 b) b' inputs)).
  { induction Hin as [| [h i] rest Hi _ IH]; intros b' Hc Hb'; simpl; [exact Hb' |].
    apply IH; [rewrite step_config; exact Hc |].
    destruct i as [uid req |]; unfold step.
    - simpl in Hi.
      assert (Hadm : is_admin b' uid = true) by (unfold is_admin in *; rewrite Hc; exact Hi).
      destruct req as [c args | data | text reply_to]; unfold dispatch.
      + apply on_command_unrefused; assumption.
      + destruct (route_callback data); [apply on_button_unrefused; assumption | exact Hb'].
      + apply handle_text_unrefused; assumption.
    - destruct (backup_job b'); [apply auto_backup_task_unrefused |]; exact Hb'. }
  apply Hgen. reflexivity.
Qed.

Lemma administrator_is_never_refused_witness :
  unrefused (run [(Sample.quiet, Update Sample.admin (SlashCommand CmdBackup None));
                  (Sample.quiet, Update Sample.admin (ButtonPress "toggle_auto_backup"));
                  (Sample.quiet, TimerFired)]
               (Sample.bot_with ∅ ∅)).
Proof.
  refine (administrator_is_never_refused
    [(Sample.quiet, Update Sample.admin (SlashCommand CmdBackup None));
     (Sample.quiet, Update Sample.admin (ButtonPress "toggle_auto_backup"));
     (Sample.quiet, TimerFired)]
    (Sample.bot_with ∅ ∅) _ _).
  - repeat constructor.
  - constructor.
Defined.

Lemma route_interval (value : string) :
  route_callback ("interval_" +:+ value) = Some BSetInterval.
Proof. destruct value; reflexivity. Qed.

Local Ltac pick_button H :=
  repeat (apply elem_of_cons in H as [-> | H]; [eexists; reflexivity |]);
  try (apply elem_of_nil in H; contradiction).

(** X19: no keyboard has a dead button.  In every state and for every
    allow-list, the callback data of each button of each keyboard the bot
    builds is taken by some registered handler; a remove button reaches the
    confirm handler whatever the player's name. *)
Theorem every_button_is_handled (b : bot) (whitelist : list player)
    (keyboard : list (list inline_button)) (row : list inline_button) (btn : inline_button) :
  keyboard ∈ keyboards b whitelist →
  row ∈ keyboard →
  btn ∈ row →
  ∃ handler, route_callback (callback_data btn) = Some handler.
Proof.
  intros Hk Hrow Hbtn. unfold keyboards in Hk.
  repeat (apply elem_of_cons in Hk as [-> | Hk]).
  - unfold get_main_keyboard in Hrow.
    repeat (apply elem_of_cons in Hrow as [-> | Hrow]; [pick_button Hbtn |]).
    apply elem_of_nil in Hrow. contradiction.
  - unfold get_control_keyboard in Hrow.
    repeat (apply elem_of_cons in Hrow as [-> | Hrow]; [pick_button Hbtn |]).
    apply elem_of_nil in Hrow. contradiction.
  - unfold get_whitelist_keyboard in Hrow.
    repeat (apply elem_of_cons in Hrow as [-> | Hrow]; [pick_button Hbtn |]).
    apply elem_of_nil in Hrow. contradiction.
  - unfold get_backup_settings_keyboard in Hrow.
    destruct (truthy _); [destruct (shows_time b) |]; cbn [app] in Hrow;
      repeat (apply elem_of_cons in Hrow as [-> | Hrow]; [pick_button Hbtn |]);
      apply elem_of_nil in Hrow; contradiction.
  - unfold get_interval_keyboard, intervals in Hrow. cbn [fmap list_fmap app] in Hrow.
    repeat (apply elem_of_cons in Hrow as [-> | Hrow]; [pick_button Hbtn |]).
    apply elem_of_nil in Hrow. contradiction.
  - unfold remove_player_keyboard in Hrow. apply elem_of_app in Hrow as [Hrow | Hrow].
    + apply list_elem_of_fmap in Hrow as (p & -> & _).
      apply list_elem_of_singleton in Hbtn. subst btn. cbn [callback_data].
      eexists. apply route_remove_player.
    + apply list_elem_of_singleton in Hrow. subst row. pick_button Hbtn.
  - apply list_elem_of_singleton in Hrow. subst row. pick_button Hbtn.
  - apply list_elem_of_singleton in Hrow. subst row. pick_button Hbtn.
  - apply list_elem_of_singleton in Hrow. subst row. pick_button Hbtn.
  - apply elem_of_nil in Hk. contradiction.
Qed.

Lemma callback_set_interval_interval (h : host) (uid : Z) (data : string) (b : bot) :
  is_admin b uid = true →
  interval_of (callback_set_interval h uid data b) = JStr (Py.remove_all "interval_" data).
Proof.
  intros Hadm. unfold callback_set_interval. rewrite Hadm. cbn [negb].
  pose proof (save_backup_settings_settings h
    (with_settings (<["interval" := JStr (Py.remove_all "interval_" data)]>
       (backup_settings b)) b)) as Hs.
  destruct (save_backup_settings h _) as [saved b1]. cbn [snd] in Hs.
  unfold interval_of. cbn [backup_settings emit].
  rewrite setup_auto_backup_settings, Hs. cbn [backup_settings with_settings].
  rewrite dict_get_insert, decide_True by reflexivity. reflexivity.
Qed.

(** X20: the interval keyboard can only set one of the five interval names
    the scheduler knows.  Each of its buttons other than the back button
    reaches the interval handler, and after the administrator presses it
    the interval in the settings is the key of that button, a recognised
    name. *)
Theorem interval_buttons_are_recognized (h : host) (uid : Z) (b : bot)
    (row : list inline_button) (btn : inline_button) :
  is_admin b uid = true →
  row ∈ get_interval_keyboard b →
  btn ∈ row →
  callback_data btn ≠ "backup_settings" →
  route_callback (callback_data btn) = Some BSetInterval ∧
  (∃ key, key ∈ intervals.*1 ∧ callback_data btn = "interval_" +:+ key ∧
     interval_of (dispatch h uid (ButtonPress (callback_data btn)) b) = JStr key) ∧
  recognized_interval
    (interval_of (dispatch h uid (ButtonPress (callback_data btn)) b)) = true.
Proof.
  intros Hadm Hrow Hbtn Hback.
  assert (Hkey : ∃ key, key ∈ intervals.*1 ∧ callback_data btn = "interval_" +:+ key).
  { unfold get_interval_keyboard in Hrow. apply elem_of_app in Hrow as [Hrow | Hrow].
    - apply list_elem_of_fmap in Hrow as ([key name] & -> & Hin).
      apply list_elem_of_singleton in Hbtn. subst btn. exists key. split; [| reflexivity].
      apply (list_elem_of_fmap_2 fst) in Hin. exact Hin.
    - apply list_elem_of_singleton in Hrow. subst row.
      apply list_elem_of_singleton in Hbtn. subst btn. contradiction Hback. reflexivity. }
  destruct Hkey as (key & Hin & Hdata). rewrite Hdata.
  assert (Hset : interval_of (dispatch h uid (ButtonPress ("interval_" +:+ key)) b)
                   = JStr (Py.remove_all "interval_" ("interval_" +:+ key))).
  { unfold dispatch. rewrite route_interval. unfold on_button.
    apply callback_set_interval_interval, Hadm. }
  assert (Hround : Py.remove_all "interval_" ("interval_" +:+ key) = key
                   ∧ recognized_interval (JStr key) = true).
  { unfold intervals in Hin. cbn [fmap list_fmap fst] in Hin.
    repeat (apply elem_of_cons in Hin as [-> | Hin]; [split; reflexivity |]).
    apply elem_of_nil in Hin. contradiction. }
  destruct Hround as [Hround Hrec]. rewrite Hround in Hset.
  split; [apply route_interval |]. split.
  - exists key. split; [exact Hin |]. split; [reflexivity | exact Hset].
  - rewrite Hset. exact Hrec.
Qed.

Lemma interval_buttons_are_recognized_witness :
  recognized_interval
    (interval_of (dispatch Sample.quiet Sample.admin
       (ButtonPress (callback_data {| label := "📆 Еженедельно";
                                      callback_data := "interval_weekly" |}))
       (Sample.bot_with (Sample.settings true "daily" "03:00" 7) ∅))) = true.
Proof.
  refine (proj2 (proj2 (interval_buttons_are_recognized Sample.quiet Sample.admin
    (Sample.bot_with (Sample.settings true "daily" "03:00" 7) ∅)
    [ {| label := "📆 Еженедельно"; callback_data := "interval_weekly" |} ]
    {| label := "📆 Еженедельно"; callback_data := "interval_weekly" |} _ _ _ _))).
  - reflexivity.
  - unfold get_interval_keyboard, intervals. cbn [fmap list_fmap app fst snd].
    do 4 apply list_elem_of_further. apply list_elem_of_here.
  - apply list_elem_of_here.
  - discriminate.
Defined.

Lemma every_button_is_handled_witness :
  ∃ handler,
    route_callback (callback_data {| label := "↩️ Назад"; callback_data := "back_to_main" |})
      = Some handler.
Proof.
  refine (every_button_is_handled (Sample.bot_with ∅ ∅) [] (back_keyboard "back_to_main")
    [ {| label := "↩️ Назад"; callback_data := "back_to_main" |} ]
    {| label := "↩️ Назад"; callback_data := "back_to_main" |} _ _ _).
  - unfold keyboards. do 7 apply list_elem_of_further. apply list_elem_of_here.
  - apply list_elem_of_here.
  - apply list_elem_of_here.
Defined.

(** ** Tail of a log file *)

(** X21: the tail taken from a log file.  A positive count [n] gives the
    last [n] lines, or all of them when there are fewer; a count of 0
    gives the whole file, not nothing; a negative count [-m] gives the file
    without its first [m] lines. *)
Theorem last_lines_cases (all_lines : list string) (lines : Z) :
  (0 < lines →
     last_lines all_lines lines
       = drop (length all_lines - Z.to_nat lines) all_lines ∧
     length (last_lines all_lines lines) = Nat.min (Z.to_nat lines) (length all_lines)) ∧
  (lines = 0 → last_lines all_lines lines = all_lines) ∧
  (lines < 0 → last_lines all_lines lines = drop (Z.to_nat (- lines)) all_lines).
Proof.
  unfold last_lines, Py.slice_from. split; [| split].
  - intros Hpos.
    destruct (lines <? Z.of_nat (length all_lines)) eqn:E.
    + rewrite (proj2 (Z.ltb_lt (- lines) 0)) by lia.
      replace (Z.to_nat (- - lines)) with (Z.to_nat lines) by (f_equal; lia).
      split; [reflexivity |]. rewrite length_drop. apply Z.ltb_lt in E. lia.
    + apply Z.ltb_ge in E.
      replace (length all_lines - Z.to_nat lines)%nat with 0%nat by lia.
      split; [reflexivity |]. cbn [drop]. lia.
  - intros ->. destruct (0 <? Z.of_nat (length all_lines)); reflexivity.
  - intros Hneg. rewrite (proj2 (Z.ltb_lt lines _)) by lia.
    rewrite (proj2 (Z.ltb_ge (- lines) 0)) by lia. reflexivity.
Qed.

Lemma last_lines_cases_witness :
  last_lines ["a"; "b"; "c"] 2 = drop (length ["a"; "b"; "c"] - Z.to_nat 2) ["a"; "b"; "c"].
Proof.
  refine (proj1 (proj1 (last_lines_cases ["a"; "b"; "c"] 2) _)). lia.
Defined.

(** ** A failed upload *)

(** X22: a failed upload costs nothing on disk.  When the archive is built
    and the upload to the backup chat fails, the manual backup keeps the
    archive in the backup directory, complete, and tells the administrator
    that the backup was created but not sent; the scheduled task ends with
    the error log line of a failed upload. *)
Theorem failed_upload_keeps_archive (h : host) (uid : Z) (b : bot) :
  is_admin b uid = true →
  world_exists h = true →
  tar_outcome h = TarOk →
  upload_ok h = false →
  backup_dir (cmd_backup h uid b) !! backup_name h
    = Some {| st_mtime := now_mtime h; stat_raises := false; locked := false; intact := true |} ∧
  trace (cmd_backup h uid b)
    = trace b ++ [Answer CreatingBackup;
                  Answer (BackupResult true (BackupCreated (backup_name h)));
                  Upload (BACKUP_CHAT_ID (config b)) (backup_name h) ManualCaption false;
                  Answer BackupNotUploaded] ∧
  last (trace (auto_backup_task h b)) = Some (Log ERROR AutoBackupNotSent).
Proof.
  intros Hadm Hw Ht Hup. split; [| split].
  - unfold cmd_backup, create_backup, send_backup. rewrite Hadm, Hw, Ht. cbn [negb].
    cbn [backup_dir emit with_dir]. rewrite lookup_insert_eq, Hup.
    cbn [backup_dir emit with_dir]. apply lookup_insert_eq.
  - unfold cmd_backup, create_backup, send_backup. rewrite Hadm, Hw, Ht. cbn [negb].
    cbn [backup_dir emit with_dir]. rewrite lookup_insert_eq, Hup.
    cbn [trace config emit with_dir]. rewrite <- !app_assoc. reflexivity.
  - rewrite (auto_backup_task_built h b Hw Ht). cbn zeta.
    unfold send_backup. destruct (backup_dir _ !! backup_name h); rewrite ?Hup;
      cbn [fst snd trace emit]; apply last_snoc.
Qed.

Lemma failed_upload_keeps_archive_witness :
  last (trace (auto_backup_task
    {| now_stamp := "20240101_030000"; now_mtime := 100; world_exists := true;
       tar_outcome := TarOk; upload_ok := false; crontab_accepts := λ _, true;
       settings_write := Written; whitelist_write := Written;
       command_write := Written; command_partial := 0;
       rcon := λ _, None; systemctl_ok := λ _, true;
       service_state := None; service_report := ""; host_report := "";
       logs_tail := λ _, "" |}
    (Sample.bot_with ∅ ∅))) = Some (Log ERROR AutoBackupNotSent).
Proof.
  refine (proj2 (proj2 (failed_upload_keeps_archive _ Sample.admin (Sample.bot_with ∅ ∅)
            _ _ _ _))); reflexivity.
Defined.
